(** * GearGuard: the maintenance-request lifecycle, embedded and verified

    A shallow embedding of the request workflow of the GearGuard
    maintenance-management application:

    - [backend/models/Equipment.js] and [backend/models/MaintenanceRequest.js]
      (the Mongoose schemas: defaults, [trim] setters, validators);
    - [backend/controllers/requestController.js] and the auto-fill handler
      of the equipment controller (the Express handlers, with their
      [try]/[catch] and the order of their awaited store calls);
    - the Kanban board ([isValidTransition], [handleDragEnd]), the detail
      page ([handleStageChange]) and the request form ([validateForm],
      [handleSubmit]) of the React frontend.

    The document store is one finite map per collection, keyed by object
    id, together with the journal of the write commands sent to it.  A
    handler is a computation in a state-and-exception monad over the store,
    run to completion on its own; every awaited store call may throw
    (connection loss, cast error), as decided by the environment of the
    run. *)

From stdpp Require Import gmap strings list sorting.
From Stdlib Require Import ZArith Ascii String.

Local Open Scope string_scope.
Local Open Scope list_scope.

(** ** Values *)

(** A well-formed MongoDB object id (the 96-bit value, as a number).  Ids
    that fail Mongoose's cast make the store call throw; that is one of the
    faults of [Env] below. *)
Definition ObjectId : Type := N.

(** A JavaScript [Date], as milliseconds since the epoch. *)
Definition Date : Type := Z.

(** [String.prototype.trim] on the ASCII white space characters (tab, line
    feed, vertical tab, form feed, carriage return, space). *)
Definition is_space (a : ascii) : bool :=
  match N_of_ascii a with
  | 9%N | 10%N | 11%N | 12%N | 13%N | 32%N => true
  | _ => false
  end.

Fixpoint trimStart (s : string) : string :=
  match s with
  | EmptyString => EmptyString
  | String a s' => if is_space a then trimStart s' else s
  end.

Fixpoint trimEnd (s : string) : string :=
  match s with
  | EmptyString => EmptyString
  | String a s' =>
      match trimEnd s' with
      | EmptyString => if is_space a then EmptyString else String a EmptyString
      | t => String a t
      end
  end.

Definition trim (s : string) : string := trimEnd (trimStart s).

(** JavaScript truthiness of a string: only the empty string is falsy. *)
Definition truthy (s : string) : bool :=
  match s with EmptyString => false | _ => true end.

(** [Array.prototype.includes] on strings. *)
Definition includes (l : list string) (s : string) : bool :=
  bool_decide (s ∈ l).

(** ** The Mongoose models *)

(** [backend/models/Equipment.js] *)
Module Equipment.
Record t : Type := mk {
  _id : ObjectId;
  equipmentName : string;
  serialNumber : string;
  category : string;
  purchaseDate : option Date;
  warrantyExpiryDate : option Date;
  location : string;
  ownershipType : string;
  department : option string;
  assignedEmployee : option ObjectId;
  maintenanceTeam : ObjectId;
  defaultTechnician : ObjectId;
  isActive : bool
}.

#[global] Instance eq_dec : EqDecision t.
Proof. solve_decision. Defined.

(** The update document [{ isActive: false }]. *)
Definition set_inactive (e : t) : t :=
  mk (_id e) (equipmentName e) (serialNumber e) (category e)
     (purchaseDate e) (warrantyExpiryDate e) (location e)
     (ownershipType e) (department e) (assignedEmployee e)
     (maintenanceTeam e) (defaultTechnician e) false.
End Equipment.

(** [backend/models/MaintenanceRequest.js].  A field is an [option] where
    the schema gives it no default or the default [null]. *)
Module MaintenanceRequest.
Record t : Type := mk {
  _id : ObjectId;
  subject : option string;
  equipment : ObjectId;
  equipmentCategory : option string;
  maintenanceTeam : option ObjectId;
  requestType : option string;
  stage : string;
  priority : string;
  scheduledDate : option Date;
  assignedTechnician : option ObjectId;
  durationHours : Z;
  description : string;
  resolutionNotes : string;
  createdBy : ObjectId;
  createdAt : Date
}.

#[global] Instance eq_dec : EqDecision t.
Proof. solve_decision. Defined.

Definition stage_values : list string :=
  ["New"; "In Progress"; "Repaired"; "Scrap"].
Definition requestType_values : list string :=
  ["Corrective"; "Preventive"].
Definition priority_values : list string :=
  ["Low"; "Medium"; "High"; "Urgent"].

(** One validator of a path: [None] when it passes, the message of the
    schema when it fails. *)
Definition required_string (msg : string) (v : option string)
  : option string :=
  match v with
  | Some s => if truthy s then None else Some msg
  | None => Some msg
  end.

Definition enum (values : list string) (suffix : string) (v : string)
  : option string :=
  if includes values v then None else Some (v +:+ suffix).

(** Mongoose runs the [required] validator of a path first and reports
    one error per path; the other validators do not run on a missing
    value. *)
Definition validate_requestType (v : option string) : option string :=
  match required_string "Request type is required" v with
  | Some msg => Some msg
  | None =>
      match v with
      | Some s => enum requestType_values " is not a valid request type" s
      | None => None
      end
  end.

Definition validate_durationHours (h : Z) : option string :=
  if (h <? 0)%Z then Some "Duration cannot be negative" else None.

(** The validation errors of a document, one [(path, message)] per
    failing path, in schema order.  [equipment] and [createdBy] are
    always set in this model, so their [required] validators pass. *)
Definition validate (r : t) : list (string * string) :=
  let err (path : string) (o : option string) :=
    match o with Some msg => [(path, msg)] | None => [] end in
  err "subject" (required_string "Subject is required" (subject r))
  ++ err "requestType" (validate_requestType (requestType r))
  ++ err "stage" (enum stage_values " is not a valid stage" (stage r))
  ++ err "priority" (enum priority_values " is not a valid priority" (priority r))
  ++ err "durationHours" (validate_durationHours (durationHours r)).

End MaintenanceRequest.

(** The authenticated user the [auth] middleware puts in [req.user]. *)
Module User.
Record t : Type := mk {
  _id : ObjectId;
  role : string;
  team : option ObjectId
}.
End User.

(** ** The store, and handlers as computations over it *)

(** The awaited store calls of the handlers. *)
Inductive DbCall : Type :=
| EquipmentFindById
| EquipmentFindByIdAndUpdate
| RequestCreate
| RequestFind
| RequestFindById
| RequestFindByIdAndUpdate
| RequestSave
| RequestPopulate.

(** What one run of a handler takes from outside: which store calls throw,
    the object id Mongoose generates for a new document, and the clock. *)
Record Env : Type := mkEnv {
  fails : DbCall -> bool;
  newObjectId : ObjectId;
  now : Date
}.

(** The write commands sent to the store, in the order they are sent. *)
Inductive Write : Type :=
| InsertRequest (id : ObjectId)
| SaveRequest (id : ObjectId)
| UpdateRequest (id : ObjectId)
| UpdateEquipment (id : ObjectId).

Record Store : Type := mkStore {
  equipments : gmap ObjectId Equipment.t;
  requests : gmap ObjectId MaintenanceRequest.t;
  users : gmap ObjectId User.t;
  journal : list Write
}.

Inductive Exn : Type :=
| ValidationError (errors : list (string * string))
| StoreError (c : DbCall)
| DuplicateKey
| TypeError (msg : string).

Inductive Outcome (A : Type) : Type :=
| Return (a : A)
| Throw (e : Exn).
Arguments Return {A} a.
Arguments Throw {A} e.

Definition M (A : Type) : Type := Env -> Store -> Store * Outcome A.

Definition ret {A : Type} (a : A) : M A := fun _ st => (st, Return a).

Definition throw {A : Type} (e : Exn) : M A := fun _ st => (st, Throw e).

Definition bind {A B : Type} (m : M A) (k : A -> M B) : M B :=
  fun env st =>
    match m env st with
    | (st', Return a) => k a env st'
    | (st', Throw e) => (st', Throw e)
    end.

Notation "'let!' x ':=' m 'in' k" := (bind m (fun x => k))
  (at level 10, x name, m at level 100, k at level 200, only parsing).
Notation "'do!' m 'in' k" := (bind m (fun _ => k))
  (at level 10, m at level 100, k at level 200, only parsing).

(** An awaited store call: it throws, without effect, when the environment
    says so, and otherwise runs on the store. *)
Definition call {A : Type} (c : DbCall) (op : Store -> Store * A) : M A :=
  fun env st =>
    if fails env c then (st, Throw (StoreError c))
    else let (st', a) := op st in (st', Return a).

Definition newId : M ObjectId := fun env st => (st, Return (newObjectId env)).
Definition clock : M Date := fun env st => (st, Return (now env)).
Definition get : M Store := fun _ st => (st, Return st).

Definition log (w : Write) (st : Store) : Store :=
  mkStore (equipments st) (requests st) (users st) (journal st ++ [w]).

Definition put_request (r : MaintenanceRequest.t) (st : Store) : Store :=
  mkStore (equipments st) (<[MaintenanceRequest._id r := r]> (requests st))
          (users st) (journal st).

Definition alter_equipment (f : Equipment.t -> Equipment.t) (id : ObjectId)
    (st : Store) : Store :=
  mkStore (alter f id (equipments st)) (requests st) (users st) (journal st).

(** [Equipment.findById(id)]; an [undefined] id finds nothing. *)
Definition Equipment_findById (id : option ObjectId) : M (option Equipment.t) :=
  call EquipmentFindById (fun st => (st, id ≫= fun i => equipments st !! i)).

(** [Equipment.findByIdAndUpdate(id, update)]: the command is sent whether
    or not a document matches; the result is the document as it was. *)
Definition Equipment_findByIdAndUpdate (id : ObjectId)
    (update : Equipment.t -> Equipment.t) : M (option Equipment.t) :=
  call EquipmentFindByIdAndUpdate (fun st =>
    (log (UpdateEquipment id) (alter_equipment update id st),
     equipments st !! id)).

(** [MaintenanceRequest.findById(id)] *)
Definition MaintenanceRequest_findById (id : ObjectId) : M (option MaintenanceRequest.t) :=
  call RequestFindById (fun st => (st, requests st !! id)).

(** Validation before a [create] or a [save]: it runs in the process, before
    any store call, and throws one error that lists every failing path. *)
Definition validated (r : MaintenanceRequest.t) : M unit :=
  match MaintenanceRequest.validate r with
  | [] => ret tt
  | errs => throw (ValidationError errs)
  end.

(** [MaintenanceRequest.create(doc)] for a document already built with its
    defaults and setters applied: validate, then insert. *)
Definition MaintenanceRequest_create (r : MaintenanceRequest.t) : M MaintenanceRequest.t :=
  do! validated r in
  bind (call RequestCreate (fun st =>
          match requests st !! MaintenanceRequest._id r with
          | Some _ => (st, false)
          | None => (log (InsertRequest (MaintenanceRequest._id r)) (put_request r st), true)
          end))
       (fun inserted => if inserted : bool then ret r else throw DuplicateKey).

(** [request.save()] on a loaded document: validate, then write the
    document back.  For a document with no modified path Mongoose sends no
    write; it only asks the store whether the document is still there. *)
Definition save (r : MaintenanceRequest.t) : M unit :=
  do! validated r in
  let! st := get in
  if bool_decide (requests st !! MaintenanceRequest._id r = Some r)
  then call RequestSave (fun st => (st, tt))
  else call RequestSave (fun st =>
         (log (SaveRequest (MaintenanceRequest._id r)) (put_request r st), tt)).

(** [await request.populate([...])]: one more awaited read; the referenced
    documents it attaches to the response are not part of this model. *)
Definition populate : M unit :=
  call RequestPopulate (fun st => (st, tt)).

(** ** Plain objects of request fields *)

(** [req.body] of the create and update routes: for every schema path,
    [None] when the caller does not supply it.  The paths whose default in
    the schema is [null] carry an inner [option] for a supplied [null].
    For [stage], [priority], [durationHours], [description] and
    [resolutionNotes] the model follows the bodies that supply a value of
    the path's type; a body that supplies [null] there, or that names
    [_id] or [createdAt], is outside it. *)
Module Fields.
Record t : Type := mk {
  subject : option string;
  equipment : option ObjectId;
  equipmentCategory : option string;
  maintenanceTeam : option (option ObjectId);
  requestType : option string;
  stage : option string;
  priority : option string;
  scheduledDate : option (option Date);
  assignedTechnician : option (option ObjectId);
  durationHours : option Z;
  description : option string;
  resolutionNotes : option string;
  createdBy : option ObjectId
}.
End Fields.

(** [new MaintenanceRequest(fields)]: the schema's setters ([trim]) and
    defaults applied to the fields. *)
Definition new_document (id : ObjectId) (created : Date)
    (equipment createdBy : ObjectId) (f : Fields.t) : MaintenanceRequest.t :=
  MaintenanceRequest.mk id
    (trim <$> Fields.subject f)
    equipment
    (trim <$> Fields.equipmentCategory f)
    (default None (Fields.maintenanceTeam f))
    (Fields.requestType f)
    (default "New" (Fields.stage f))
    (default "Medium" (Fields.priority f))
    (default None (Fields.scheduledDate f))
    (default None (Fields.assignedTechnician f))
    (default 0%Z (Fields.durationHours f))
    (trim (default "" (Fields.description f)))
    (trim (default "" (Fields.resolutionNotes f)))
    createdBy
    created.

(** [Object.assign(request, fields)] on a loaded document: every supplied
    path is set, through its setter; the others keep their value. *)
Definition assign (r : MaintenanceRequest.t) (f : Fields.t) : MaintenanceRequest.t :=
  MaintenanceRequest.mk (MaintenanceRequest._id r)
    (match Fields.subject f with
     | Some s => Some (trim s) | None => MaintenanceRequest.subject r end)
    (default (MaintenanceRequest.equipment r) (Fields.equipment f))
    (match Fields.equipmentCategory f with
     | Some s => Some (trim s) | None => MaintenanceRequest.equipmentCategory r end)
    (default (MaintenanceRequest.maintenanceTeam r) (Fields.maintenanceTeam f))
    (match Fields.requestType f with
     | Some s => Some s | None => MaintenanceRequest.requestType r end)
    (default (MaintenanceRequest.stage r) (Fields.stage f))
    (default (MaintenanceRequest.priority r) (Fields.priority f))
    (default (MaintenanceRequest.scheduledDate r) (Fields.scheduledDate f))
    (default (MaintenanceRequest.assignedTechnician r) (Fields.assignedTechnician f))
    (default (MaintenanceRequest.durationHours r) (Fields.durationHours f))
    (match Fields.description f with
     | Some s => trim s | None => MaintenanceRequest.description r end)
    (match Fields.resolutionNotes f with
     | Some s => trim s | None => MaintenanceRequest.resolutionNotes r end)
    (default (MaintenanceRequest.createdBy r) (Fields.createdBy f))
    (MaintenanceRequest.createdAt r).

(** [request.stage = stage] *)
Definition set_stage (r : MaintenanceRequest.t) (s : string) : MaintenanceRequest.t :=
  assign r (Fields.mk None None None None None (Some s) None None None None None None None).

(** The update document [{ assignedTechnician: technicianId }]. *)
Definition set_assignedTechnician (t : ObjectId) (r : MaintenanceRequest.t)
  : MaintenanceRequest.t :=
  assign r (Fields.mk None None None None None None None None (Some (Some t)) None None None None).

(** ** Responses *)

Inductive Data : Type :=
| NoData
| DataRequest (r : MaintenanceRequest.t)
| DataRequests (l : list MaintenanceRequest.t)
| DataAutoFill (equipmentCategory : string) (maintenanceTeam defaultTechnician : ObjectId).

(** [res.status(status).json({ success, message, error, data })] *)
Record Response : Type := mkResponse {
  status : nat;
  success : bool;
  message : option string;
  error : option Exn;
  data : Data
}.

Definition refuse (status : nat) (message : string) : M Response :=
  ret (mkResponse status false (Some message) None NoData).

Definition respond (status : nat) (message : option string) (d : Data) : M Response :=
  ret (mkResponse status true message None d).

(** [try { body } catch (error) { res.status(500).json(...) }] *)
Definition try_catch (body : M Response) (message : string)
  : Env -> Store -> Store * Response :=
  fun env st =>
    match body env st with
    | (st', Return r) => (st', r)
    | (st', Throw e) => (st', mkResponse 500 false (Some message) (Some e) NoData)
    end.

(** ** [backend/controllers/requestController.js] *)

(** The object literal handed to [MaintenanceRequest.create]: the body's
    fields, then the auto-filled ones over them. *)
Definition create_fields (body : Fields.t) (equipmentId : ObjectId)
    (equipment : Equipment.t) (user : User.t) : Fields.t :=
  Fields.mk (Fields.subject body)
    (Some equipmentId)
    (Some (Equipment.category equipment))
    (Some (Some (Equipment.maintenanceTeam equipment)))
    (Fields.requestType body)
    (Fields.stage body)
    (Fields.priority body)
    (Fields.scheduledDate body)
    (Some (Some (match Fields.assignedTechnician body with
                 | Some (Some t) => t
                 | _ => Equipment.defaultTechnician equipment
                 end)))
    (Fields.durationHours body)
    (Fields.description body)
    (Fields.resolutionNotes body)
    (Some (User._id user)).

(** [POST /api/requests] *)
Definition createRequest (user : User.t) (body : Fields.t)
  : Env -> Store -> Store * Response :=
  try_catch
    (let equipmentId := Fields.equipment body in
     let! equipment := Equipment_findById equipmentId in
     match equipment, equipmentId with
     | Some equipment, Some equipmentId =>
         if negb (Equipment.isActive equipment)
         then refuse 400 "Cannot create request for inactive/scrapped equipment."
         else
           let! id := newId in
           let! created := clock in
           let! request :=
             MaintenanceRequest_create
               (new_document id created equipmentId (User._id user)
                  (create_fields body equipmentId equipment user)) in
           do! populate in
           respond 201 (Some "Maintenance request created successfully.")
                   (DataRequest request)
     | _, _ => refuse 404 "Equipment not found."
     end)
    "Error creating request.".

(** The part of a MongoDB filter the handlers build. *)
Inductive Cond : Type :=
| createdBy_is (id : ObjectId)
| assignedTechnician_is (id : ObjectId)
| maintenanceTeam_is (team : option ObjectId)
| stage_is (s : string)
| priority_is (s : string)
| requestType_is (s : string)
| equipment_is (id : ObjectId)
| or_ (c1 c2 : Cond).

Fixpoint matches (c : Cond) (r : MaintenanceRequest.t) : bool :=
  match c with
  | createdBy_is id => bool_decide (MaintenanceRequest.createdBy r = id)
  | assignedTechnician_is id =>
      bool_decide (MaintenanceRequest.assignedTechnician r = Some id)
  | maintenanceTeam_is team =>
      bool_decide (MaintenanceRequest.maintenanceTeam r = team)
  | stage_is s => bool_decide (MaintenanceRequest.stage r = s)
  | priority_is s => bool_decide (MaintenanceRequest.priority r = s)
  | requestType_is s => bool_decide (MaintenanceRequest.requestType r = Some s)
  | equipment_is id => bool_decide (MaintenanceRequest.equipment r = id)
  | or_ c1 c2 => matches c1 r || matches c2 r
  end.

(** A filter object is the conjunction of its keys. *)
Definition matches_all (filter : list Cond) (r : MaintenanceRequest.t) : bool :=
  forallb (fun c => matches c r) filter.

(** [.sort({ createdAt: -1 })] *)
Definition newest_first (x y : MaintenanceRequest.t) : Prop :=
  (MaintenanceRequest.createdAt y ≤ MaintenanceRequest.createdAt x)%Z.

#[global] Instance newest_first_dec (x y : MaintenanceRequest.t)
  : Decision (newest_first x y).
Proof. unfold newest_first. apply _. Defined.

(** [MaintenanceRequest.find(filter).sort({ createdAt: -1 })] *)
Definition MaintenanceRequest_find (filter : list Cond) : M (list MaintenanceRequest.t) :=
  call RequestFind (fun st =>
    (st, merge_sort newest_first
           (List.filter (matches_all filter) (map_to_list (requests st)).*2))).

(** [req.query] of [GET /api/requests] *)
Record Query : Type := mkQuery {
  q_stage : option string;
  q_priority : option string;
  q_requestType : option string;
  q_equipmentId : option ObjectId;
  q_technicianId : option ObjectId
}.

(** [if (v) filter.key = v] for a string of the query. *)
Definition when_string (v : option string) (c : string -> Cond) : list Cond :=
  match v with
  | Some s => if truthy s then [c s] else []
  | None => []
  end.

Definition when_id (v : option ObjectId) (c : ObjectId -> Cond) : list Cond :=
  match v with
  | Some id => [c id]
  | None => []
  end.

(** The role-based part of the filter of [getAllRequests]. *)
Definition role_filter (user : User.t) : list Cond :=
  if bool_decide (User.role user = "User")
  then [createdBy_is (User._id user)]
  else if bool_decide (User.role user = "Technician")
  then [or_ (assignedTechnician_is (User._id user))
            (maintenanceTeam_is (User.team user))]
  else [].

(** The keys the query string adds to the filter. *)
Definition query_filter (query : Query) : list Cond :=
  when_string (q_stage query) stage_is
  ++ when_string (q_priority query) priority_is
  ++ when_string (q_requestType query) requestType_is
  ++ when_id (q_equipmentId query) equipment_is
  ++ when_id (q_technicianId query) assignedTechnician_is.

(** [GET /api/requests] *)
Definition getAllRequests (user : User.t) (query : Query)
  : Env -> Store -> Store * Response :=
  try_catch
    (let filter := role_filter user ++ query_filter query in
     let! requests := MaintenanceRequest_find filter in
     respond 200 None (DataRequests requests))
    "Error fetching requests.".

(** [MaintenanceRequest.findById(id).populate(...)] of [getRequestById]:
    the document, and the [_id] of its populated [createdBy], which is
    [null] when no user has that id. *)
Definition MaintenanceRequest_findById_populate (id : ObjectId)
  : M (option (MaintenanceRequest.t * option ObjectId)) :=
  call RequestFindById (fun st =>
    (st, (fun r => (r, (fun _ => MaintenanceRequest.createdBy r)
                         <$> users st !! MaintenanceRequest.createdBy r))
         <$> requests st !! id)).

(** [GET /api/requests/:id] *)
Definition getRequestById (user : User.t) (id : ObjectId)
  : Env -> Store -> Store * Response :=
  try_catch
    (let! found := MaintenanceRequest_findById_populate id in
     match found with
     | None => refuse 404 "Request not found."
     | Some (request, createdBy) =>
         if bool_decide (User.role user = "User")
         then
           match createdBy with
           | None => throw (TypeError "Cannot read properties of null (reading '_id')")
           | Some creator =>
               if negb (bool_decide (creator = User._id user))
               then refuse 403 "Access denied."
               else respond 200 None (DataRequest request)
           end
         else respond 200 None (DataRequest request)
     end)
    "Error fetching request.".

(** The permission check shared by [updateRequest] and
    [updateRequestStage]. *)
Definition canUpdate (user : User.t) (request : MaintenanceRequest.t) : bool :=
  let isAssignedTechnician :=
    bool_decide (MaintenanceRequest.assignedTechnician request = Some (User._id user)) in
  includes ["Admin"; "Manager"] (User.role user) || isAssignedTechnician.

(** [PUT /api/requests/:id] *)
Definition updateRequest (user : User.t) (id : ObjectId) (body : Fields.t)
  : Env -> Store -> Store * Response :=
  try_catch
    (let! found := MaintenanceRequest_findById id in
     match found with
     | None => refuse 404 "Request not found."
     | Some request =>
         if negb (canUpdate user request)
         then refuse 403 "You do not have permission to update this request."
         else
           let request := assign request body in
           do! save request in
           do! populate in
           respond 200 (Some "Request updated successfully.") (DataRequest request)
     end)
    "Error updating request.".

(** [PATCH /api/requests/:id/stage]; [stage] is [req.body.stage]. *)
Definition updateRequestStage (user : User.t) (id : ObjectId) (stage : option string)
  : Env -> Store -> Store * Response :=
  try_catch
    (match stage with
     | None | Some EmptyString => refuse 400 "Stage is required."
     | Some stage =>
         let! found := MaintenanceRequest_findById id in
         match found with
         | None => refuse 404 "Request not found."
         | Some request =>
             if negb (canUpdate user request)
             then refuse 403 "You do not have permission to update this request."
             else
               do! (if bool_decide (stage = "Scrap")
                    then do! Equipment_findByIdAndUpdate
                               (MaintenanceRequest.equipment request)
                               Equipment.set_inactive in
                         ret tt
                    else ret tt) in
               let request := set_stage request stage in
               do! save request in
               do! populate in
               respond 200 (Some ("Request stage updated to " +:+ stage +:+ "."))
                       (DataRequest request)
         end
     end)
    "Error updating request stage.".

(** [MaintenanceRequest.findByIdAndUpdate(id, update, { new: true })]: no
    validators run; the result is the updated document. *)
Definition MaintenanceRequest_findByIdAndUpdate (id : ObjectId)
    (update : MaintenanceRequest.t -> MaintenanceRequest.t)
  : M (option MaintenanceRequest.t) :=
  call RequestFindByIdAndUpdate (fun st =>
    (log (UpdateRequest id)
       (mkStore (equipments st) (alter update id (requests st))
                (users st) (journal st)),
     update <$> requests st !! id)).

(** The document as the [populate] of [assignedTechnician] shows it: the
    reference is replaced by the user it names, of whom the model keeps
    the [_id], or by null when no user has that id. *)
Definition populate_assignedTechnician (st : Store) (r : MaintenanceRequest.t)
  : MaintenanceRequest.t :=
  MaintenanceRequest.mk (MaintenanceRequest._id r) (MaintenanceRequest.subject r)
    (MaintenanceRequest.equipment r) (MaintenanceRequest.equipmentCategory r)
    (MaintenanceRequest.maintenanceTeam r) (MaintenanceRequest.requestType r)
    (MaintenanceRequest.stage r) (MaintenanceRequest.priority r)
    (MaintenanceRequest.scheduledDate r)
    (MaintenanceRequest.assignedTechnician r
       ≫= fun technician => (fun _ => technician) <$> users st !! technician)
    (MaintenanceRequest.durationHours r) (MaintenanceRequest.description r)
    (MaintenanceRequest.resolutionNotes r) (MaintenanceRequest.createdBy r)
    (MaintenanceRequest.createdAt r).

(** [PATCH /api/requests/:id/assign].  The query is
    [findByIdAndUpdate(...).populate(...)] four times over: the update is
    written first, then the populate look-ups are made on the updated
    document, and they can throw.  Of the four populated paths the answer
    of this model follows [assignedTechnician], the one the handler
    writes. *)
Definition assignTechnician (id : ObjectId) (technicianId : option ObjectId)
  : Env -> Store -> Store * Response :=
  try_catch
    (match technicianId with
     | None => refuse 400 "Technician ID is required."
     | Some technicianId =>
         let! updated :=
           MaintenanceRequest_findByIdAndUpdate id
             (set_assignedTechnician technicianId) in
         match updated with
         | None => refuse 404 "Request not found."
         | Some request =>
             let! request :=
               call RequestPopulate (fun st =>
                 (st, populate_assignedTechnician st request)) in
             respond 200 (Some "Technician assigned successfully.") (DataRequest request)
         end
     end)
    "Error assigning technician.".

(** ** The auto-fill handler of the equipment controller *)

(** [GET /api/equipment/:id/auto-fill] *)
Definition getEquipmentAutoFill (id : ObjectId) : Env -> Store -> Store * Response :=
  try_catch
    (let! equipment := Equipment_findById (Some id) in
     match equipment with
     | None => refuse 404 "Equipment not found."
     | Some equipment =>
         if negb (Equipment.isActive equipment)
         then refuse 400 "This equipment is marked as scrapped/inactive and cannot have new requests."
         else respond 200 None
                (DataAutoFill (Equipment.category equipment)
                   (Equipment.maintenanceTeam equipment)
                   (Equipment.defaultTechnician equipment))
     end)
    "Error fetching auto-fill data.".

(** ** The Kanban board *)

(** The object literal [validTransitions], by its own keys (no stage of
    the schema names a property inherited from [Object.prototype]). *)
Definition validTransitions : list (string * list string) :=
  [("New", ["In Progress"]); ("In Progress", ["Repaired"]); ("Repaired", [])].

Fixpoint property (o : list (string * list string)) (key : string)
  : option (list string) :=
  match o with
  | [] => None
  | (k, v) :: o' => if bool_decide (k = key) then Some v else property o' key
  end.

(** [isValidTransition(fromStage, toStage)] *)
Definition isValidTransition (fromStage toStage : string) : bool :=
  if bool_decide (fromStage = "Scrap") then false
  else if bool_decide (toStage = "Scrap") then true
  else
    match property validTransitions fromStage with
    | Some targets => includes targets toStage
    | None => false
    end.

(** What [handleDragEnd] does with a drop. *)
Inductive DragEnd : Type :=
| Nothing
| Toast (message : string)
| ScrapDialog (requestId : ObjectId) (fromStage : string)
| UpdateStage (requestId : ObjectId) (oldStage newStage : string).

(** [handleDragEnd(event)]: [requests] is the board's copy of the requests,
    [active] the id of the dragged card and [over] the id of the drop
    target, if any. *)
Definition handleDragEnd (requests : list MaintenanceRequest.t)
    (active : ObjectId) (over : option string) : DragEnd :=
  match over with
  | None => Nothing
  | Some newStage =>
      let requestId := active in
      match List.find (fun r => bool_decide (MaintenanceRequest._id r = requestId))
                      requests with
      | None => Nothing
      | Some request =>
          let oldStage := MaintenanceRequest.stage request in
          if bool_decide (oldStage = newStage) then Nothing
          else if negb (isValidTransition oldStage newStage)
          then Toast ("Cannot move from " +:+ oldStage +:+ " to " +:+ newStage)
          else if bool_decide (newStage = "Scrap")
          then ScrapDialog requestId oldStage
          else UpdateStage requestId oldStage newStage
      end
  end.

(** A drop on the board, up to the response of the server: [confirm] is the
    user's answer to the scrap dialog, and the board's [updateRequestStage]
    sends [PATCH /api/requests/:id/stage] for the signed-in user.  (The
    board lets only an Admin or a Manager drag a card; the handler itself
    does not look at the role.) *)
Definition Kanban_drop (user : User.t) (requests : list MaintenanceRequest.t)
    (active : ObjectId) (over : option string) (confirm : bool)
  : Env -> Store -> Store * option Response :=
  fun env st =>
    match handleDragEnd requests active over with
    | Nothing | Toast _ => (st, None)
    | ScrapDialog requestId _ =>
        if confirm
        then let (st', r) := updateRequestStage user requestId (Some "Scrap") env st in
             (st', Some r)
        else (st, None)
    | UpdateStage requestId _ newStage =>
        let (st', r) := updateRequestStage user requestId (Some newStage) env st in
        (st', Some r)
    end.

(** ** The detail page *)

(** [handleStageChange(newStage)] of the stage modal, up to the response of
    the server: a dialog in front of Scrap, and no other check. *)
Definition handleStageChange (user : User.t) (id : ObjectId) (newStage : string)
    (confirm : bool) : Env -> Store -> Store * option Response :=
  fun env st =>
    if bool_decide (newStage = "Scrap") && negb confirm
    then (st, None)
    else let (st', r) := updateRequestStage user id (Some newStage) env st in
         (st', Some r).

(** [requestAPI.updateResolution(id, { durationHours, resolutionNotes })],
    which sends [PUT /api/requests/:id] with these two fields. *)
Definition updateResolution (user : User.t) (id : ObjectId)
    (durationHours : option Z) (resolutionNotes : option string)
  : Env -> Store -> Store * Response :=
  updateRequest user id
    (Fields.mk None None None None None None None None None
               durationHours None resolutionNotes None).

(** ** The request form *)

(** [formData]; an empty select or date input is [None]. *)
Record FormData : Type := mkFormData {
  form_subject : string;
  form_equipment : option ObjectId;
  form_requestType : string;
  form_priority : string;
  form_scheduledDate : option Date;
  form_description : string;
  form_equipmentCategory : string;
  form_maintenanceTeam : option ObjectId;
  form_assignedTechnician : option ObjectId
}.

(** [validateForm()]: the [errors] object, by its keys in insertion order. *)
Definition validateForm (formData : FormData) : list (string * string) :=
  (if negb (truthy (trim (form_subject formData)))
   then [("subject", "Subject is required")] else [])
  ++ (if form_equipment formData is None
      then [("equipment", "Equipment is required")] else [])
  ++ (if negb (truthy (form_requestType formData))
      then [("requestType", "Request type is required")] else [])
  ++ (if negb (truthy (form_priority formData))
      then [("priority", "Priority is required")] else [])
  ++ (if bool_decide (form_requestType formData = "Preventive")
         && (if form_scheduledDate formData is None then true else false)
      then [("scheduledDate", "Scheduled date is required for preventive maintenance")]
      else [])
  ++ (if negb (truthy (trim (form_description formData)))
      then [("description", "Description is required")] else []).

(** [submitData] of [handleSubmit].  An empty [maintenanceTeam] is sent as
    the empty string; [createRequest] overwrites that key, so it is left
    out here. *)
Definition submitData (formData : FormData) : Fields.t :=
  Fields.mk (Some (trim (form_subject formData)))
    (form_equipment formData)
    (Some (form_equipmentCategory formData))
    (Some <$> form_maintenanceTeam formData)
    (Some (form_requestType formData))
    None
    (Some (form_priority formData))
    (Some <$> form_scheduledDate formData)
    (Some <$> form_assignedTechnician formData)
    None
    (Some (trim (form_description formData)))
    None
    None.

(** [handleSubmit] of a new request, up to the response of the server:
    [inl errors] when the form is rejected and nothing is sent. *)
Definition handleSubmit (user : User.t) (formData : FormData)
  : Env -> Store -> Store * (list (string * string) + Response) :=
  fun env st =>
    match validateForm formData with
    | [] => let (st', r) := createRequest user (submitData formData) env st in
            (st', inr r)
    | errors => (st, inl errors)
    end.

(** ** [backend/middleware/roleAuth.js] *)

(** [Array.prototype.join] *)
Fixpoint join (sep : string) (l : list string) : string :=
  match l with
  | [] => ""
  | [x] => x
  | x :: l' => x +:+ sep +:+ join sep l'
  end.

(** [roleAuth(...roles)] in front of a handler.  [user] is [req.user],
    [None] when no authenticated user is attached to the request; [next]
    is the rest of the route, which reads the same [req.user]. *)
Definition roleAuth (roles : list string) (user : option User.t)
    (next : User.t -> Env -> Store -> Store * Response)
  : Env -> Store -> Store * Response :=
  fun env st =>
    match user with
    | None =>
        (st, mkResponse 401 false (Some "Authentication required.") None NoData)
    | Some u =>
        if negb (includes roles (User.role u))
        then (st, mkResponse 403 false
                    (Some ("Access denied. Required role: " +:+ join " or " roles
                           +:+ ". Your role: " +:+ User.role u)) None NoData)
        else next u env st
    end.

(** The [permissions] object. *)
Module permissions.
Definition adminOnly := roleAuth ["Admin"].
Definition adminAndManager := roleAuth ["Admin"; "Manager"].
Definition adminManagerTechnician := roleAuth ["Admin"; "Manager"; "Technician"].
Definition allAuthenticated := roleAuth ["Admin"; "Manager"; "Technician"; "User"].
End permissions.

(** ** The rest of [backend/controllers/requestController.js] *)

(** A store call outside [DbCall]: [failure] is the error it throws in this
    run, if it throws. *)
Definition call_or {A : Type} (failure : option Exn) (op : Store -> Store * A)
  : M A :=
  fun _ st =>
    match failure with
    | Some e => (st, Throw e)
    | None => let (st', a) := op st in (st', Return a)
    end.

(** [MaintenanceRequest.findByIdAndDelete(id)]: the result is the deleted
    document.  (The journal keeps inserts and updates; a delete leaves no
    entry in it.) *)
Definition MaintenanceRequest_findByIdAndDelete (failure : option Exn)
    (id : ObjectId) : M (option MaintenanceRequest.t) :=
  call_or failure (fun st =>
    (mkStore (equipments st) (delete id (requests st)) (users st) (journal st),
     requests st !! id)).

(** [DELETE /api/requests/:id] *)
Definition deleteRequest (failure : option Exn) (id : ObjectId)
  : Env -> Store -> Store * Response :=
  try_catch
    (let! request := MaintenanceRequest_findByIdAndDelete failure id in
     match request with
     | None => refuse 404 "Request not found."
     | Some _ => respond 200 (Some "Request deleted successfully.") NoData
     end)
    "Error deleting request.".

(** The keys the calendar, overdue and per-equipment queries put in a
    filter, beside those of [Cond]. *)
Inductive Clause : Type :=
| key (c : Cond)
| scheduledDate_between (gte lte : option Date)
| scheduledDate_lt (d : Date)
| stage_nin (values : list string).

(** A comparison operator never matches a [null] date, and neither does
    [$ne: null]. *)
Definition satisfies (c : Clause) (r : MaintenanceRequest.t) : bool :=
  match c with
  | key c => matches c r
  | scheduledDate_between gte lte =>
      match MaintenanceRequest.scheduledDate r with
      | None => false
      | Some d =>
          (if gte is Some lo then (lo <=? d)%Z else true)
          && (if lte is Some hi then (d <=? hi)%Z else true)
      end
  | scheduledDate_lt bound =>
      match MaintenanceRequest.scheduledDate r with
      | None => false
      | Some d => (d <? bound)%Z
      end
  | stage_nin values => negb (includes values (MaintenanceRequest.stage r))
  end.

Definition satisfies_all (filter : list Clause) (r : MaintenanceRequest.t) : bool :=
  forallb (fun c => satisfies c r) filter.

(** [.sort({ scheduledDate: 1 })]; a [null] date sorts first. *)
Definition soonest_first (x y : MaintenanceRequest.t) : Prop :=
  match MaintenanceRequest.scheduledDate x, MaintenanceRequest.scheduledDate y with
  | None, _ => True
  | Some _, None => False
  | Some a, Some b => (a ≤ b)%Z
  end.

#[global] Instance soonest_first_dec (x y : MaintenanceRequest.t)
  : Decision (soonest_first x y).
Proof.
  unfold soonest_first.
  destruct (MaintenanceRequest.scheduledDate x),
           (MaintenanceRequest.scheduledDate y); apply _.
Defined.

(** [MaintenanceRequest.find(filter).sort(order)] *)
Definition MaintenanceRequest_find_sorted (filter : list Clause)
    (order : relation MaintenanceRequest.t) `{forall x y, Decision (order x y)}
  : M (list MaintenanceRequest.t) :=
  call RequestFind (fun st =>
    (st, merge_sort order
           (List.filter (satisfies_all filter) (map_to_list (requests st)).*2))).

(** What [.select('subject equipment stage priority scheduledDate
    durationHours')] keeps of a request. *)
Module Calendar.
Record Entry : Type := mkEntry {
  _id : ObjectId;
  subject : option string;
  equipment : ObjectId;
  stage : string;
  priority : string;
  scheduledDate : option Date;
  durationHours : Z
}.

Definition select (r : MaintenanceRequest.t) : Entry :=
  mkEntry (MaintenanceRequest._id r) (MaintenanceRequest.subject r)
          (MaintenanceRequest.equipment r) (MaintenanceRequest.stage r)
          (MaintenanceRequest.priority r) (MaintenanceRequest.scheduledDate r)
          (MaintenanceRequest.durationHours r).

(** The response of the calendar route. *)
Record Reply : Type := mkReply {
  status : nat;
  success : bool;
  message : option string;
  error : option Exn;
  data : list Entry
}.
End Calendar.

(** The role-based part of the filter of [getCalendarRequests]. *)
Definition calendar_role_filter (user : User.t) : list Clause :=
  if bool_decide (User.role user = "Technician")
  then [key (or_ (assignedTechnician_is (User._id user))
                 (maintenanceTeam_is (User.team user)))]
  else if bool_decide (User.role user = "User")
  then [key (createdBy_is (User._id user))]
  else [].

(** [GET /api/requests/calendar]; [startDate] and [endDate] are the dates
    of the query string, [None] when absent. *)
Definition getCalendarRequests (user : User.t) (startDate endDate : option Date)
  : Env -> Store -> Store * Calendar.Reply :=
  fun env st =>
    let filter :=
      scheduledDate_between startDate endDate :: calendar_role_filter user in
    match MaintenanceRequest_find_sorted filter soonest_first env st with
    | (st', Return requests) =>
        (st', Calendar.mkReply 200 true None None (Calendar.select <$> requests))
    | (st', Throw e) =>
        (st', Calendar.mkReply 500 false (Some "Error fetching calendar requests.")
                (Some e) [])
    end.

(** The [isOverdue] virtual of the request schema.  [startOfDay] is
    [setHours(0, 0, 0, 0)] in the time zone of the server, and [now] the
    clock. *)
Definition isOverdue (startOfDay : Date -> Date) (now : Date)
    (r : MaintenanceRequest.t) : bool :=
  match MaintenanceRequest.scheduledDate r with
  | None => false
  | Some d =>
      if bool_decide (MaintenanceRequest.stage r = "Repaired")
         || bool_decide (MaintenanceRequest.stage r = "Scrap")
      then false
      else (startOfDay d <? startOfDay now)%Z
  end.

(** [GET /api/requests/overdue] *)
Definition getOverdueRequests (startOfDay : Date -> Date) (user : User.t)
  : Env -> Store -> Store * Response :=
  try_catch
    (let! current := clock in
     let today := startOfDay current in
     let filter :=
       [scheduledDate_lt today; stage_nin ["Repaired"; "Scrap"]]
       ++ (if bool_decide (User.role user = "Technician")
           then [key (or_ (assignedTechnician_is (User._id user))
                          (maintenanceTeam_is (User.team user)))]
           else []) in
     let! requests := MaintenanceRequest_find_sorted filter soonest_first in
     respond 200 None (DataRequests requests))
    "Error fetching overdue requests.".

(** ** [backend/routes/requestRoutes.js] *)

(** The routes that put [roleAuth] in front of their handler. *)
Definition GET_overdue (startOfDay : Date -> Date) (user : option User.t)
  : Env -> Store -> Store * Response :=
  permissions.adminManagerTechnician user (getOverdueRequests startOfDay).

Definition PATCH_assign (user : option User.t) (id : ObjectId)
    (technicianId : option ObjectId) : Env -> Store -> Store * Response :=
  permissions.adminAndManager user (fun _ => assignTechnician id technicianId).

Definition DELETE_request (failure : option Exn) (user : option User.t)
    (id : ObjectId) : Env -> Store -> Store * Response :=
  permissions.adminAndManager user (fun _ => deleteRequest failure id).

(** ** The rest of the equipment controller *)

(** [GET /api/equipment/:id/requests] *)
Definition getEquipmentRequests (id : ObjectId) : Env -> Store -> Store * Response :=
  try_catch
    (let! requests :=
       MaintenanceRequest_find_sorted [key (equipment_is id)] newest_first in
     respond 200 None (DataRequests requests))
    "Error fetching equipment requests.".

(** [GET /api/equipment/:id/requests/open] *)
Definition getEquipmentOpenRequests (id : ObjectId)
  : Env -> Store -> Store * Response :=
  try_catch
    (let! requests :=
       MaintenanceRequest_find_sorted
         [key (equipment_is id); stage_nin ["Repaired"; "Scrap"]] newest_first in
     respond 200 None (DataRequests requests))
    "Error fetching open requests.".

(** [Equipment.findByIdAndDelete(id)] *)
Definition Equipment_findByIdAndDelete (failure : option Exn) (id : ObjectId)
  : M (option Equipment.t) :=
  call_or failure (fun st =>
    (mkStore (delete id (equipments st)) (requests st) (users st) (journal st),
     equipments st !! id)).

(** [DELETE /api/equipment/:id], behind [permissions.adminOnly]. *)
Definition deleteEquipment (failure : option Exn) (id : ObjectId)
  : Env -> Store -> Store * Response :=
  try_catch
    (let! equipment := Equipment_findByIdAndDelete failure id in
     match equipment with
     | None => refuse 404 "Equipment not found."
     | Some _ => respond 200 (Some "Equipment deleted successfully.") NoData
     end)
    "Error deleting equipment.".

Definition DELETE_equipment (failure : option Exn) (user : option User.t)
    (id : ObjectId) : Env -> Store -> Store * Response :=
  permissions.adminOnly user (fun _ => deleteEquipment failure id).

(** ** [frontend/src/utils/rolePermissions.js] *)

(** The [ROLES] constants. *)
Module ROLES.
Definition ADMIN : string := "Admin".
Definition MANAGER : string := "Manager".
Definition TECHNICIAN : string := "Technician".
Definition USER : string := "User".
End ROLES.

Definition hasPermission (userRole : string) (allowedRoles : list string) : bool :=
  includes allowedRoles userRole.

Definition isAdmin (userRole : string) : bool :=
  bool_decide (userRole = ROLES.ADMIN).

Definition isAdminOrManager (userRole : string) : bool :=
  includes [ROLES.ADMIN; ROLES.MANAGER] userRole.

Definition canEditMaintenanceRequest (userRole : string) : bool :=
  isAdminOrManager userRole.

Definition canDeleteMaintenanceRequest (userRole : string) : bool :=
  isAdmin userRole.

Definition canAssignTechnician (userRole : string) : bool :=
  isAdminOrManager userRole.

Definition canUpdateStage (userRole : string) : bool :=
  isAdminOrManager userRole.

(** ** The rest of the Kanban board *)

(** [canDrag()] and the [isDraggable] flag of the cards of a column. *)
Definition canDrag (user : User.t) : bool := canUpdateStage (User.role user).

Definition isDraggable (user : User.t) (stage : string) : bool :=
  canDrag user && negb (bool_decide (stage = "Scrap")).

(** [getRequestsByStage(stage)] *)
Definition getRequestsByStage (filteredRequests : list MaintenanceRequest.t)
    (stage : string) : list MaintenanceRequest.t :=
  List.filter (fun req => bool_decide (MaintenanceRequest.stage req = stage))
              filteredRequests.

(** The columns of the board. *)
Definition stages : list string := ["New"; "In Progress"; "Repaired"; "Scrap"].

(** A drag on the board from its start: a card that is not draggable cannot
    be picked up, so [handleDragEnd] never runs for it. *)
Definition drag_and_drop (user : User.t) (requests : list MaintenanceRequest.t)
    (active : ObjectId) (over : option string) (confirm : bool)
  : Env -> Store -> Store * option Response :=
  fun env st =>
    match List.find (fun r => bool_decide (MaintenanceRequest._id r = active))
                    requests with
    | Some card =>
        if isDraggable user (MaintenanceRequest.stage card)
        then Kanban_drop user requests active over confirm env st
        else (st, None)
    | None => (st, None)
    end.

(** [prev.map(req => req._id === requestId ? { ...req, stage } : req)] *)
Definition with_stage (requestId : ObjectId) (stage : string)
    (requests : list MaintenanceRequest.t) : list MaintenanceRequest.t :=
  (fun req => if bool_decide (MaintenanceRequest._id req = requestId)
              then set_stage req stage else req) <$> requests.

(** The HTTP client resolves a response whose status is within 2xx and
    rejects every other one. *)
Definition resolved (r : Response) : bool :=
  (200 <=? status r)%nat && (status r <? 300)%nat.

(** The board's own [updateRequestStage(requestId, oldStage, newStage)] on
    its copy of the requests: the optimistic update, the call, and the
    rollback in the [catch].  (The audit entry and the notifications it
    adds after a resolved call are modelled apart, below.) *)
Definition Kanban_updateRequestStage (user : User.t) (requestId : ObjectId)
    (oldStage newStage : string) (requests : list MaintenanceRequest.t)
  : Env -> Store -> Store * Response * list MaintenanceRequest.t :=
  fun env st =>
    let requests := with_stage requestId newStage requests in
    let (st', response) := updateRequestStage user requestId (Some newStage) env st in
    if resolved response
    then (st', response, requests)
    else (st', response, with_stage requestId oldStage requests).

(** ** [frontend/src/context/NotificationContext.jsx] *)

(** The fields of a notification that [addNotification] looks at, and its
    [type]; the title, the message and the entity are payload. *)
Module Notification.
Record t : Type := mk {
  type : string;
  recipientRoles : option (list string);
  recipientId : option ObjectId;
  recipientIds : option (list ObjectId)
}.

(** A notification as it is kept, without its random [id] and its
    [timestamp]. *)
Record Stored : Type := mkStored {
  notification : t;
  isRead : bool;
  userId : ObjectId
}.
End Notification.

(** [addNotification(notification)]; [user] is the signed-in user. *)
Definition addNotification (user : option User.t) (notification : Notification.t)
    (notifications : list Notification.Stored) : list Notification.Stored :=
  match user with
  | None => notifications
  | Some u =>
      let shouldReceive :=
        match Notification.recipientRoles notification with
        | Some recipientRoles => includes recipientRoles (User.role u)
        | None => false
        end
        || match Notification.recipientId notification with
           | Some recipientId => bool_decide (recipientId = User._id u)
           | None => false
           end in
      if negb shouldReceive then notifications
      else Notification.mkStored notification false (User._id u) :: notifications
  end.

(** [getUserNotifications()] *)
Definition getUserNotifications (user : option User.t)
    (notifications : list Notification.Stored) : list Notification.Stored :=
  match user with
  | None => []
  | Some u =>
      List.filter (fun notif => bool_decide (Notification.userId notif = User._id u))
                  notifications
  end.

(** The notifications the board adds after a resolved stage change;
    [recipientIds] are the ids it has collected from the card. *)
Definition Kanban_notify (user : option User.t) (newStage : string)
    (recipientIds : list ObjectId) (notifications : list Notification.Stored)
  : list Notification.Stored :=
  let notifications :=
    if bool_decide (newStage = "Scrap")
    then addNotification user
           (Notification.mk "equipment_scrapped" (Some ["Admin"; "Manager"]) None None)
           notifications
    else notifications in
  if (0 <? List.length recipientIds)%nat
  then addNotification user
         (Notification.mk "stage_updated" None None (Some recipientIds))
         notifications
  else notifications.

(** The notification the form adds after a request has been created. *)
Definition form_notify (user : option User.t)
    (notifications : list Notification.Stored) : list Notification.Stored :=
  addNotification user
    (Notification.mk "request_created" (Some ["Admin"; "Manager"]) None None)
    notifications.

(** The notification the detail page adds after a technician has been
    assigned; [assignedTech] is the id of the technician it has found in
    its list. *)
Definition assigned_notify (user : User.t) (assignedTech : option ObjectId)
    (notifications : list Notification.Stored) : list Notification.Stored :=
  match assignedTech with
  | Some technician =>
      if negb (bool_decide (technician = User._id user))
      then addNotification (Some user)
             (Notification.mk "request_assigned" None (Some technician) None)
             notifications
      else notifications
  | None => notifications
  end.

(** How far along the workflow a stage is. *)
Definition rank (stage : string) : nat :=
  if bool_decide (stage = "In Progress") then 1
  else if bool_decide (stage = "Repaired") then 2
  else if bool_decide (stage = "Scrap") then 3
  else 0.

(** A sequence of stages in which each step is a transition the board
    accepts. *)
Fixpoint accepted_path (path : list string) : bool :=
  match path with
  | s :: (t :: _) as rest => isValidTransition s t && accepted_path rest
  | _ => true
  end.

(** A string of white space only. *)
Fixpoint blank (s : string) : bool :=
  match s with
  | EmptyString => true
  | String a s' => is_space a && blank s'
  end.

(** What the schema requires of a request whatever the body leaves out
    or gives as null: a subject that is not empty, a request type among
    those of the schema, and a duration that is not negative. *)
Definition checked (r : MaintenanceRequest.t) : Prop :=
  (exists s, MaintenanceRequest.subject r = Some s /\ truthy s = true)
  /\ (exists t, MaintenanceRequest.requestType r = Some t
                /\ t ∈ MaintenanceRequest.requestType_values)
  /\ (0 <= MaintenanceRequest.durationHours r)%Z.

Definition checked_store (st : Store) : Prop :=
  map_Forall (fun _ (r : MaintenanceRequest.t) => checked r) (requests st).

(** ** Well-formed stores, snapshots and the workflow graph *)

(** Documents are stored under their own [_id]. *)
Definition wf_store (st : Store) : Prop :=
  map_Forall (fun id r => MaintenanceRequest._id r = id) (requests st).

(** What a query string asks of a request: agreement with every key it
    gives; a key given as the empty string counts as not given. *)
Definition answers (query : Query) (r : MaintenanceRequest.t) : Prop :=
  (forall s, q_stage query = Some s -> truthy s = true ->
     MaintenanceRequest.stage r = s)
  /\ (forall s, q_priority query = Some s -> truthy s = true ->
       MaintenanceRequest.priority r = s)
  /\ (forall s, q_requestType query = Some s -> truthy s = true ->
       MaintenanceRequest.requestType r = Some s)
  /\ (forall id, q_equipmentId query = Some id ->
       MaintenanceRequest.equipment r = id)
  /\ (forall id, q_technicianId query = Some id ->
       MaintenanceRequest.assignedTechnician r = Some id).

(** The edges the workflow permits. *)
Definition permitted : list (string * string) :=
  [("New", "In Progress"); ("In Progress", "Repaired");
   ("New", "Scrap"); ("In Progress", "Scrap"); ("Repaired", "Scrap")].

(** The fields a request takes from its equipment and its creator. *)
Definition snapshot (r : MaintenanceRequest.t)
  : option string * option ObjectId * ObjectId :=
  (MaintenanceRequest.equipmentCategory r,
   MaintenanceRequest.maintenanceTeam r,
   MaintenanceRequest.createdBy r).

(** Every request of [st] is still there in [st'], with the same snapshot. *)
Definition keeps_snapshots (st st' : Store) : Prop :=
  forall id r, requests st !! id = Some r ->
    exists r', requests st' !! id = Some r' /\ snapshot r' = snapshot r.

(** ** A sample store *)

Module Sample.
Definition pump : Equipment.t :=
  Equipment.mk 1%N "Pump A" "SN-001" "Pumps" None None "Hall 1" "Department"
    (Some "Production") None 10%N 100%N true.

Definition admin : User.t := User.mk 200%N "Admin" None.
Definition technician : User.t := User.mk 100%N "Technician" (Some 10%N).
Definition customer : User.t := User.mk 300%N "User" None.
Definition visitor : User.t := User.mk 301%N "User" None.

Definition ticket : MaintenanceRequest.t :=
  MaintenanceRequest.mk 1000%N (Some "Leaking seal") 1%N (Some "Pumps") (Some 10%N)
    (Some "Corrective") "New" "Medium" None (Some 100%N) 0%Z "Seal leaks" "" 300%N 5%Z.

Definition people : gmap ObjectId User.t :=
  list_to_map [(200%N, admin); (100%N, technician); (300%N, customer)].

Definition store : Store :=
  mkStore {[ 1%N := pump ]} {[ 1000%N := ticket ]} people [].

(** The ticket has reached Scrap and the pump is inactive. *)
Definition scrapped : Store :=
  mkStore {[ 1%N := Equipment.set_inactive pump ]}
          {[ 1000%N := set_stage ticket "Scrap" ]} people [].

(** The ticket is in Scrap, and the pump has been put back in service by an
    equipment update. *)
Definition back_in_service : Store :=
  mkStore {[ 1%N := pump ]} {[ 1000%N := set_stage ticket "Scrap" ]} people [].

(** The empty query string. *)
Definition no_query : Query := mkQuery None None None None None.

(** No store call throws; the next object id is 1001. *)
Definition env : Env := mkEnv (fun _ => false) 1001%N 6%Z.

(** The equipment update throws. *)
Definition deactivation_fails : Env :=
  mkEnv (fun c => match c with EquipmentFindByIdAndUpdate => true | _ => false end)
        1001%N 6%Z.

(** A corrective request that names no technician. *)
Definition corrective : Fields.t :=
  Fields.mk (Some "  Worn bearing ") (Some 1%N) None None (Some "Corrective")
            None None None None None (Some "Bearing is worn") None None.

(** A preventive request with no scheduled date. *)
Definition preventive : Fields.t :=
  Fields.mk (Some "Yearly inspection") (Some 1%N) None None (Some "Preventive")
            None None None None None (Some "Inspect the pump") None None.

(** An update that stores Scrap as the stage. *)
Definition to_scrap : Fields.t :=
  Fields.mk None None None None None (Some "Scrap") None None None None None None None.

(** An update that points the request at another category, team and
    creator. *)
Definition resync : Fields.t :=
  Fields.mk None None (Some "Valves") (Some (Some 11%N)) None None None None None
            None None None (Some 200%N).

(** A request whose creator names themselves as technician. *)
Definition self_assigned : Fields.t :=
  Fields.mk (Some "Noisy pump") (Some 1%N) None None (Some "Corrective")
            None None None (Some (Some 300%N)) None (Some "It rattles") None None.
End Sample.

(** ** More of the sample *)

Module Agenda.
(** The start of the day for a server whose time zone is UTC. *)
Definition utc_day (d : Date) : Date := (d / 86400000 * 86400000)%Z.

(** A preventive request planned for the first day of the epoch. *)
Definition inspection : MaintenanceRequest.t :=
  MaintenanceRequest.mk 1002%N (Some "Yearly inspection") 1%N (Some "Pumps")
    (Some 11%N) (Some "Preventive") "In Progress" "High" (Some 3600000%Z)
    (Some 101%N) 2%Z "Inspect the pump" "" 300%N 7%Z.

Definition store : Store :=
  mkStore {[ 1%N := Sample.pump ]}
          (<[ 1002%N := inspection ]> {[ 1000%N := Sample.ticket ]})
          Sample.people [].

(** The third day of the epoch; no store call throws. *)
Definition env : Env := mkEnv (fun _ => false) 1003%N 200000000%Z.

(** Saving a request throws; the other store calls do not. *)
Definition save_fails : Env :=
  mkEnv (fun c => match c with RequestSave => true | _ => false end) 1003%N 6%Z.

Definition manager : User.t := User.mk 201%N "Manager" None.

(** A technician of another team, assigned to nothing. *)
Definition outsider : User.t := User.mk 102%N "Technician" (Some 12%N).

(** Attaching the referenced documents to the answer throws; the other
    store calls do not. *)
Definition populate_fails : Env :=
  mkEnv (fun c => match c with RequestPopulate => true | _ => false end) 1003%N 6%Z.

(** A body whose subject is white space only. *)
Definition no_subject : Fields.t :=
  Fields.mk (Some "   ") (Some 1%N) None None (Some "Corrective")
            None None None None None (Some "Bearing is worn") None None.

(** A filled-in request form. *)
Definition form : FormData :=
  mkFormData " Worn bearing " (Some 1%N) "Corrective" "High" None
             "Bearing is worn" "Pumps" (Some 10%N) None.
End Agenda.

(** * Properties *)

(** Unfolds the monadic plumbing of a handler. *)
Ltac run :=
  unfold try_catch, bind, call, refuse, respond, ret, throw, get, newId, clock;
  simpl.

(** A closed decidable proposition, by evaluation. *)
Ltac by_evaluation :=
  first [ apply (bool_decide_unpack _); vm_compute; exact I
        | apply (proj1 (bool_decide_eq_false _)); vm_compute; reflexivity ].

Ltac stage_cases H :=
  unfold MaintenanceRequest.stage_values in H;
  repeat (apply elem_of_cons in H as [-> | H]);
  [ .. | by apply elem_of_nil in H ].

(** ** The transition graph of the board *)

(** C3.  On the four stages, [isValidTransition] accepts exactly the pairs
    New -> In Progress, In Progress -> Repaired and x -> Scrap for x among
    New, In Progress and Repaired: nothing leaves Scrap, only Scrap is
    reachable from Repaired, and every other pair is rejected. *)
Theorem isValidTransition_graph (s t : string)
    (Hs : s ∈ MaintenanceRequest.stage_values)
    (Ht : t ∈ MaintenanceRequest.stage_values) :
  (isValidTransition s t = true <-> (s, t) ∈ permitted)
  /\ isValidTransition "Scrap" t = false
  /\ (t <> "Scrap" -> isValidTransition "Repaired" t = false).
Proof.
  stage_cases Hs; stage_cases Ht.
  all: split; [ | split; [ reflexivity | ] ].
  all: try (intros Hne; first [ reflexivity | by destruct Hne ]).
  all: split;
    [ intros Hv; first [ by vm_compute in Hv | by_evaluation ]
    | intros Hp; first [ reflexivity
                       | exfalso;
                         refine (proj1 (bool_decide_eq_false _) _ Hp);
                         vm_compute; reflexivity ] ].
Qed.

Lemma isValidTransition_graph_witness :
  (isValidTransition "New" "In Progress" = true
   <-> ("New", "In Progress") ∈ permitted)
  /\ isValidTransition "Scrap" "In Progress" = false
  /\ ("In Progress" <> "Scrap" -> isValidTransition "Repaired" "In Progress" = false).
Proof.
  apply (isValidTransition_graph "New" "In Progress"); by_evaluation.
Defined.

(** ** Inactive equipment *)

(** C4.  For an equipment with [isActive = false], [createRequest] answers
    400 "Cannot create request for inactive/scrapped equipment." and leaves
    the store as it was (no request is created), and the auto-fill handler
    answers 400 "This equipment is marked as scrapped/inactive ..."; for an
    id with no equipment, the auto-fill handler answers 404 "Equipment not
    found.".  The lookup itself is assumed not to throw. *)
Theorem inactive_equipment_refused env st user body (id : ObjectId)
    (Hup : fails env EquipmentFindById = false) :
  (equipments st !! id = None ->
   getEquipmentAutoFill id env st
   = (st, mkResponse 404 false (Some "Equipment not found.") None NoData))
  /\ (forall e, equipments st !! id = Some e -> Equipment.isActive e = false ->
      getEquipmentAutoFill id env st
      = (st, mkResponse 400 false
               (Some "This equipment is marked as scrapped/inactive and cannot have new requests.")
               None NoData)
      /\ (Fields.equipment body = Some id ->
          createRequest user body env st
          = (st, mkResponse 400 false
                   (Some "Cannot create request for inactive/scrapped equipment.")
                   None NoData))).
Proof.
  split.
  - intros Hnone. unfold getEquipmentAutoFill, Equipment_findById. run.
    by rewrite Hup, Hnone.
  - intros e He Hinactive. split.
    + unfold getEquipmentAutoFill, Equipment_findById. run.
      by rewrite Hup, He, Hinactive.
    + intros Hbody. unfold createRequest, Equipment_findById. run.
      by rewrite Hup, Hbody; simpl; rewrite He, Hinactive.
Qed.

Lemma inactive_equipment_refused_witness :
  getEquipmentAutoFill 2%N Sample.env Sample.scrapped
  = (Sample.scrapped, mkResponse 404 false (Some "Equipment not found.") None NoData)
  /\ getEquipmentAutoFill 1%N Sample.env Sample.scrapped
     = (Sample.scrapped,
        mkResponse 400 false
          (Some "This equipment is marked as scrapped/inactive and cannot have new requests.")
          None NoData)
  /\ createRequest Sample.customer Sample.preventive Sample.env Sample.scrapped
     = (Sample.scrapped,
        mkResponse 400 false
          (Some "Cannot create request for inactive/scrapped equipment.") None NoData).
Proof.
  destruct (inactive_equipment_refused Sample.env Sample.scrapped Sample.customer
              Sample.preventive 2%N) as [Habsent _]; [ reflexivity | ].
  destruct (inactive_equipment_refused Sample.env Sample.scrapped Sample.customer
              Sample.preventive 1%N) as [_ Hinactive]; [ reflexivity | ].
  destruct (Hinactive (Equipment.set_inactive Sample.pump)) as [Hfill Hcreate];
    [ vm_compute; reflexivity | reflexivity | ].
  split; [ apply Habsent; vm_compute; reflexivity | ].
  split; [ exact Hfill | apply Hcreate; reflexivity ].
Defined.

(** ** The Scrap cascade *)

Lemma set_stage_same (r : MaintenanceRequest.t) (s : string) :
  set_stage r s = r <-> MaintenanceRequest.stage r = s.
Proof.
  destruct r; unfold set_stage, assign; simpl. split.
  - by intros [= ->].
  - by intros ->.
Qed.

(** C1.  When [updateRequestStage] with stage Scrap answers 200, the
    equipment of the request is inactive in the resulting store, and the
    journal shows the equipment update sent before the request is saved;
    when the equipment update throws, the handler answers 500 and the store
    is left as it was, so the stage change is not committed. *)
Theorem scrap_deactivates_equipment env st user (id : ObjectId) r st' resp
    (Hwf : wf_store st)
    (Hr : requests st !! id = Some r)
    (Hrun : updateRequestStage user id (Some "Scrap") env st = (st', resp)) :
  (status resp = 200 ->
   equipments st'
   = alter Equipment.set_inactive (MaintenanceRequest.equipment r) (equipments st)
   /\ (forall e, equipments st' !! MaintenanceRequest.equipment r = Some e ->
                 Equipment.isActive e = false)
   /\ requests st' !! id = Some (set_stage r "Scrap")
   /\ journal st'
      = journal st ++ [UpdateEquipment (MaintenanceRequest.equipment r)]
        ++ (if bool_decide (MaintenanceRequest.stage r = "Scrap")
            then [] else [SaveRequest id]))
  /\ (canUpdate user r = true ->
      fails env RequestFindById = false ->
      fails env EquipmentFindByIdAndUpdate = true ->
      st' = st /\ status resp = 500
      /\ error resp = Some (StoreError EquipmentFindByIdAndUpdate)).
Proof.
  pose proof (Hwf _ _ Hr) as Hid. simpl in Hid. subst id.
  revert Hrun.
  unfold updateRequestStage, MaintenanceRequest_findById, Equipment_findByIdAndUpdate,
    save, populate, validated.
  run. rewrite Hr.
  destruct (fails env RequestFindById) eqn:Hfind; simpl.
  { intros [= <- <-]. by split. }
  destruct (canUpdate user r) eqn:Hcan; simpl.
  2: { intros [= <- <-]. by split. }
  destruct (fails env EquipmentFindByIdAndUpdate) eqn:Hdeact; simpl.
  { intros [= <- <-]. by split. }
  destruct (MaintenanceRequest.validate (set_stage r "Scrap")) eqn:Hvalid; simpl.
  2: { intros [= <- <-]. by split. }
  assert (Halter : forall e,
    alter Equipment.set_inactive (MaintenanceRequest.equipment r) (equipments st)
      !! MaintenanceRequest.equipment r = Some e -> Equipment.isActive e = false).
  { intros e. rewrite lookup_alter_eq.
    destruct (equipments st !! MaintenanceRequest.equipment r); by intros [= <-]. }
  case_bool_decide as Hsame; simpl.
  - destruct (fails env RequestSave); simpl.
    { intros [= <- <-]. by split. }
    destruct (fails env RequestPopulate); intros [= <- <-]; (split; [ | done ]);
      intros Hok; try discriminate Hok; simpl.
    assert (set_stage r "Scrap" = r) as Heq by congruence.
    rewrite bool_decide_true by (by apply set_stage_same).
    by rewrite Heq.
  - destruct (fails env RequestSave); simpl.
    { intros [= <- <-]. by split. }
    destruct (fails env RequestPopulate); intros [= <- <-]; (split; [ | done ]);
      intros Hok; try discriminate Hok; simpl.
    rewrite bool_decide_false.
    + by rewrite lookup_insert_eq, <- app_assoc.
    + intros Hstage. apply Hsame. apply set_stage_same in Hstage. congruence.
Qed.

Lemma scrap_deactivates_equipment_witness :
  (status (updateRequestStage Sample.admin 1000%N (Some "Scrap")
             Sample.env Sample.store).2 = 200
   /\ forall e,
        equipments (updateRequestStage Sample.admin 1000%N (Some "Scrap")
                      Sample.env Sample.store).1 !! 1%N = Some e ->
        Equipment.isActive e = false)
  /\ (updateRequestStage Sample.admin 1000%N (Some "Scrap")
        Sample.deactivation_fails Sample.store).1 = Sample.store.
Proof.
  assert (Hwf : wf_store Sample.store) by by_evaluation.
  assert (Hr : requests Sample.store !! 1000%N = Some Sample.ticket)
    by (vm_compute; reflexivity).
  split.
  - destruct (scrap_deactivates_equipment Sample.env Sample.store Sample.admin
                1000%N Sample.ticket _ _ Hwf Hr (surjective_pairing _))
      as [Hok _].
    assert (H200 : status (updateRequestStage Sample.admin 1000%N (Some "Scrap")
                             Sample.env Sample.store).2 = 200)
      by (vm_compute; reflexivity).
    split; [ exact H200 | ].
    destruct (Hok H200) as (_ & Hinactive & _). exact Hinactive.
  - destruct (scrap_deactivates_equipment Sample.deactivation_fails Sample.store
                Sample.admin 1000%N Sample.ticket _ _ Hwf Hr (surjective_pairing _))
      as [_ Hfail].
    destruct Hfail as (Hsame & _); [ reflexivity | reflexivity | reflexivity | ].
    exact Hsame.
Defined.

(** ** The role gate of a stage change *)

(** C5, as stated, fails: a User-role actor who is the request's assigned
    technician changes its stage.  Here the customer creates a request that
    names themselves as technician (the handler takes
    [assignedTechnician] from the body) and then moves it to In Progress;
    the server answers 200 and stores the new stage. *)
Lemma assigned_user_changes_stage :
  User.role Sample.customer = "User"
  /\ status (updateRequestStage Sample.customer 1001%N (Some "In Progress") Sample.env
               (createRequest Sample.customer Sample.self_assigned
                  Sample.env Sample.store).1).2 = 200
  /\ MaintenanceRequest.stage
       <$> requests (updateRequestStage Sample.customer 1001%N (Some "In Progress")
                       Sample.env
                       (createRequest Sample.customer Sample.self_assigned
                          Sample.env Sample.store).1).1 !! 1001%N
     = Some "In Progress".
Proof. vm_compute. repeat split; reflexivity. Qed.

(** C5, amended.  A User-role actor who is not the request's assigned
    technician gets 403 from [updateRequestStage] for every stage asked
    for, whether or not the transition is one the workflow permits, and the
    store is left as it was. *)
Theorem unassigned_user_forbidden env st user (id : ObjectId) r (stage : string)
    (Hfind : fails env RequestFindById = false)
    (Hr : requests st !! id = Some r)
    (Hstage : truthy stage = true)
    (Hrole : User.role user = "User")
    (Hother : MaintenanceRequest.assignedTechnician r <> Some (User._id user)) :
  updateRequestStage user id (Some stage) env st
  = (st, mkResponse 403 false
           (Some "You do not have permission to update this request.") None NoData).
Proof.
  unfold updateRequestStage, MaintenanceRequest_findById. run.
  destruct stage as [ | a stage ]; [ discriminate Hstage | ].
  rewrite Hfind, Hr. unfold canUpdate. rewrite Hrole.
  by rewrite (bool_decide_false _ Hother).
Qed.

Lemma unassigned_user_forbidden_witness :
  updateRequestStage Sample.customer 1000%N (Some "Scrap") Sample.env Sample.store
  = (Sample.store,
     mkResponse 403 false
       (Some "You do not have permission to update this request.") None NoData).
Proof.
  apply (unassigned_user_forbidden Sample.env Sample.store Sample.customer
           1000%N Sample.ticket "Scrap");
    [ reflexivity | vm_compute; reflexivity | reflexivity | reflexivity | by_evaluation ].
Defined.

(** ** Visibility *)

(** What [find] returns: the stored documents the filter matches. *)
Lemma MaintenanceRequest_find_spec (filter : list Cond) (st : Store) (r : MaintenanceRequest.t) :
  r ∈ merge_sort newest_first
        (List.filter (matches_all filter) (map_to_list (requests st)).*2)
  <-> (exists id, requests st !! id = Some r) /\ matches_all filter r = true.
Proof.
  rewrite merge_sort_Permutation, list_elem_of_In, filter_In, <- list_elem_of_In.
  rewrite list_elem_of_fmap. split.
  - intros [([id r'] & -> & Hin%elem_of_map_to_list) Hm]. eauto.
  - intros [[id Hid] Hm]. split; [ | done ].
    exists (id, r). split; [ done | by apply elem_of_map_to_list ].
Qed.

Lemma matches_all_app (f g : list Cond) (r : MaintenanceRequest.t) :
  matches_all (f ++ g) r = matches_all f r && matches_all g r.
Proof. apply forallb_app. Qed.

Lemma query_filter_answers (query : Query) (r : MaintenanceRequest.t) :
  matches_all (query_filter query) r = true <-> answers query r.
Proof.
  unfold query_filter, answers. rewrite !matches_all_app, !andb_true_iff.
  assert (Hstring : forall (v : option string) (c : string -> Cond) (P : string -> Prop),
    (forall s, matches (c s) r = true <-> P s) ->
    matches_all (when_string v c) r = true
    <-> forall s, v = Some s -> truthy s = true -> P s).
  { intros v c P Hc. unfold when_string.
    destruct v as [s | ]; [ destruct (truthy s) eqn:Hs | ]; simpl.
    - rewrite andb_true_r, Hc. split; [ by intros ? ? [= <-] | eauto ].
    - split; [ | done ]. intros _ ? [= <-]. by rewrite Hs.
    - split; [ | done ]. by intros _ ? [=]. }
  assert (Hid : forall (v : option ObjectId) (c : ObjectId -> Cond) (P : ObjectId -> Prop),
    (forall i, matches (c i) r = true <-> P i) ->
    matches_all (when_id v c) r = true <-> forall i, v = Some i -> P i).
  { intros v c P Hc. unfold when_id. destruct v as [i | ]; simpl.
    - rewrite andb_true_r, Hc. split; [ by intros ? ? [= <-] | eauto ].
    - split; [ | done ]. by intros _ ? [=]. }
  rewrite (Hstring _ _ (fun s => MaintenanceRequest.stage r = s))
    by (intros; apply bool_decide_eq_true).
  rewrite (Hstring _ _ (fun s => MaintenanceRequest.priority r = s))
    by (intros; apply bool_decide_eq_true).
  rewrite (Hstring _ _ (fun s => MaintenanceRequest.requestType r = Some s))
    by (intros; apply bool_decide_eq_true).
  rewrite (Hid _ _ (fun i => MaintenanceRequest.equipment r = i))
    by (intros; apply bool_decide_eq_true).
  rewrite (Hid _ _ (fun i => MaintenanceRequest.assignedTechnician r = Some i))
    by (intros; apply bool_decide_eq_true).
  tauto.
Qed.

(** What [getAllRequests] shows, and the refusal of [getRequestById]:
    [getAllRequests] answers with exactly the stored requests that the
    actor's role lets them see and that agree with the query: all of them
    for an Admin or a Manager; for a Technician those assigned to them or
    belonging to their team; for a User those they created.  With the
    empty query the agreement holds of every request.  And
    [getRequestById] answers 403 to a User who did not create the request,
    as long as the store still holds the creator's account, so that
    [populate] resolves it. *)
Theorem role_based_visibility env st user :
  (forall query, fails env RequestFind = false ->
   exists l,
     getAllRequests user query env st
     = (st, mkResponse 200 true None None (DataRequests l))
     /\ (User.role user ∈ ["Admin"; "Manager"] ->
         forall r, r ∈ l <->
           (exists id, requests st !! id = Some r)
           /\ answers query r)
     /\ (User.role user = "Technician" ->
         forall r, r ∈ l <->
           (exists id, requests st !! id = Some r)
           /\ (MaintenanceRequest.assignedTechnician r = Some (User._id user)
               \/ MaintenanceRequest.maintenanceTeam r = User.team user)
           /\ answers query r)
     /\ (User.role user = "User" ->
         forall r, r ∈ l <->
           (exists id, requests st !! id = Some r)
           /\ MaintenanceRequest.createdBy r = User._id user
           /\ answers query r))
  /\ (fails env RequestFind = false ->
      User.role user ∈ ["Admin"; "Manager"] ->
      exists l,
        getAllRequests user Sample.no_query env st
        = (st, mkResponse 200 true None None (DataRequests l))
        /\ forall r, r ∈ l <-> exists id, requests st !! id = Some r)
  /\ (forall (id : ObjectId) r,
        fails env RequestFindById = false ->
        requests st !! id = Some r ->
        is_Some (users st !! MaintenanceRequest.createdBy r) ->
        User.role user = "User" ->
        MaintenanceRequest.createdBy r <> User._id user ->
        getRequestById user id env st
        = (st, mkResponse 403 false (Some "Access denied.") None NoData)).
Proof.
  assert (Hlist : forall query, fails env RequestFind = false ->
   exists l,
     getAllRequests user query env st
     = (st, mkResponse 200 true None None (DataRequests l))
     /\ (User.role user ∈ ["Admin"; "Manager"] ->
         forall r, r ∈ l <->
           (exists id, requests st !! id = Some r)
           /\ answers query r)
     /\ (User.role user = "Technician" ->
         forall r, r ∈ l <->
           (exists id, requests st !! id = Some r)
           /\ (MaintenanceRequest.assignedTechnician r = Some (User._id user)
               \/ MaintenanceRequest.maintenanceTeam r = User.team user)
           /\ answers query r)
     /\ (User.role user = "User" ->
         forall r, r ∈ l <->
           (exists id, requests st !! id = Some r)
           /\ MaintenanceRequest.createdBy r = User._id user
           /\ answers query r)).
  { intros query Hfind. unfold getAllRequests, MaintenanceRequest_find. run. rewrite Hfind.
    eexists. split; [ reflexivity | ].
    split; [ | split ].
    + intros Hrole r.
      rewrite MaintenanceRequest_find_spec, matches_all_app, <- query_filter_answers.
      unfold role_filter.
      assert (User.role user = "Admin" \/ User.role user = "Manager") as [-> | ->]
        by (set_unfold; tauto); simpl; tauto.
    + intros Hrole r.
      rewrite MaintenanceRequest_find_spec, matches_all_app, <- query_filter_answers.
      unfold role_filter. rewrite Hrole. simpl.
      rewrite andb_true_r, andb_true_iff, orb_true_iff, !bool_decide_eq_true.
      tauto.
    + intros Hrole r.
      rewrite MaintenanceRequest_find_spec, matches_all_app, <- query_filter_answers.
      unfold role_filter. rewrite Hrole. simpl.
      rewrite andb_true_r, andb_true_iff, bool_decide_eq_true.
      tauto. }
  split; [ exact Hlist | ]. split.
  - intros Hfind Hrole.
    destruct (Hlist Sample.no_query Hfind) as (l & Hrun & Hall & _).
    exists l. split; [ exact Hrun | ].
    intros r. rewrite (Hall Hrole r). split; [ by intros [? _] | ].
    intros Hstored. split; [ exact Hstored | ].
    unfold answers. simpl. repeat split; intros ? [=].
  - intros id r Hfind Hr [creator Hcreator] Hrole Hother.
    unfold getRequestById, MaintenanceRequest_findById_populate. run.
    rewrite Hfind, Hr. simpl. rewrite Hcreator, Hrole. simpl.
    by rewrite (bool_decide_false _ Hother).
Qed.

Lemma role_based_visibility_witness :
  (exists l,
     getAllRequests Sample.customer Sample.no_query Sample.env Sample.store
     = (Sample.store, mkResponse 200 true None None (DataRequests l))
     /\ forall r, r ∈ l <->
          (exists id, requests Sample.store !! id = Some r)
          /\ MaintenanceRequest.createdBy r = 300%N
          /\ answers Sample.no_query r)
  /\ (exists l,
        getAllRequests Sample.admin Sample.no_query Sample.env Sample.store
        = (Sample.store, mkResponse 200 true None None (DataRequests l))
        /\ forall r, r ∈ l <-> exists id, requests Sample.store !! id = Some r)
  /\ getRequestById Sample.visitor 1000%N Sample.env Sample.store
     = (Sample.store, mkResponse 403 false (Some "Access denied.") None NoData).
Proof.
  destruct (role_based_visibility Sample.env Sample.store Sample.customer)
    as [Hlist _].
  destruct (role_based_visibility Sample.env Sample.store Sample.admin)
    as (_ & Hall & _).
  destruct (role_based_visibility Sample.env Sample.store Sample.visitor)
    as (_ & _ & Hget).
  split; [ | split ].
  - destruct (Hlist Sample.no_query eq_refl) as (l & Hrun & _ & _ & Huser).
    exists l. split; [ exact Hrun | exact (Huser eq_refl) ].
  - apply Hall; [ reflexivity | by_evaluation ].
  - apply (Hget 1000%N Sample.ticket);
      [ reflexivity | vm_compute; reflexivity | | reflexivity | by_evaluation ].
    exists Sample.customer. vm_compute. reflexivity.
Defined.

(** C6.  [getRequestById] does not answer 403 to every User who did not
    create the request.  An Admin's update gives request 1000 a creator
    id that names no account (the update is answered 200); from then on a
    User who is not that creator and asks for the request gets 500, with
    the TypeError of reading [_id] of the null creator, while the same
    User is answered 403 as long as the creator's account is there. *)
Theorem unknown_creator_is_not_forbidden :
  let reassign :=
    Fields.mk None None None None None None None None None None None None
              (Some 999%N) in
  let put := updateRequest Sample.admin 1000%N reassign Sample.env Sample.store in
  status put.2 = 200
  /\ MaintenanceRequest.createdBy <$> requests put.1 !! 1000%N = Some 999%N
  /\ users put.1 !! 999%N = None
  /\ User.role Sample.visitor = "User"
  /\ User._id Sample.visitor <> 999%N
  /\ getRequestById Sample.visitor 1000%N Sample.env put.1
     = (put.1,
        mkResponse 500 false (Some "Error fetching request.")
          (Some (TypeError "Cannot read properties of null (reading '_id')"))
          NoData)
  /\ getRequestById Sample.visitor 1000%N Sample.env Sample.store
     = (Sample.store, mkResponse 403 false (Some "Access denied.") None NoData).
Proof. vm_compute. repeat split; (reflexivity || discriminate). Qed.

(** ** The generic update *)

(** The ways a run of [updateRequest] can end. *)
Lemma updateRequest_cases env st user (id : ObjectId) body st' resp :
  wf_store st ->
  updateRequest user id body env st = (st', resp) ->
  equipments st' = equipments st
  /\ users st' = users st
  /\ (st' = st
      \/ exists r, requests st !! id = Some r
           /\ requests st' = <[id := assign r body]> (requests st)
           /\ journal st' = journal st ++ [SaveRequest id])
  /\ (status resp = 200 ->
      exists r, requests st !! id = Some r
        /\ requests st' !! id = Some (assign r body)
        /\ data resp = DataRequest (assign r body)).
Proof.
  intros Hwf.
  unfold updateRequest, MaintenanceRequest_findById, save, populate, validated.
  run.
  destruct (fails env RequestFindById) eqn:Hfind; simpl.
  { intros [= <- <-]. repeat split; auto; discriminate. }
  destruct (requests st !! id) as [r | ] eqn:Hr.
  2: { intros [= <- <-]. repeat split; auto; discriminate. }
  pose proof (Hwf _ _ Hr) as Hid. simpl in Hid. subst id.
  destruct (canUpdate user r); simpl.
  2: { intros [= <- <-]. repeat split; auto; discriminate. }
  destruct (MaintenanceRequest.validate (assign r body)); simpl.
  2: { intros [= <- <-]. repeat split; auto; discriminate. }
  case_bool_decide as Hsame; simpl.
  - destruct (fails env RequestSave); simpl.
    { intros [= <- <-]. repeat split; auto; discriminate. }
    destruct (fails env RequestPopulate); intros [= <- <-];
      repeat split; auto; try discriminate.
    all: intros _; exists r; split; [ done | split; [ congruence | done ] ].
  - destruct (fails env RequestSave); simpl.
    { intros [= <- <-]. repeat split; auto; discriminate. }
    destruct (fails env RequestPopulate); intros [= <- <-]; simpl.
    all: repeat split; eauto; try discriminate.
    intros _. exists r. by rewrite lookup_insert_eq.
Qed.

(** C10.  [updateRequest] copies every supplied field onto the request,
    [stage] included, and saves it: on success the stored request, which
    is also the one in the answer, has for each field the supplied value
    (through the schema's [trim] for the strings that have it) and
    otherwise the value it had.  It answers 200 whenever the actor may
    update the request, that document passes the schema's validators and
    no store call throws, so the transition graph is not consulted; and
    whatever it answers, it leaves every equipment as it was and sends no
    equipment update: storing Scrap this way does not deactivate the
    equipment. *)
Theorem updateRequest_copies_without_cascade env st user (id : ObjectId) body st' resp
    (Hwf : wf_store st)
    (Hrun : updateRequest user id body env st = (st', resp)) :
  let copied (r : MaintenanceRequest.t) : MaintenanceRequest.t :=
    MaintenanceRequest.mk
      (MaintenanceRequest._id r)
      (match Fields.subject body with
       | Some v => Some (trim v) | None => MaintenanceRequest.subject r end)
      (match Fields.equipment body with
       | Some v => v | None => MaintenanceRequest.equipment r end)
      (match Fields.equipmentCategory body with
       | Some v => Some (trim v) | None => MaintenanceRequest.equipmentCategory r end)
      (match Fields.maintenanceTeam body with
       | Some v => v | None => MaintenanceRequest.maintenanceTeam r end)
      (match Fields.requestType body with
       | Some v => Some v | None => MaintenanceRequest.requestType r end)
      (match Fields.stage body with
       | Some v => v | None => MaintenanceRequest.stage r end)
      (match Fields.priority body with
       | Some v => v | None => MaintenanceRequest.priority r end)
      (match Fields.scheduledDate body with
       | Some v => v | None => MaintenanceRequest.scheduledDate r end)
      (match Fields.assignedTechnician body with
       | Some v => v | None => MaintenanceRequest.assignedTechnician r end)
      (match Fields.durationHours body with
       | Some v => v | None => MaintenanceRequest.durationHours r end)
      (match Fields.description body with
       | Some v => trim v | None => MaintenanceRequest.description r end)
      (match Fields.resolutionNotes body with
       | Some v => trim v | None => MaintenanceRequest.resolutionNotes r end)
      (match Fields.createdBy body with
       | Some v => v | None => MaintenanceRequest.createdBy r end)
      (MaintenanceRequest.createdAt r) in
  equipments st' = equipments st
  /\ (journal st' = journal st \/ journal st' = journal st ++ [SaveRequest id])
  /\ (status resp = 200 ->
      exists r, requests st !! id = Some r
        /\ requests st' !! id = Some (copied r)
        /\ data resp = DataRequest (copied r)
        /\ forall s, Fields.stage body = Some s ->
             MaintenanceRequest.stage <$> requests st' !! id = Some s)
  /\ (forall r, requests st !! id = Some r ->
      canUpdate user r = true ->
      MaintenanceRequest.validate (copied r) = [] ->
      (forall c, fails env c = false) ->
      status resp = 200).
Proof.
  intros copied.
  assert (Hcopied : forall r, copied r = assign r body) by reflexivity.
  destruct (updateRequest_cases _ _ _ _ _ _ _ Hwf Hrun)
    as (Heq & _ & Hreq & Hok).
  split; [ exact Heq | ].
  split; [ destruct Hreq as [-> | (r & _ & _ & ->)]; auto | ].
  split.
  { intros H200. destruct (Hok H200) as (r & Hr & Hstored & Hdata).
    exists r. rewrite Hcopied. repeat split; try done.
    intros s Hs. rewrite Hstored. simpl. by rewrite Hs. }
  revert Hrun.
  unfold updateRequest, MaintenanceRequest_findById, save, populate, validated.
  run. intros Hrun r Hr Hcan Hvalid Hnofail. rewrite Hcopied in Hvalid. revert Hrun.
  rewrite !Hnofail, Hr, Hcan, Hvalid. simpl.
  case_bool_decide; simpl; rewrite ?Hnofail; by intros [= <- <-].
Qed.

Lemma updateRequest_copies_without_cascade_witness :
  status (updateRequest Sample.admin 1000%N Sample.to_scrap Sample.env Sample.store).2
  = 200
  /\ equipments (updateRequest Sample.admin 1000%N Sample.to_scrap
                   Sample.env Sample.store).1
     = equipments Sample.store
  /\ MaintenanceRequest.stage
       <$> requests (updateRequest Sample.admin 1000%N Sample.to_scrap
                       Sample.env Sample.store).1 !! 1000%N
     = Some "Scrap".
Proof.
  assert (Hwf : wf_store Sample.store) by by_evaluation.
  destruct (updateRequest_copies_without_cascade Sample.env Sample.store
              Sample.admin 1000%N Sample.to_scrap _ _ Hwf (surjective_pairing _))
    as (Hequipments & _ & Hcopy & Hok).
  assert (H200 : status (updateRequest Sample.admin 1000%N Sample.to_scrap
                           Sample.env Sample.store).2 = 200).
  { apply (Hok Sample.ticket); [ vm_compute | | | ]; reflexivity. }
  split; [ exact H200 | ]. split; [ exact Hequipments | ].
  destruct (Hcopy H200) as (r & _ & _ & _ & Hstage).
  exact (Hstage "Scrap" eq_refl).
Defined.

(** ** The snapshot of category, team and creator *)

Lemma keeps_snapshots_same (st st' : Store) :
  requests st' = requests st -> keeps_snapshots st st'.
Proof. intros Heq id r Hr. exists r. by rewrite Heq. Qed.

Lemma keeps_snapshots_insert (st st' : Store) (id : ObjectId) r r' :
  requests st !! id = Some r ->
  snapshot r' = snapshot r ->
  requests st' = <[id := r']> (requests st) ->
  keeps_snapshots st st'.
Proof.
  intros Hr Hsnap Heq id0 r0 Hr0. rewrite Heq.
  destruct (decide (id = id0)) as [<- | Hne].
  - exists r'. rewrite lookup_insert_eq. split; [ done | congruence ].
  - exists r0. by rewrite lookup_insert_ne.
Qed.

Lemma keeps_snapshots_alter (st st' : Store) (id : ObjectId)
    (f : MaintenanceRequest.t -> MaintenanceRequest.t) :
  (forall r, snapshot (f r) = snapshot r) ->
  requests st' = alter f id (requests st) ->
  keeps_snapshots st st'.
Proof.
  intros Hsnap Heq id0 r0 Hr0. rewrite Heq.
  destruct (decide (id = id0)) as [<- | Hne].
  - exists (f r0). by rewrite lookup_alter_eq, Hr0.
  - exists r0. by rewrite lookup_alter_ne.
Qed.

(** The ways a run of [updateRequestStage] can end. *)
Lemma updateRequestStage_cases env st user (id : ObjectId) stage st' resp :
  wf_store st ->
  updateRequestStage user id stage env st = (st', resp) ->
  requests st' = requests st
  \/ exists r s, stage = Some s /\ requests st !! id = Some r
       /\ requests st' = <[id := set_stage r s]> (requests st).
Proof.
  intros Hwf.
  unfold updateRequestStage, MaintenanceRequest_findById, Equipment_findByIdAndUpdate,
    save, populate, validated.
  run.
  destruct stage as [ [ | a s ] | ]; try (intros [= <- <-]; by left).
  destruct (fails env RequestFindById); simpl; [ intros [= <- <-]; by left | ].
  destruct (requests st !! id) as [r | ] eqn:Hr; [ | intros [= <- <-]; by left ].
  pose proof (Hwf _ _ Hr) as Hid. simpl in Hid. subst id.
  destruct (canUpdate user r); simpl; [ | intros [= <- <-]; by left ].
  set (stage := String a s).
  destruct (bool_decide (stage = "Scrap"));
    [ destruct (fails env EquipmentFindByIdAndUpdate); simpl;
      [ intros [= <- <-]; by left | ] | simpl ].
  all: destruct (MaintenanceRequest.validate (set_stage r stage)); simpl;
    [ | intros [= <- <-]; by left ].
  all: case_bool_decide; simpl;
    [ destruct (fails env RequestSave); simpl; [ intros [= <- <-]; by left | ];
      destruct (fails env RequestPopulate); intros [= <- <-]; by left | ].
  all: destruct (fails env RequestSave); simpl; [ intros [= <- <-]; by left | ].
  all: destruct (fails env RequestPopulate); intros [= <- <-]; right;
    exists r, stage; done.
Qed.

(** The ways a run of [assignTechnician] can end. *)
Lemma assignTechnician_cases env st (id : ObjectId) technicianId st' resp :
  assignTechnician id technicianId env st = (st', resp) ->
  requests st' = requests st
  \/ exists t, requests st' = alter (set_assignedTechnician t) id (requests st).
Proof.
  unfold assignTechnician, MaintenanceRequest_findByIdAndUpdate. run.
  destruct technicianId as [t | ]; [ | intros [= <- <-]; by left ].
  destruct (fails env RequestFindByIdAndUpdate); simpl;
    [ intros [= <- <-]; by left | ].
  destruct (requests st !! id); simpl; [ destruct (fails env RequestPopulate) | ];
    simpl; intros [= <- <-]; right; by exists t.
Qed.

(** What a successful [createRequest] stores. *)
Lemma createRequest_created env st user body st' resp :
  createRequest user body env st = (st', resp) ->
  status resp = 201 ->
  exists equipmentId equipment,
    Fields.equipment body = Some equipmentId
    /\ equipments st !! equipmentId = Some equipment
    /\ Equipment.isActive equipment = true
    /\ requests st !! newObjectId env = None
    /\ let r := new_document (newObjectId env) (now env) equipmentId (User._id user)
                  (create_fields body equipmentId equipment user) in
       data resp = DataRequest r
       /\ requests st' = <[newObjectId env := r]> (requests st).
Proof.
  unfold createRequest, Equipment_findById, MaintenanceRequest_create, populate,
    validated.
  run.
  destruct (fails env EquipmentFindById); simpl; [ by intros [= <- <-] | ].
  destruct (Fields.equipment body) as [equipmentId | ]; simpl.
  2: { by intros [= <- <-]. }
  destruct (equipments st !! equipmentId) as [equipment | ] eqn:He; simpl.
  2: { by intros [= <- <-]. }
  destruct (Equipment.isActive equipment) eqn:Hactive; simpl.
  2: { by intros [= <- <-]. }
  destruct (MaintenanceRequest.validate _); simpl; [ | by intros [= <- <-] ].
  destruct (fails env RequestCreate); simpl; [ by intros [= <- <-] | ].
  destruct (requests st !! newObjectId env) eqn:Hfresh; simpl;
    [ by intros [= <- <-] | ].
  destruct (fails env RequestPopulate); simpl; intros [= <- <-]; [ done | ].
  intros _. exists equipmentId, equipment. done.
Qed.

(** C7, as stated, fails: [updateRequest] overwrites the category, the team
    and the creator of a request when the body supplies them. *)
Lemma updateRequest_overwrites_snapshot :
  status (updateRequest Sample.admin 1000%N Sample.resync Sample.env Sample.store).2
  = 200
  /\ snapshot <$> requests Sample.store !! 1000%N
     = Some (Some "Pumps", Some 10%N, 300%N)
  /\ snapshot <$> requests (updateRequest Sample.admin 1000%N Sample.resync
                              Sample.env Sample.store).1 !! 1000%N
     = Some (Some "Valves", Some 11%N, 200%N).
Proof. vm_compute. repeat split; reflexivity. Qed.

(** C7, amended.  A request created by [createRequest] carries the trimmed
    category and the team of its equipment and the id of the creating
    actor; [updateRequestStage], [assignTechnician] and [updateResolution]
    keep these three fields of every stored request; [updateRequest] sets
    each of them to the value the body supplies for it and keeps it when
    the body supplies none, and leaves the other requests alone. *)
Theorem snapshot_changes_only_by_updateRequest env st user (Hwf : wf_store st) :
  (forall body st' resp,
     createRequest user body env st = (st', resp) ->
     status resp = 201 ->
     keeps_snapshots st st'
     /\ exists equipmentId equipment r,
          Fields.equipment body = Some equipmentId
          /\ equipments st !! equipmentId = Some equipment
          /\ data resp = DataRequest r
          /\ requests st' !! MaintenanceRequest._id r = Some r
          /\ snapshot r = (Some (trim (Equipment.category equipment)),
                           Some (Equipment.maintenanceTeam equipment),
                           User._id user))
  /\ (forall id stage,
        keeps_snapshots st (updateRequestStage user id stage env st).1)
  /\ (forall id technicianId,
        keeps_snapshots st (assignTechnician id technicianId env st).1)
  /\ (forall id durationHours resolutionNotes,
        keeps_snapshots st
          (updateResolution user id durationHours resolutionNotes env st).1)
  /\ (forall (id : ObjectId) body st' resp,
        updateRequest user id body env st = (st', resp) ->
        status resp = 200 ->
        (forall id', id' <> id -> requests st' !! id' = requests st !! id')
        /\ exists r r',
             requests st !! id = Some r
             /\ requests st' !! id = Some r'
             /\ snapshot r'
                = (match Fields.equipmentCategory body with
                   | Some c => Some (trim c)
                   | None => MaintenanceRequest.equipmentCategory r
                   end,
                   default (MaintenanceRequest.maintenanceTeam r)
                           (Fields.maintenanceTeam body),
                   default (MaintenanceRequest.createdBy r)
                           (Fields.createdBy body))).
Proof.
  split; [ | split; [ | split; [ | split ] ] ].
  - intros body st' resp Hrun H201.
    destruct (createRequest_created _ _ _ _ _ _ Hrun H201)
      as (equipmentId & equipment & Hbody & He & _ & Hfresh & Hdata & Heq).
    split.
    + intros id r Hr. exists r. split; [ | done ].
      rewrite Heq, lookup_insert_ne; [ done | congruence ].
    + eexists equipmentId, equipment, _.
      split; [ done | ]. split; [ done | ]. split; [ exact Hdata | ].
      split; [ by rewrite Heq, lookup_insert_eq | reflexivity ].
  - intros id stage.
    destruct (updateRequestStage_cases env st user id stage _ _ Hwf
                (surjective_pairing _)) as [Heq | (r & s & _ & Hr & Heq)].
    + by apply keeps_snapshots_same.
    + by apply (keeps_snapshots_insert _ _ id r (set_stage r s)).
  - intros id technicianId.
    destruct (assignTechnician_cases env st id technicianId _ _
                (surjective_pairing _)) as [Heq | (t & Heq)].
    + by apply keeps_snapshots_same.
    + by apply (keeps_snapshots_alter _ _ id (set_assignedTechnician t)).
  - intros id durationHours resolutionNotes. unfold updateResolution.
    match goal with
    | |- keeps_snapshots _ (updateRequest _ _ ?b _ _).1 =>
        destruct (updateRequest_cases env st user id b _ _ Hwf (surjective_pairing _))
          as (_ & _ & [Heq | (r & Hr & Heq & _)] & _)
    end.
    + apply keeps_snapshots_same. by rewrite Heq.
    + by apply (keeps_snapshots_insert _ _ id r _ Hr) in Heq.
  - intros id body st' resp Hrun H200.
    destruct (updateRequest_cases _ _ _ _ _ _ _ Hwf Hrun)
      as (_ & _ & Hreq & Hok).
    split.
    + intros id' Hne.
      destruct Hreq as [-> | (r & Hr & -> & _)]; [ done | ].
      by rewrite lookup_insert_ne.
    + destruct (Hok H200) as (r & Hr & Hr' & _).
      by exists r, (assign r body).
Qed.

Lemma snapshot_changes_only_by_updateRequest_witness :
  keeps_snapshots Sample.store
    (updateRequestStage Sample.admin 1000%N (Some "Repaired")
       Sample.env Sample.store).1
  /\ keeps_snapshots Sample.store
       (assignTechnician 1000%N (Some 300%N) Sample.env Sample.store).1.
Proof.
  assert (Hwf : wf_store Sample.store) by by_evaluation.
  destruct (snapshot_changes_only_by_updateRequest Sample.env Sample.store
              Sample.admin Hwf) as (_ & Hstage & Hassign & _).
  split; [ apply Hstage | apply Hassign ].
Defined.

(** ** Stage changes on the server *)

(** The run of [updateRequestStage] for an actor who may update the
    request, a stage whose document passes validation, and no throwing
    store call: the equipment update goes first when the stage is Scrap,
    the request is saved when its stage changes, and the answer is 200.
    The stage the request had plays no part. *)
Lemma updateRequestStage_run env st user r (s : string) :
  (forall c, fails env c = false) ->
  requests st !! MaintenanceRequest._id r = Some r ->
  canUpdate user r = true ->
  truthy s = true ->
  MaintenanceRequest.validate (set_stage r s) = [] ->
  updateRequestStage user (MaintenanceRequest._id r) (Some s) env st
  = (let st1 :=
       if bool_decide (s = "Scrap")
       then log (UpdateEquipment (MaintenanceRequest.equipment r))
                (alter_equipment Equipment.set_inactive
                   (MaintenanceRequest.equipment r) st)
       else st in
     let st2 :=
       if bool_decide (MaintenanceRequest.stage r = s)
       then st1
       else log (SaveRequest (MaintenanceRequest._id r))
                (put_request (set_stage r s) st1) in
     (st2, mkResponse 200 true (Some ("Request stage updated to " +:+ s +:+ "."))
             None (DataRequest (set_stage r s)))).
Proof.
  intros Hnofail Hr Hcan Hs Hvalid.
  unfold updateRequestStage, MaintenanceRequest_findById, Equipment_findByIdAndUpdate,
    save, populate, validated.
  run.
  destruct s as [ | a s ]; [ discriminate Hs | ].
  rewrite (Hnofail RequestFindById), Hr, Hcan. simpl.
  set (stage := String a s) in *.
  assert (Hsaved : forall st1, requests st1 = requests st ->
    bool_decide (requests st1 !! MaintenanceRequest._id r = Some (set_stage r stage))
    = bool_decide (MaintenanceRequest.stage r = stage)).
  { intros st1 ->. apply bool_decide_ext. rewrite Hr, <- set_stage_same.
    split; [ by intros [= ->] | by intros -> ]. }
  destruct (bool_decide (stage = "Scrap")); simpl.
  - rewrite (Hnofail EquipmentFindByIdAndUpdate). simpl.
    rewrite Hvalid. simpl. rewrite Hsaved by done.
    destruct (bool_decide (MaintenanceRequest.stage r = stage)); simpl.
    + by rewrite (Hnofail RequestSave), (Hnofail RequestPopulate).
    + by rewrite (Hnofail RequestSave), (Hnofail RequestPopulate).
  - rewrite Hvalid. simpl. rewrite Hsaved by done.
    destruct (bool_decide (MaintenanceRequest.stage r = stage)); simpl.
    + by rewrite (Hnofail RequestSave), (Hnofail RequestPopulate).
    + by rewrite (Hnofail RequestSave), (Hnofail RequestPopulate).
Qed.

(** ** Same-stage updates *)

Lemma validate_stage (r : MaintenanceRequest.t) :
  MaintenanceRequest.validate r = [] ->
  MaintenanceRequest.stage r ∈ MaintenanceRequest.stage_values.
Proof.
  unfold MaintenanceRequest.validate, MaintenanceRequest.enum. intros Hvalid.
  apply app_eq_nil in Hvalid as [_ Hvalid].
  apply app_eq_nil in Hvalid as [_ Hvalid].
  apply app_eq_nil in Hvalid as [Hvalid _].
  unfold includes in Hvalid. case_bool_decide; [ done | discriminate Hvalid ].
Qed.

(** C9, as stated, fails on the server when the stage is Scrap: the
    equipment update is sent again.  On the scrapped sample the journal
    gains an equipment update; on the sample whose pump is back in
    service the call takes the pump out of service again. *)
Lemma same_stage_scrap_writes_equipment :
  MaintenanceRequest.stage <$> requests Sample.scrapped !! 1000%N = Some "Scrap"
  /\ status (updateRequestStage Sample.admin 1000%N (Some "Scrap")
               Sample.env Sample.scrapped).2 = 200
  /\ journal (updateRequestStage Sample.admin 1000%N (Some "Scrap")
                Sample.env Sample.scrapped).1 = [UpdateEquipment 1%N]
  /\ Equipment.isActive <$> equipments Sample.back_in_service !! 1%N = Some true
  /\ Equipment.isActive
       <$> equipments (updateRequestStage Sample.admin 1000%N (Some "Scrap")
                         Sample.env Sample.back_in_service).1 !! 1%N
     = Some false.
Proof. vm_compute. repeat split; reflexivity. Qed.

(** C9, amended.  For an actor who may update the request, a valid stored
    request and a run in which no store call throws, asking for the stage
    the request already has is answered 200 and leaves every request as it
    was.  When that stage is not Scrap the whole store, journal included,
    is left as it was.  When it is Scrap the equipment update is sent once
    more, which changes nothing on an equipment that is already inactive.
    On the board, dropping a card on its own column does nothing at all. *)
Theorem same_stage_update env st user (id : ObjectId) r
    (Hwf : wf_store st)
    (Hr : requests st !! id = Some r)
    (Hcan : canUpdate user r = true)
    (Hvalid : MaintenanceRequest.validate r = [])
    (Hnofail : forall c, fails env c = false) :
  let out := updateRequestStage user id (Some (MaintenanceRequest.stage r)) env st in
  status out.2 = 200
  /\ requests out.1 = requests st
  /\ (MaintenanceRequest.stage r <> "Scrap" -> out.1 = st)
  /\ (MaintenanceRequest.stage r = "Scrap" ->
      journal out.1 = journal st ++ [UpdateEquipment (MaintenanceRequest.equipment r)]
      /\ equipments out.1
         = alter Equipment.set_inactive (MaintenanceRequest.equipment r) (equipments st)
      /\ (forall e, equipments st !! MaintenanceRequest.equipment r = Some e ->
                    Equipment.isActive e = false ->
                    equipments out.1 = equipments st))
  /\ (forall board card confirm,
        List.find (fun x => bool_decide (MaintenanceRequest._id x = id)) board
        = Some card ->
        Kanban_drop user board id (Some (MaintenanceRequest.stage card)) confirm env st
        = (st, None)).
Proof.
  pose proof (Hwf _ _ Hr) as Hid. simpl in Hid. subst id.
  pose proof (validate_stage r Hvalid) as Hstage.
  assert (Hset : set_stage r (MaintenanceRequest.stage r) = r)
    by by apply set_stage_same.
  assert (Htruthy : truthy (MaintenanceRequest.stage r) = true).
  { destruct (MaintenanceRequest.stage r); [ | done ].
    exfalso. revert Hstage. by_evaluation. }
  intros out. subst out.
  rewrite updateRequestStage_run by (by rewrite ?Hset).
  rewrite (bool_decide_true (MaintenanceRequest.stage r = MaintenanceRequest.stage r))
    by done.
  assert (Hboard : forall board card confirm,
    List.find (fun x => bool_decide (MaintenanceRequest._id x = MaintenanceRequest._id r))
              board = Some card ->
    Kanban_drop user board (MaintenanceRequest._id r)
      (Some (MaintenanceRequest.stage card)) confirm env st = (st, None)).
  { intros board card confirm Hcard. unfold Kanban_drop, handleDragEnd.
    rewrite Hcard. by rewrite bool_decide_true. }
  case_bool_decide as Hscrap; simpl.
  - split; [ done | ]. split; [ done | ]. split; [ done | ].
    split; [ | exact Hboard ].
    intros _. split; [ done | ]. split; [ done | ].
    intros e He Hinactive. apply map_eq. intros i.
    destruct (decide (i = MaintenanceRequest.equipment r)) as [-> | Hne].
    + rewrite lookup_alter_eq, He. simpl. f_equal.
      destruct e; simpl in *. by subst.
    + by rewrite lookup_alter_ne.
  - split; [ done | ]. split; [ done | ]. split; [ done | ].
    split; [ done | exact Hboard ].
Qed.

Lemma same_stage_update_witness :
  status (updateRequestStage Sample.admin 1000%N (Some "New")
            Sample.env Sample.store).2 = 200
  /\ (updateRequestStage Sample.admin 1000%N (Some "New")
        Sample.env Sample.store).1 = Sample.store.
Proof.
  assert (Hwf : wf_store Sample.store) by by_evaluation.
  destruct (same_stage_update Sample.env Sample.store Sample.admin 1000%N
              Sample.ticket Hwf) as (H200 & _ & Hsame & _);
    [ vm_compute; reflexivity | reflexivity | reflexivity | reflexivity | ].
  split; [ exact H200 | apply Hsame; by_evaluation ].
Defined.

(** ** Transitions the workflow does not permit *)

(** C2.  The server does not refuse a move the workflow forbids.  New ->
    Repaired is not an edge of the graph, and the board refuses that drop
    with the error "Cannot move from New to Repaired" and sends nothing;
    yet the same move asked of the server by an Admin is answered 200 and
    stored.  In the same way the server moves a scrapped request back to
    New, which the detail page lets an Admin ask for. *)
Theorem forbidden_transition_is_committed :
  isValidTransition "New" "Repaired" = false
  /\ requests Sample.store !! 1000%N = Some Sample.ticket
  /\ MaintenanceRequest.stage Sample.ticket = "New"
  /\ handleDragEnd [Sample.ticket] 1000%N (Some "Repaired")
     = Toast "Cannot move from New to Repaired"
  /\ drag_and_drop Sample.admin [Sample.ticket] 1000%N (Some "Repaired") false
       Sample.env Sample.store
     = (Sample.store, None)
  /\ (updateRequestStage Sample.admin 1000%N (Some "Repaired")
        Sample.env Sample.store).2
     = mkResponse 200 true (Some "Request stage updated to Repaired.") None
         (DataRequest (set_stage Sample.ticket "Repaired"))
  /\ MaintenanceRequest.stage
       <$> requests (updateRequestStage Sample.admin 1000%N (Some "Repaired")
                       Sample.env Sample.store).1 !! 1000%N
     = Some "Repaired"
  /\ isValidTransition "Scrap" "New" = false
  /\ MaintenanceRequest.stage <$> requests Sample.scrapped !! 1000%N = Some "Scrap"
  /\ status <$> (handleStageChange Sample.admin 1000%N "New" false
                   Sample.env Sample.scrapped).2 = Some 200
  /\ MaintenanceRequest.stage
       <$> requests (handleStageChange Sample.admin 1000%N "New" false
                       Sample.env Sample.scrapped).1 !! 1000%N
     = Some "New".
Proof. vm_compute. repeat split; reflexivity. Qed.

(** The board, for its part, refuses every such move: dropping a request
    whose stage is [s] on another stage [t] that [isValidTransition]
    rejects shows the error "Cannot move from s to t" and sends nothing to
    the server, so the store, and with it the stage of the request, is
    left as it was. *)
Lemma board_refuses_invalid_transition env st user board (id : ObjectId)
    card (t : string) confirm
    (Hcard : List.find (fun x => bool_decide (MaintenanceRequest._id x = id)) board
             = Some card)
    (Hother : MaintenanceRequest.stage card <> t)
    (Hinvalid : isValidTransition (MaintenanceRequest.stage card) t = false) :
  handleDragEnd board id (Some t)
  = Toast ("Cannot move from " +:+ MaintenanceRequest.stage card +:+ " to " +:+ t)
  /\ Kanban_drop user board id (Some t) confirm env st = (st, None).
Proof.
  assert (Hdrag : handleDragEnd board id (Some t)
    = Toast ("Cannot move from " +:+ MaintenanceRequest.stage card +:+ " to " +:+ t)).
  { unfold handleDragEnd. rewrite Hcard.
    by rewrite (bool_decide_false _ Hother), Hinvalid. }
  split; [ exact Hdrag | ].
  unfold Kanban_drop. by rewrite Hdrag.
Qed.

Lemma validate_set_stage (r : MaintenanceRequest.t) (t : string) :
  MaintenanceRequest.validate r = [] ->
  t ∈ MaintenanceRequest.stage_values ->
  MaintenanceRequest.validate (set_stage r t) = [].
Proof.
  unfold MaintenanceRequest.validate. intros Hvalid Ht.
  apply app_eq_nil in Hvalid as [Hsubject Hvalid].
  apply app_eq_nil in Hvalid as [Htype Hvalid].
  apply app_eq_nil in Hvalid as [_ Hvalid].
  destruct r; simpl in *. rewrite Hsubject, Htype, Hvalid. simpl.
  unfold MaintenanceRequest.enum, includes. by rewrite bool_decide_true.
Qed.

(** The server commits every stage of the schema for an actor who may
    update the request, whatever stage the request has. *)
Lemma updateRequestStage_commits_any_stage env st user (id : ObjectId) r (t : string) :
  wf_store st ->
  requests st !! id = Some r ->
  canUpdate user r = true ->
  MaintenanceRequest.validate r = [] ->
  t ∈ MaintenanceRequest.stage_values ->
  (forall c, fails env c = false) ->
  status (updateRequestStage user id (Some t) env st).2 = 200
  /\ requests (updateRequestStage user id (Some t) env st).1 !! id
     = Some (set_stage r t).
Proof.
  intros Hwf Hr Hcan Hvalid Ht Hnofail.
  pose proof (Hwf _ _ Hr) as Hid. simpl in Hid. subst id.
  rewrite updateRequestStage_run; try done.
  - split; [ done | ].
    repeat case_bool_decide; simpl; rewrite ?lookup_insert_eq; try done.
    all: rewrite Hr; f_equal; symmetry; by apply set_stage_same.
  - destruct t; [ | done ]. exfalso. revert Ht. by_evaluation.
  - by apply validate_set_stage.
Qed.

(** ** Preventive requests without a date *)

(** C8.  The server creates a preventive request that has no scheduled
    date: on the sample store [createRequest] answers 201 and stores the
    request with [scheduledDate] null. *)
Theorem preventive_without_date_is_created :
  Fields.requestType Sample.preventive = Some "Preventive"
  /\ Fields.scheduledDate Sample.preventive = None
  /\ status (createRequest Sample.customer Sample.preventive
               Sample.env Sample.store).2 = 201
  /\ (fun r => (MaintenanceRequest.requestType r, MaintenanceRequest.scheduledDate r))
       <$> requests (createRequest Sample.customer Sample.preventive
                       Sample.env Sample.store).1 !! 1001%N
     = Some (Some "Preventive", None).
Proof. vm_compute. repeat split; reflexivity. Qed.

(** The request form does refuse such a request: [validateForm] reports
    the scheduled date, and [handleSubmit] sends nothing. *)
Lemma form_requires_date_for_preventive env st user (formData : FormData) :
  form_requestType formData = "Preventive" ->
  form_scheduledDate formData = None ->
  ("scheduledDate", "Scheduled date is required for preventive maintenance")
    ∈ validateForm formData
  /\ handleSubmit user formData env st = (st, inl (validateForm formData)).
Proof.
  intros Htype Hdate.
  assert (Hin : ("scheduledDate", "Scheduled date is required for preventive maintenance")
                ∈ validateForm formData).
  { unfold validateForm. rewrite Htype, Hdate. simpl.
    rewrite !elem_of_app, elem_of_cons. naive_solver. }
  split; [ exact Hin | ].
  unfold handleSubmit. destruct (validateForm formData); [ | done ].
  by apply elem_of_nil in Hin.
Qed.

(** ** Well-formedness is an invariant *)

Lemma createRequest_cases env st user body st' resp :
  createRequest user body env st = (st', resp) ->
  requests st' = requests st
  \/ exists r, MaintenanceRequest._id r = newObjectId env
       /\ requests st' = <[newObjectId env := r]> (requests st).
Proof.
  unfold createRequest, Equipment_findById, MaintenanceRequest_create, populate,
    validated.
  run.
  destruct (fails env EquipmentFindById); simpl; [ intros [= <- <-]; by left | ].
  destruct (Fields.equipment body) as [equipmentId | ]; simpl.
  2: { intros [= <- <-]; by left. }
  destruct (equipments st !! equipmentId) as [equipment | ]; simpl.
  2: { intros [= <- <-]; by left. }
  destruct (Equipment.isActive equipment); simpl.
  2: { intros [= <- <-]; by left. }
  destruct (MaintenanceRequest.validate _); simpl; [ | intros [= <- <-]; by left ].
  destruct (fails env RequestCreate); simpl; [ intros [= <- <-]; by left | ].
  destruct (requests st !! newObjectId env); simpl; [ intros [= <- <-]; by left | ].
  destruct (fails env RequestPopulate); simpl; intros [= <- <-]; right;
    eexists; (split; [ | reflexivity ]); reflexivity.
Qed.

Lemma wf_store_insert (st st' : Store) (id : ObjectId) r :
  wf_store st ->
  MaintenanceRequest._id r = id ->
  requests st' = <[id := r]> (requests st) ->
  wf_store st'.
Proof.
  unfold wf_store. intros Hwf Hid ->. by apply map_Forall_insert_2.
Qed.

(** The handlers that write requests keep them stored under their own
    [_id]. *)
Lemma handlers_preserve_wf_store env st user (id : ObjectId) :
  wf_store st ->
  (forall body, wf_store (createRequest user body env st).1)
  /\ (forall body, wf_store (updateRequest user id body env st).1)
  /\ (forall stage, wf_store (updateRequestStage user id stage env st).1)
  /\ (forall technicianId, wf_store (assignTechnician id technicianId env st).1).
Proof.
  intros Hwf. split; [ | split; [ | split ] ].
  - intros body.
    destruct (createRequest_cases env st user body _ _ (surjective_pairing _))
      as [Heq | (r & Hid & Heq)].
    + unfold wf_store. by rewrite Heq.
    + by apply (wf_store_insert st _ (newObjectId env) r).
  - intros body.
    destruct (updateRequest_cases env st user id body _ _ Hwf (surjective_pairing _))
      as (_ & _ & [Heq | (r & Hr & Heq & _)] & _).
    + by rewrite Heq.
    + apply (wf_store_insert st _ id (assign r body)); [ done | | done ].
      exact (Hwf _ _ Hr).
  - intros stage.
    destruct (updateRequestStage_cases env st user id stage _ _ Hwf
                (surjective_pairing _)) as [Heq | (r & s & _ & Hr & Heq)].
    + unfold wf_store. by rewrite Heq.
    + apply (wf_store_insert st _ id (set_stage r s)); [ done | | done ].
      exact (Hwf _ _ Hr).
  - intros technicianId.
    destruct (assignTechnician_cases env st id technicianId _ _
                (surjective_pairing _)) as [Heq | (t & Heq)].
    + unfold wf_store. by rewrite Heq.
    + unfold wf_store. rewrite Heq. intros i r.
      rewrite lookup_alter_Some. intros [(<- & r0 & Hr0 & ->) | (_ & Hr)].
      * exact (Hwf _ _ Hr0).
      * exact (Hwf _ _ Hr).
Qed.

(** ** Scenarios on the sample store *)

(** A request created with no technician takes the default technician and
    the team of its equipment, and starts in New. *)
Example scenario_create :
  (fun r => (MaintenanceRequest.subject r,
             MaintenanceRequest.assignedTechnician r,
             MaintenanceRequest.maintenanceTeam r,
             MaintenanceRequest.stage r))
    <$> requests (createRequest Sample.customer Sample.corrective
                    Sample.env Sample.store).1 !! 1001%N
  = Some (Some "Worn bearing", Some 100%N, Some 10%N, "New").
Proof. vm_compute. reflexivity. Qed.

(** The assigned technician scraps the request: the pump goes out of
    service, and a new request against it is refused. *)
Example scenario_scrap :
  status (updateRequestStage Sample.technician 1000%N (Some "Scrap")
            Sample.env Sample.store).2 = 200
  /\ Equipment.isActive
       <$> equipments (updateRequestStage Sample.technician 1000%N (Some "Scrap")
                         Sample.env Sample.store).1 !! 1%N
     = Some false
  /\ status (createRequest Sample.customer Sample.corrective Sample.env
               (updateRequestStage Sample.technician 1000%N (Some "Scrap")
                  Sample.env Sample.store).1).2 = 400.
Proof. vm_compute. repeat split; reflexivity. Qed.

(** The creator of a request may fetch it; another User may not. *)
Example scenario_fetch :
  status (getRequestById Sample.customer 1000%N Sample.env Sample.store).2 = 200
  /\ status (getRequestById Sample.visitor 1000%N Sample.env Sample.store).2 = 403.
Proof. vm_compute. split; reflexivity. Qed.

(** * Further properties *)

(** ** Lists of requests *)

Lemma satisfies_all_app (f g : list Clause) (r : MaintenanceRequest.t) :
  satisfies_all (f ++ g) r = satisfies_all f r && satisfies_all g r.
Proof. apply forallb_app. Qed.

(** What a sorted [find] returns: the stored documents the filter matches,
    each once, in the order asked for. *)
Lemma find_sorted_elem_of (filter : list Clause)
    (order : relation MaintenanceRequest.t) `{forall x y, Decision (order x y)}
    (st : Store) (r : MaintenanceRequest.t) :
  r ∈ merge_sort order
        (List.filter (satisfies_all filter) (map_to_list (requests st)).*2)
  <-> (exists id, requests st !! id = Some r) /\ satisfies_all filter r = true.
Proof.
  rewrite merge_sort_Permutation, list_elem_of_In, filter_In, <- list_elem_of_In.
  rewrite list_elem_of_fmap. split.
  - intros [([id r'] & -> & Hin%elem_of_map_to_list) Hm]. eauto.
  - intros [[id Hid] Hm]. split; [ | done ].
    exists (id, r). split; [ done | by apply elem_of_map_to_list ].
Qed.

Lemma stored_values_NoDup (st : Store) :
  wf_store st -> NoDup (map_to_list (requests st)).*2.
Proof.
  intros Hwf. apply NoDup_fmap_2_strong; [ | apply NoDup_map_to_list ].
  intros [i x] [j y] Hx%elem_of_map_to_list Hy%elem_of_map_to_list Heq.
  simpl in Heq. subst y. f_equal.
  pose proof (Hwf _ _ Hx) as Hi. pose proof (Hwf _ _ Hy) as Hj.
  simpl in Hi, Hj. congruence.
Qed.

Lemma newest_first_total : Total newest_first.
Proof. intros x y. unfold newest_first. lia. Qed.

Lemma soonest_first_total : Total soonest_first.
Proof.
  intros x y. unfold soonest_first.
  destruct (MaintenanceRequest.scheduledDate x),
           (MaintenanceRequest.scheduledDate y); auto. lia.
Qed.

(** X1.  The list [getAllRequests] answers with is ordered by creation time,
    newest first, and on a well-formed store shows no request twice. *)
Theorem getAllRequests_sorted env st user query
    (Hfind : fails env RequestFind = false)
    (Hwf : wf_store st) :
  exists l,
    getAllRequests user query env st
    = (st, mkResponse 200 true None None (DataRequests l))
    /\ Sorted newest_first l
    /\ NoDup l.
Proof.
  unfold getAllRequests, MaintenanceRequest_find. run. rewrite Hfind.
  eexists. split; [ reflexivity | ]. split.
  - apply (Sorted_merge_sort newest_first (Total0 := newest_first_total)).
  - rewrite merge_sort_Permutation. apply NoDup_ListNoDup, List.NoDup_filter.
    by apply NoDup_ListNoDup, stored_values_NoDup.
Qed.

Lemma getAllRequests_sorted_witness :
  exists l,
    getAllRequests Sample.admin Sample.no_query Agenda.env Agenda.store
    = (Agenda.store, mkResponse 200 true None None (DataRequests l))
    /\ Sorted newest_first l
    /\ NoDup l.
Proof.
  apply (getAllRequests_sorted Agenda.env Agenda.store Sample.admin Sample.no_query);
    [ reflexivity | by_evaluation ].
Defined.

(** For every role, the calendar and the list put the same role-based keys
    in their filters. *)
Lemma calendar_role_filter_matches (user : User.t) (r : MaintenanceRequest.t) :
  satisfies_all (calendar_role_filter user) r = matches_all (role_filter user) r.
Proof.
  unfold calendar_role_filter, role_filter.
  destruct (decide (User.role user = "User")) as [Hu | Hu];
    destruct (decide (User.role user = "Technician")) as [Ht | Ht].
  - rewrite Hu in Ht. discriminate Ht.
  - rewrite (bool_decide_true _ Hu), (bool_decide_false _ Ht). reflexivity.
  - rewrite (bool_decide_false _ Hu), (bool_decide_true _ Ht). reflexivity.
  - rewrite (bool_decide_false _ Hu), (bool_decide_false _ Ht). reflexivity.
Qed.

(** X2.  The calendar shows exactly the requests of the actor's list that have
    a scheduled date within the bounds asked for, soonest first, each cut down
    to the selected fields. *)
Theorem calendar_is_the_dated_list env st user (startDate endDate : option Date)
    (Hfind : fails env RequestFind = false) :
  exists dated listed,
    getCalendarRequests user startDate endDate env st
    = (st, Calendar.mkReply 200 true None None (Calendar.select <$> dated))
    /\ getAllRequests user (mkQuery None None None None None) env st
       = (st, mkResponse 200 true None None (DataRequests listed))
    /\ Sorted soonest_first dated
    /\ forall r, r ∈ dated <->
         r ∈ listed
         /\ exists d, MaintenanceRequest.scheduledDate r = Some d
              /\ (forall lo, startDate = Some lo -> (lo ≤ d)%Z)
              /\ (forall hi, endDate = Some hi -> (d ≤ hi)%Z).
Proof.
  unfold getCalendarRequests, MaintenanceRequest_find_sorted,
    getAllRequests, MaintenanceRequest_find.
  run. rewrite Hfind.
  eexists _, _. split; [ reflexivity | ]. split; [ reflexivity | ].
  split; [ apply (Sorted_merge_sort soonest_first (Total0 := soonest_first_total)) | ].
  intros r.
  rewrite find_sorted_elem_of, MaintenanceRequest_find_spec, matches_all_app.
  change (satisfies_all (scheduledDate_between startDate endDate
                           :: calendar_role_filter user) r)
    with (satisfies (scheduledDate_between startDate endDate) r
          && satisfies_all (calendar_role_filter user) r).
  rewrite calendar_role_filter_matches. simpl. rewrite andb_true_r.
  rewrite andb_true_iff.
  destruct (MaintenanceRequest.scheduledDate r) as [d | ].
  - rewrite andb_true_iff. split.
    + intros (Hstored & [Hlo Hhi] & Hrole). split; [ done | ].
      exists d. split; [ done | ]. split.
      * intros lo ->. by apply Z.leb_le.
      * intros hi ->. by apply Z.leb_le.
    + intros ((Hstored & Hrole) & d' & [= <-] & Hlo & Hhi).
      split; [ done | ]. split; [ | done ]. split.
      * destruct startDate as [lo | ]; [ | done ]. by apply Z.leb_le, Hlo.
      * destruct endDate as [hi | ]; [ | done ]. by apply Z.leb_le, Hhi.
  - split.
    + by intros (_ & [=] & _).
    + by intros (_ & d & [=] & _).
Qed.

Lemma calendar_is_the_dated_list_witness :
  exists dated listed,
    getCalendarRequests Sample.customer (Some 0%Z) None Agenda.env Agenda.store
    = (Agenda.store,
       Calendar.mkReply 200 true None None (Calendar.select <$> dated))
    /\ getAllRequests Sample.customer (mkQuery None None None None None)
         Agenda.env Agenda.store
       = (Agenda.store, mkResponse 200 true None None (DataRequests listed))
    /\ Sorted soonest_first dated
    /\ forall r, r ∈ dated <->
         r ∈ listed
         /\ exists d, MaintenanceRequest.scheduledDate r = Some d
              /\ (forall lo, Some 0%Z = Some lo -> (lo ≤ d)%Z)
              /\ (forall hi, @None Date = Some hi -> (d ≤ hi)%Z).
Proof.
  apply (calendar_is_the_dated_list Agenda.env Agenda.store Sample.customer
           (Some 0%Z) None).
  reflexivity.
Defined.

(** ** Overdue requests *)

(** With the start of today as the bound, comparing a date and comparing
    the start of its day come to the same. *)
Lemma before_today (startOfDay : Date -> Date) (now d : Date) :
  (forall x, (startOfDay x ≤ x)%Z) ->
  (forall x y, (x ≤ y)%Z -> (startOfDay x ≤ startOfDay y)%Z) ->
  (forall x, startOfDay (startOfDay x) = startOfDay x) ->
  (d <? startOfDay now)%Z = (startOfDay d <? startOfDay now)%Z.
Proof.
  intros Hle Hmono Hidem.
  destruct (Z.ltb_spec d (startOfDay now)) as [Hd | Hd];
    destruct (Z.ltb_spec (startOfDay d) (startOfDay now)) as [Hs | Hs];
    try reflexivity.
  - pose proof (Hle d). lia.
  - pose proof (Hmono _ _ Hd) as Hm. rewrite Hidem in Hm. lia.
Qed.

(** X3.  The overdue route answers with exactly the stored requests whose
    [isOverdue] virtual is true (for a Technician: those of them that are
    assigned to the actor or belong to the actor's team), soonest first; and
    it refuses an actor whose role is not Admin, Manager or Technician with
    403.  [startOfDay] can be any truncation that is monotone, idempotent and
    never later than its argument. *)
Theorem overdue_list_is_the_virtual (startOfDay : Date -> Date) env st
    (Hle : forall x, (startOfDay x ≤ x)%Z)
    (Hmono : forall x y, (x ≤ y)%Z -> (startOfDay x ≤ startOfDay y)%Z)
    (Hidem : forall x, startOfDay (startOfDay x) = startOfDay x)
    (Hfind : fails env RequestFind = false) :
  (forall user,
     exists l,
       getOverdueRequests startOfDay user env st
       = (st, mkResponse 200 true None None (DataRequests l))
       /\ Sorted soonest_first l
       /\ forall r, r ∈ l <->
            (exists id, requests st !! id = Some r)
            /\ isOverdue startOfDay (now env) r = true
            /\ (User.role user = "Technician" ->
                MaintenanceRequest.assignedTechnician r = Some (User._id user)
                \/ MaintenanceRequest.maintenanceTeam r = User.team user))
  /\ (forall user,
        User.role user ∉ ["Admin"; "Manager"; "Technician"] ->
        GET_overdue startOfDay (Some user) env st
        = (st, mkResponse 403 false
                 (Some ("Access denied. Required role: Admin or Manager or Technician. Your role: "
                        +:+ User.role user)) None NoData)).
Proof.
  split.
  - intros user.
    unfold getOverdueRequests, MaintenanceRequest_find_sorted. run. rewrite Hfind.
    eexists. split; [ reflexivity | ].
    split; [ apply (Sorted_merge_sort soonest_first (Total0 := soonest_first_total)) | ].
    intros r. rewrite find_sorted_elem_of.
    match goal with
    | |- context [satisfies_all (?a :: ?b :: ?f) r] =>
        change (satisfies_all (a :: b :: f) r)
          with (satisfies_all ([a; b] ++ f) r)
    end.
    rewrite satisfies_all_app.
    assert (Hdue : satisfies_all [scheduledDate_lt (startOfDay (now env));
                                  stage_nin ["Repaired"; "Scrap"]] r
                   = isOverdue startOfDay (now env) r).
    { unfold isOverdue, satisfies_all. simpl. rewrite andb_true_r.
      destruct (MaintenanceRequest.scheduledDate r) as [d | ]; [ | done ].
      rewrite (before_today startOfDay (now env) d Hle Hmono Hidem).
      unfold includes.
      destruct (decide (MaintenanceRequest.stage r = "Repaired")) as [Hr | Hr];
        destruct (decide (MaintenanceRequest.stage r = "Scrap")) as [Hs | Hs].
      - rewrite Hr in Hs. discriminate Hs.
      - rewrite (bool_decide_true _ Hr). simpl.
        rewrite bool_decide_true; [ by rewrite andb_false_r | ].
        rewrite Hr. apply list_elem_of_here.
      - rewrite (bool_decide_false _ Hr), (bool_decide_true _ Hs). simpl.
        rewrite bool_decide_true; [ by rewrite andb_false_r | ].
        rewrite Hs. apply list_elem_of_further, list_elem_of_here.
      - rewrite (bool_decide_false _ Hr), (bool_decide_false _ Hs). simpl.
        rewrite bool_decide_false; [ by rewrite andb_true_r | ].
        rewrite !elem_of_cons, elem_of_nil. tauto. }
    rewrite Hdue, andb_true_iff.
    case_bool_decide as Hrole; simpl.
    + rewrite andb_true_r, orb_true_iff, !bool_decide_eq_true. tauto.
    + tauto.
  - intros user Hrole. unfold GET_overdue, permissions.adminManagerTechnician, roleAuth.
    unfold includes. by rewrite (bool_decide_false _ Hrole).
Qed.

Lemma utc_day_le (x : Date) : (Agenda.utc_day x ≤ x)%Z.
Proof. unfold Agenda.utc_day. pose proof (Z.mul_div_le x 86400000). lia. Qed.

Lemma utc_day_mono (x y : Date) :
  (x ≤ y)%Z -> (Agenda.utc_day x ≤ Agenda.utc_day y)%Z.
Proof.
  unfold Agenda.utc_day. intros Hxy.
  apply Z.mul_le_mono_nonneg_r; [ lia | ]. apply Z.div_le_mono; lia.
Qed.

Lemma utc_day_idem (x : Date) : Agenda.utc_day (Agenda.utc_day x) = Agenda.utc_day x.
Proof. unfold Agenda.utc_day. by rewrite Z.div_mul. Qed.

Lemma overdue_list_is_the_virtual_witness :
  (exists l,
     getOverdueRequests Agenda.utc_day Agenda.manager Agenda.env Agenda.store
     = (Agenda.store, mkResponse 200 true None None (DataRequests l))
     /\ Agenda.inspection ∈ l)
  /\ status (GET_overdue Agenda.utc_day (Some Sample.customer)
               Agenda.env Agenda.store).2 = 403.
Proof.
  destruct (overdue_list_is_the_virtual Agenda.utc_day Agenda.env Agenda.store
              utc_day_le utc_day_mono utc_day_idem eq_refl) as [Hlist Hgate].
  split.
  - destruct (Hlist Agenda.manager) as (l & Hrun & _ & Hin).
    exists l. split; [ exact Hrun | ].
    apply Hin. split; [ exists 1002%N; vm_compute; reflexivity | ].
    split; [ vm_compute; reflexivity | ].
    intros Hrole. vm_compute in Hrole. discriminate Hrole.
  - rewrite (Hgate Sample.customer); [ reflexivity | by_evaluation ].
Defined.

(** ** Assigning and deleting *)

(** X4.  The assign route refuses every actor who is not an Admin or a
    Manager with 403 and without touching the store, the request's own
    technician included.  For an Admin or a Manager it writes the technician
    id it is given onto the request and changes no other field of it,
    whether or not a user has that id and whatever that user's role or team
    is; the other requests, the equipment and the users stay as they were.
    The answer shows the request with the technician as populate resolves
    it: null when no user has the id.  When the populate look-ups throw, the
    answer is 500 although the technician has been written.  For an unknown
    request the answer is 404. *)
Theorem assign_route env st user (id : ObjectId) :
  let with_technician (r : MaintenanceRequest.t) (technician : option ObjectId) :=
    MaintenanceRequest.mk (MaintenanceRequest._id r) (MaintenanceRequest.subject r)
      (MaintenanceRequest.equipment r) (MaintenanceRequest.equipmentCategory r)
      (MaintenanceRequest.maintenanceTeam r) (MaintenanceRequest.requestType r)
      (MaintenanceRequest.stage r) (MaintenanceRequest.priority r)
      (MaintenanceRequest.scheduledDate r) technician
      (MaintenanceRequest.durationHours r) (MaintenanceRequest.description r)
      (MaintenanceRequest.resolutionNotes r) (MaintenanceRequest.createdBy r)
      (MaintenanceRequest.createdAt r) in
  (User.role user ∉ ["Admin"; "Manager"] ->
   forall technicianId,
     PATCH_assign (Some user) id technicianId env st
     = (st, mkResponse 403 false
              (Some ("Access denied. Required role: Admin or Manager. Your role: "
                     +:+ User.role user)) None NoData))
  /\ (User.role user ∈ ["Admin"; "Manager"] ->
      fails env RequestFindByIdAndUpdate = false ->
      forall technician,
        let run := PATCH_assign (Some user) id (Some technician) env st in
        equipments run.1 = equipments st
        /\ users run.1 = users st
        /\ (forall i, i <> id -> requests run.1 !! i = requests st !! i)
        /\ match requests st !! id with
           | Some r =>
               requests run.1 !! id = Some (with_technician r (Some technician))
               /\ run.2
                  = (if fails env RequestPopulate
                     then mkResponse 500 false (Some "Error assigning technician.")
                            (Some (StoreError RequestPopulate)) NoData
                     else mkResponse 200 true (Some "Technician assigned successfully.")
                            None
                            (DataRequest
                               (with_technician r
                                  (match users st !! technician with
                                   | Some _ => Some technician
                                   | None => None
                                   end))))
           | None =>
               requests run.1 !! id = None
               /\ run.2 = mkResponse 404 false (Some "Request not found.") None NoData
           end).
Proof.
  intros with_technician. split.
  - intros Hrole technicianId.
    unfold PATCH_assign, permissions.adminAndManager, roleAuth, includes.
    by rewrite (bool_decide_false _ Hrole).
  - intros Hrole Hup technician.
    unfold PATCH_assign, permissions.adminAndManager, roleAuth, includes.
    rewrite (bool_decide_true _ Hrole). simpl.
    unfold assignTechnician, MaintenanceRequest_findByIdAndUpdate. run.
    rewrite Hup.
    destruct (requests st !! id) as [r | ] eqn:Hr; simpl.
    + destruct (fails env RequestPopulate); simpl.
      all: split; [ done | ]; split; [ done | ].
      all: split; [ intros i Hi; by apply lookup_alter_ne | ].
      all: rewrite lookup_alter_eq, Hr; simpl.
      all: split; [ by destruct r | ].
      all: unfold populate_assignedTechnician; simpl.
      all: by destruct r, (users st !! technician).
    + split; [ done | ]. split; [ done | ].
      split; [ intros i Hi; by apply lookup_alter_ne | ].
      by rewrite lookup_alter_eq, Hr.
Qed.

Lemma assign_route_witness :
  status (PATCH_assign (Some Sample.technician) 1000%N (Some 100%N)
            Sample.env Sample.store).2 = 403
  /\ MaintenanceRequest.assignedTechnician
       <$> requests (PATCH_assign (Some Sample.admin) 1000%N (Some 999%N)
                       Sample.env Sample.store).1 !! 1000%N
     = Some (Some 999%N)
  /\ (fun resp => (status resp, data resp))
       (PATCH_assign (Some Sample.admin) 1000%N (Some 999%N)
          Sample.env Sample.store).2
     = (200,
        DataRequest
          (MaintenanceRequest.mk 1000%N (Some "Leaking seal") 1%N (Some "Pumps")
             (Some 10%N) (Some "Corrective") "New" "Medium" None None 0%Z
             "Seal leaks" "" 300%N 5%Z)).
Proof.
  destruct (assign_route Sample.env Sample.store Sample.technician 1000%N)
    as [Hrefused _].
  destruct (assign_route Sample.env Sample.store Sample.admin 1000%N)
    as [_ Hassigned].
  split.
  - rewrite (Hrefused ltac:(by_evaluation) (Some 100%N)). reflexivity.
  - destruct (Hassigned ltac:(by_evaluation) eq_refl 999%N)
      as (_ & _ & _ & Hrun).
    change (requests Sample.store !! 1000%N) with (Some Sample.ticket) in Hrun.
    destruct Hrun as [Hstored Hshown]. split.
    + exact (f_equal (fmap MaintenanceRequest.assignedTechnician) Hstored).
    + exact (f_equal (fun resp => (status resp, data resp)) Hshown).
Defined.

(** X5.  [deleteRequest] removes the one request and nothing else: the other
    requests and every equipment stay as they were, so deleting a scrapped
    request does not put its equipment back in service.  For an unknown id it
    answers 404, and when the store call throws it answers 500; in both cases
    the store is left as it was. *)
Theorem deleteRequest_removes_one env st (id : ObjectId) :
  (forall r, requests st !! id = Some r ->
     exists st',
       deleteRequest None id env st
       = (st', mkResponse 200 true (Some "Request deleted successfully.") None NoData)
       /\ requests st' !! id = None
       /\ (forall id', id' <> id -> requests st' !! id' = requests st !! id')
       /\ equipments st' = equipments st)
  /\ (requests st !! id = None ->
      deleteRequest None id env st
      = (st, mkResponse 404 false (Some "Request not found.") None NoData))
  /\ (forall e,
      deleteRequest (Some e) id env st
      = (st, mkResponse 500 false (Some "Error deleting request.") (Some e) NoData)).
Proof.
  unfold deleteRequest, MaintenanceRequest_findByIdAndDelete, call_or. run.
  split; [ | split ].
  - intros r Hr. rewrite Hr. eexists. split; [ reflexivity | ]. simpl.
    split; [ apply lookup_delete_eq | ]. split; [ | done ].
    intros id' Hne. by apply lookup_delete_ne.
  - intros Hr. rewrite Hr, (delete_id _ _ Hr). by destruct st.
  - done.
Qed.

Lemma deleteRequest_removes_one_witness :
  (exists st',
     deleteRequest None 1000%N Sample.env Sample.scrapped
     = (st', mkResponse 200 true (Some "Request deleted successfully.") None NoData)
     /\ requests st' !! 1000%N = None
     /\ equipments st' = equipments Sample.scrapped)
  /\ deleteRequest None 1001%N Sample.env Sample.scrapped
     = (Sample.scrapped, mkResponse 404 false (Some "Request not found.") None NoData).
Proof.
  destruct (deleteRequest_removes_one Sample.env Sample.scrapped 1000%N)
    as (Hfound & _).
  destruct (deleteRequest_removes_one Sample.env Sample.scrapped 1001%N)
    as (_ & Habsent & _).
  split.
  - destruct (Hfound (set_stage Sample.ticket "Scrap")) as (st' & Hrun & Hgone & _ & He);
      [ vm_compute; reflexivity | ].
    exists st'. split; [ exact Hrun | ]. split; [ exact Hgone | exact He ].
  - apply Habsent. vm_compute. reflexivity.
Defined.

(** [createRequest] only reads the equipment. *)
Lemma createRequest_equipments env st user body st' resp :
  createRequest user body env st = (st', resp) ->
  equipments st' = equipments st.
Proof.
  unfold createRequest, Equipment_findById, MaintenanceRequest_create, populate,
    validated.
  run.
  destruct (fails env EquipmentFindById); simpl; [ by intros [= <- <-] | ].
  destruct (Fields.equipment body) as [equipmentId | ]; simpl.
  2: { by intros [= <- <-]. }
  destruct (equipments st !! equipmentId) as [equipment | ]; simpl.
  2: { by intros [= <- <-]. }
  destruct (Equipment.isActive equipment); simpl.
  2: { by intros [= <- <-]. }
  destruct (MaintenanceRequest.validate _); simpl; [ | by intros [= <- <-] ].
  destruct (fails env RequestCreate); simpl; [ by intros [= <- <-] | ].
  destruct (requests st !! newObjectId env); simpl; [ by intros [= <- <-] | ].
  destruct (fails env RequestPopulate); simpl; by intros [= <- <-].
Qed.

(** X6.  Creating a request and then deleting it brings the requests and the
    equipment back to what they were. *)
Theorem create_then_delete env env' st user body st1 resp
    (Hcreate : createRequest user body env st = (st1, resp))
    (H201 : status resp = 201) :
  exists st2,
    deleteRequest None (newObjectId env) env' st1
    = (st2, mkResponse 200 true (Some "Request deleted successfully.") None NoData)
    /\ requests st2 = requests st
    /\ equipments st2 = equipments st.
Proof.
  destruct (createRequest_created _ _ _ _ _ _ Hcreate H201)
    as (equipmentId & equipment & _ & _ & _ & Hfresh & _ & Hreq).
  pose proof (createRequest_equipments _ _ _ _ _ _ Hcreate) as Hequip.
  unfold deleteRequest, MaintenanceRequest_findByIdAndDelete, call_or. run.
  rewrite Hreq, lookup_insert_eq. eexists. split; [ reflexivity | ]. simpl.
  split; [ | done ]. rewrite delete_insert_eq. by apply delete_id.
Qed.

Lemma create_then_delete_witness :
  exists st2,
    deleteRequest None 1001%N Sample.env
      (createRequest Sample.customer Sample.corrective Sample.env Sample.store).1
    = (st2, mkResponse 200 true (Some "Request deleted successfully.") None NoData)
    /\ requests st2 = requests Sample.store
    /\ equipments st2 = equipments Sample.store.
Proof.
  apply (create_then_delete Sample.env Sample.env Sample.store Sample.customer
           Sample.corrective _ _ (surjective_pairing _)).
  vm_compute. reflexivity.
Defined.

(** X7.  [deleteEquipment] removes the equipment and leaves every request as
    it was, also those that refer to it; from then on the auto-fill handler
    and [createRequest] answer 404 for that equipment. *)
Theorem deleteEquipment_leaves_requests env env' st user (id : ObjectId) e
    (He : equipments st !! id = Some e)
    (Hup : fails env' EquipmentFindById = false) :
  exists st',
    deleteEquipment None id env st
    = (st', mkResponse 200 true (Some "Equipment deleted successfully.") None NoData)
    /\ requests st' = requests st
    /\ getEquipmentAutoFill id env' st'
       = (st', mkResponse 404 false (Some "Equipment not found.") None NoData)
    /\ forall body, Fields.equipment body = Some id ->
         createRequest user body env' st'
         = (st', mkResponse 404 false (Some "Equipment not found.") None NoData).
Proof.
  unfold deleteEquipment, Equipment_findByIdAndDelete, call_or. run. rewrite He.
  eexists. split; [ reflexivity | ]. simpl. split; [ done | ].
  split.
  - unfold getEquipmentAutoFill, Equipment_findById. run.
    by rewrite Hup, lookup_delete_eq.
  - intros body Hbody. unfold createRequest, Equipment_findById. run.
    rewrite Hup, Hbody. simpl. by rewrite lookup_delete_eq.
Qed.

Lemma deleteEquipment_leaves_requests_witness :
  exists st',
    deleteEquipment None 1%N Sample.env Sample.store
    = (st', mkResponse 200 true (Some "Equipment deleted successfully.") None NoData)
    /\ requests st' = requests Sample.store
    /\ getEquipmentAutoFill 1%N Sample.env st'
       = (st', mkResponse 404 false (Some "Equipment not found.") None NoData)
    /\ forall body, Fields.equipment body = Some 1%N ->
         createRequest Sample.customer body Sample.env st'
         = (st', mkResponse 404 false (Some "Equipment not found.") None NoData).
Proof.
  apply (deleteEquipment_leaves_requests Sample.env Sample.env Sample.store
           Sample.customer 1%N Sample.pump); [ vm_compute | ]; reflexivity.
Defined.

(** ** The requests of an equipment *)

(** X8.  The open requests of an equipment are exactly its requests whose
    stage is neither Repaired nor Scrap. *)
Theorem open_requests_of_equipment env st (id : ObjectId)
    (Hfind : fails env RequestFind = false) :
  exists every open,
    getEquipmentRequests id env st
    = (st, mkResponse 200 true None None (DataRequests every))
    /\ getEquipmentOpenRequests id env st
       = (st, mkResponse 200 true None None (DataRequests open))
    /\ (forall r, r ∈ every <->
          (exists k, requests st !! k = Some r)
          /\ MaintenanceRequest.equipment r = id)
    /\ (forall r, r ∈ open <->
          r ∈ every
          /\ MaintenanceRequest.stage r <> "Repaired"
          /\ MaintenanceRequest.stage r <> "Scrap").
Proof.
  unfold getEquipmentRequests, getEquipmentOpenRequests,
    MaintenanceRequest_find_sorted.
  run. rewrite Hfind.
  eexists _, _. split; [ reflexivity | ]. split; [ reflexivity | ].
  split; intros r; rewrite !find_sorted_elem_of; unfold satisfies_all; simpl;
    rewrite ?andb_true_r, ?andb_true_iff, ?bool_decide_eq_true; [ tauto | ].
  unfold includes. rewrite negb_true_iff, bool_decide_eq_false.
  rewrite !elem_of_cons, elem_of_nil. tauto.
Qed.

Lemma open_requests_of_equipment_witness :
  exists every open,
    getEquipmentRequests 1%N Agenda.env Agenda.store
    = (Agenda.store, mkResponse 200 true None None (DataRequests every))
    /\ getEquipmentOpenRequests 1%N Agenda.env Agenda.store
       = (Agenda.store, mkResponse 200 true None None (DataRequests open))
    /\ (forall r, r ∈ every <->
          (exists k, requests Agenda.store !! k = Some r)
          /\ MaintenanceRequest.equipment r = 1%N)
    /\ (forall r, r ∈ open <->
          r ∈ every
          /\ MaintenanceRequest.stage r <> "Repaired"
          /\ MaintenanceRequest.stage r <> "Scrap").
Proof.
  apply (open_requests_of_equipment Agenda.env Agenda.store 1%N). reflexivity.
Defined.

(** X9.  Once a change of stage to Repaired or Scrap has been answered 200,
    the request is no longer among the open requests of any equipment. *)
Theorem closed_request_leaves_open_list env env' st user (id : ObjectId)
    (t : string) st' resp
    (Hwf : wf_store st)
    (Hclosing : t = "Repaired" \/ t = "Scrap")
    (Hrun : updateRequestStage user id (Some t) env st = (st', resp))
    (H200 : status resp = 200)
    (Hfind : fails env' RequestFind = false) :
  forall equipmentId,
  exists open,
    getEquipmentOpenRequests equipmentId env' st'
    = (st', mkResponse 200 true None None (DataRequests open))
    /\ forall r, r ∈ open -> MaintenanceRequest._id r <> id.
Proof.
  intros equipmentId.
  assert (Hwf' : wf_store st').
  { destruct (handlers_preserve_wf_store env st user id Hwf) as (_ & _ & Hstage & _).
    specialize (Hstage (Some t)). by rewrite Hrun in Hstage. }
  assert (Hstored : exists r, requests st' !! id = Some (set_stage r t)).
  { destruct (updateRequestStage_cases _ _ _ _ _ _ _ Hwf Hrun)
      as [Heq | (r & s & [= <-] & Hr & Heq)].
    - revert Hrun H200.
      unfold updateRequestStage, MaintenanceRequest_findById,
        Equipment_findByIdAndUpdate, save, populate, validated.
      run.
      destruct t as [ | a t ]; [ by intros [= <- <-] | ].
      destruct (fails env RequestFindById); simpl; [ by intros [= <- <-] | ].
      destruct (requests st !! id) as [r | ] eqn:Hr; [ | by intros [= <- <-] ].
      pose proof (Hwf _ _ Hr) as Hid. simpl in Hid. subst id.
      destruct (canUpdate user r); simpl; [ | by intros [= <- <-] ].
      set (stage := String a t) in *.
      destruct (bool_decide (stage = "Scrap"));
        [ destruct (fails env EquipmentFindByIdAndUpdate); simpl;
          [ by intros [= <- <-] | ] | simpl ].
      all: destruct (MaintenanceRequest.validate (set_stage r stage)); simpl;
        [ | by intros [= <- <-] ].
      all: case_bool_decide as Hsame; simpl.
      all: destruct (fails env RequestSave); simpl; [ by intros [= <- <-] | ].
      all: destruct (fails env RequestPopulate); simpl; intros [= <- <-];
        try done; intros _; exists r; simpl in *;
        rewrite ?lookup_insert_eq; congruence.
    - exists r. by rewrite Heq, lookup_insert_eq. }
  destruct Hstored as (r0 & Hr0).
  unfold getEquipmentOpenRequests, MaintenanceRequest_find_sorted. run.
  rewrite Hfind. eexists. split; [ reflexivity | ].
  intros r. rewrite find_sorted_elem_of. unfold satisfies_all. simpl.
  rewrite andb_true_r, andb_true_iff, negb_true_iff.
  intros ((k & Hk) & _ & Hstage) Hid.
  pose proof (Hwf' _ _ Hk) as Hkey. simpl in Hkey.
  assert (r = set_stage r0 t) as -> by congruence.
  unfold includes in Hstage. apply bool_decide_eq_false in Hstage.
  apply Hstage. rewrite !elem_of_cons. simpl. tauto.
Qed.

Lemma closed_request_leaves_open_list_witness :
  exists open,
    getEquipmentOpenRequests 1%N Sample.env
      (updateRequestStage Sample.admin 1000%N (Some "Repaired")
         Sample.env Sample.store).1
    = ((updateRequestStage Sample.admin 1000%N (Some "Repaired")
          Sample.env Sample.store).1,
       mkResponse 200 true None None (DataRequests open))
    /\ forall r, r ∈ open -> MaintenanceRequest._id r <> 1000%N.
Proof.
  apply (closed_request_leaves_open_list Sample.env Sample.env Sample.store
           Sample.admin 1000%N "Repaired"
           (updateRequestStage Sample.admin 1000%N (Some "Repaired")
              Sample.env Sample.store).1
           (updateRequestStage Sample.admin 1000%N (Some "Repaired")
              Sample.env Sample.store).2);
    [ by_evaluation | by left | apply surjective_pairing
    | vm_compute; reflexivity | reflexivity ].
Defined.

(** ** What the user interface lets through *)

(** X10.  Whoever the user interface lets update a stage, edit a request,
    assign a technician or delete a request passes the role gate the server
    puts on that action. *)
Theorem interface_within_server_gates (user : User.t) :
  (canUpdateStage (User.role user) = true ->
   forall r, canUpdate user r = true)
  /\ (canEditMaintenanceRequest (User.role user) = true ->
      forall r, canUpdate user r = true)
  /\ (canAssignTechnician (User.role user) = true ->
      forall id technicianId env st,
        PATCH_assign (Some user) id technicianId env st
        = assignTechnician id technicianId env st)
  /\ (canDeleteMaintenanceRequest (User.role user) = true ->
      forall failure id env st,
        DELETE_request failure (Some user) id env st
        = deleteRequest failure id env st).
Proof.
  unfold canUpdateStage, canEditMaintenanceRequest, canAssignTechnician,
    canDeleteMaintenanceRequest, isAdminOrManager, isAdmin,
    ROLES.ADMIN, ROLES.MANAGER.
  split; [ | split; [ | split ] ].
  - intros Hrole r. unfold canUpdate. by rewrite Hrole.
  - intros Hrole r. unfold canUpdate. by rewrite Hrole.
  - intros Hrole id technicianId env st.
    unfold PATCH_assign, permissions.adminAndManager, roleAuth. by rewrite Hrole.
  - intros Hrole%bool_decide_eq_true failure id env st.
    unfold DELETE_request, permissions.adminAndManager, roleAuth. by rewrite Hrole.
Qed.

Lemma interface_within_server_gates_witness :
  canUpdate Agenda.manager Sample.ticket = true
  /\ forall failure id env st,
       DELETE_request failure (Some Sample.admin) id env st
       = deleteRequest failure id env st.
Proof.
  destruct (interface_within_server_gates Agenda.manager) as (Hstage & _).
  destruct (interface_within_server_gates Sample.admin) as (_ & _ & _ & Hdelete).
  split; [ apply Hstage; reflexivity | apply Hdelete; reflexivity ].
Defined.

Lemma isValidTransition_permitted (s t : string) :
  s ∈ MaintenanceRequest.stage_values ->
  isValidTransition s t = true ->
  (s, t) ∈ permitted /\ t ∈ MaintenanceRequest.stage_values.
Proof.
  intros Hs. stage_cases Hs; unfold isValidTransition; simpl.
  4: discriminate.
  all: case_bool_decide as Hscrap;
    [ subst t; intros _; split; by_evaluation | ].
  all: unfold includes; intros Hin%bool_decide_eq_true.
  all: rewrite ?elem_of_cons, ?elem_of_nil in Hin.
  all: destruct_or?; try done; subst t; split; by_evaluation.
Qed.

(** X11.  Whatever the board sends to the server after a drag comes from an
    Admin or a Manager, for a card that is not in Scrap, and asks for a stage
    that the transition graph permits from the stage the card shows; the
    server does not answer it with 403.  In every other case the board sends
    nothing. *)
Theorem board_sends_only_permitted env st user board (active : ObjectId)
    over confirm st' answer
    (Hdrop : drag_and_drop user board active over confirm env st = (st', answer)) :
  match answer with
  | None => st' = st
  | Some resp =>
      exists card t,
        List.find (fun r => bool_decide (MaintenanceRequest._id r = active)) board
        = Some card
        /\ over = Some t
        /\ User.role user ∈ ["Admin"; "Manager"]
        /\ MaintenanceRequest.stage card <> "Scrap"
        /\ isValidTransition (MaintenanceRequest.stage card) t = true
        /\ (MaintenanceRequest.stage card ∈ MaintenanceRequest.stage_values ->
            (MaintenanceRequest.stage card, t) ∈ permitted)
        /\ updateRequestStage user active (Some t) env st = (st', resp)
        /\ status resp <> 403
  end.
Proof.
  revert Hdrop. unfold drag_and_drop.
  destruct (List.find _ board) as [card | ] eqn:Hcard; [ | by intros [= <- <-] ].
  unfold isDraggable, canDrag, canUpdateStage, isAdminOrManager, includes,
    ROLES.ADMIN, ROLES.MANAGER.
  case_bool_decide as Hrole; simpl; [ | by intros [= <- <-] ].
  case_bool_decide as Hscrap; simpl; [ by intros [= <- <-] | ].
  unfold Kanban_drop, handleDragEnd. rewrite Hcard.
  destruct over as [t | ]; [ | by intros [= <- <-] ].
  case_bool_decide as Hsame; [ by intros [= <- <-] | ].
  destruct (isValidTransition (MaintenanceRequest.stage card) t) eqn:Hvalid; simpl;
    [ | by intros [= <- <-] ].
  assert (Hgate : forall s st1 resp,
    updateRequestStage user active (Some s) env st = (st1, resp) ->
    status resp <> 403).
  { intros s st1 resp.
    unfold updateRequestStage, MaintenanceRequest_findById,
      Equipment_findByIdAndUpdate, save, populate, validated.
    run.
    destruct s as [ | a s ]; [ by intros [= <- <-] | ].
    destruct (fails env RequestFindById); simpl; [ by intros [= <- <-] | ].
    destruct (requests st !! active) as [r | ]; [ | by intros [= <- <-] ].
    unfold canUpdate, includes. rewrite (bool_decide_true _ Hrole). simpl.
    set (stage := String a s).
    destruct (bool_decide (stage = "Scrap"));
      [ destruct (fails env EquipmentFindByIdAndUpdate); simpl;
        [ by intros [= <- <-] | ] | simpl ].
    all: destruct (MaintenanceRequest.validate (set_stage r stage)); simpl;
      [ | by intros [= <- <-] ].
    all: case_bool_decide; simpl.
    all: destruct (fails env RequestSave); simpl; [ by intros [= <- <-] | ].
    all: destruct (fails env RequestPopulate); simpl; by intros [= <- <-]. }
  case_bool_decide as Hto.
  - subst t. destruct confirm; [ | by intros [= <- <-] ].
    destruct (updateRequestStage user active (Some "Scrap") env st)
      as [st1 resp] eqn:Hrun.
    intros [= <- <-]. exists card, "Scrap".
    repeat (split; [ done | ]). split; [ | eauto ].
    intros Hstage. by apply isValidTransition_permitted.
  - destruct (updateRequestStage user active (Some t) env st)
      as [st1 resp] eqn:Hrun.
    intros [= <- <-]. exists card, t.
    repeat (split; [ done | ]). split; [ | eauto ].
    intros Hstage. by apply isValidTransition_permitted.
Qed.

Lemma board_sends_only_permitted_witness :
  exists card t,
    List.find (fun r => bool_decide (MaintenanceRequest._id r = 1000%N))
              [Sample.ticket] = Some card
    /\ Some "In Progress" = Some t
    /\ User.role Sample.admin ∈ ["Admin"; "Manager"]
    /\ MaintenanceRequest.stage card <> "Scrap"
    /\ isValidTransition (MaintenanceRequest.stage card) t = true
    /\ (MaintenanceRequest.stage card ∈ MaintenanceRequest.stage_values ->
        (MaintenanceRequest.stage card, t) ∈ permitted)
    /\ updateRequestStage Sample.admin 1000%N (Some t) Sample.env Sample.store
       = ((updateRequestStage Sample.admin 1000%N (Some "In Progress")
             Sample.env Sample.store).1,
          (updateRequestStage Sample.admin 1000%N (Some "In Progress")
             Sample.env Sample.store).2)
    /\ status (updateRequestStage Sample.admin 1000%N (Some "In Progress")
                 Sample.env Sample.store).2 <> 403.
Proof.
  apply (board_sends_only_permitted Sample.env Sample.store Sample.admin
           [Sample.ticket] 1000%N (Some "In Progress") false
           (updateRequestStage Sample.admin 1000%N (Some "In Progress")
              Sample.env Sample.store).1
           (Some (updateRequestStage Sample.admin 1000%N (Some "In Progress")
                    Sample.env Sample.store).2)).
  vm_compute. reflexivity.
Defined.

(** ** The workflow as a whole *)

Lemma isValidTransition_rank (s t : string) :
  s ∈ MaintenanceRequest.stage_values ->
  isValidTransition s t = true ->
  t ∈ MaintenanceRequest.stage_values /\ (rank s < rank t)%nat.
Proof.
  intros Hs Hvalid.
  destruct (isValidTransition_permitted s t Hs Hvalid) as [Hp Ht].
  split; [ exact Ht | ].
  unfold permitted in Hp. rewrite !elem_of_cons, elem_of_nil in Hp.
  destruct_or!; try done; simplify_eq; vm_compute; lia.
Qed.

Lemma accepted_path_ranks (path : list string) (s : string) :
  s ∈ MaintenanceRequest.stage_values ->
  accepted_path (s :: path) = true ->
  Forall (fun t => t ∈ MaintenanceRequest.stage_values /\ (rank s < rank t)%nat) path.
Proof.
  revert s. induction path as [ | t path IH ]; intros s Hs Hpath; [ constructor | ].
  simpl in Hpath. apply andb_true_iff in Hpath as [Hstep Hrest].
  destruct (isValidTransition_rank s t Hs Hstep) as [Ht Hlt].
  constructor; [ done | ].
  eapply Forall_impl; [ exact (IH t Ht Hrest) | ].
  intros u [Hu Htu]. split; [ done | lia ].
Qed.

Lemma rank_bound (s : string) : (rank s <= 3)%nat.
Proof. unfold rank. repeat case_bool_decide; lia. Qed.

(** X12.  Along any sequence of moves the board accepts, starting from a stage
    of the schema, the request moves forward only: no stage is visited twice,
    there are at most three moves, every stage reached is a stage of the
    schema, and nothing follows Scrap. *)
Theorem accepted_path_moves_forward (s : string) (path : list string)
    (Hs : s ∈ MaintenanceRequest.stage_values)
    (Hpath : accepted_path (s :: path) = true) :
  (List.length path <= 3)%nat
  /\ NoDup (s :: path)
  /\ Forall (fun t => t ∈ MaintenanceRequest.stage_values) path
  /\ (forall before after, s :: path = before ++ "Scrap" :: after -> after = []).
Proof.
  assert (Hlen : forall p u, u ∈ MaintenanceRequest.stage_values ->
            accepted_path (u :: p) = true -> (List.length p <= 3 - rank u)%nat).
  { induction p as [ | t p IH ]; intros u Hu Hp; [ simpl; lia | ].
    simpl in Hp. apply andb_true_iff in Hp as [Hstep Hrest].
    destruct (isValidTransition_rank u t Hu Hstep) as [Ht Hlt].
    specialize (IH t Ht Hrest). pose proof (rank_bound t). simpl. lia. }
  assert (Hnodup : forall p u, u ∈ MaintenanceRequest.stage_values ->
            accepted_path (u :: p) = true -> NoDup (u :: p)).
  { induction p as [ | t p IH ]; intros u Hu Hp.
    - apply NoDup_singleton.
    - pose proof (accepted_path_ranks _ _ Hu Hp) as Hranks.
      simpl in Hp. apply andb_true_iff in Hp as [Hstep Hrest].
      destruct (isValidTransition_rank u t Hu Hstep) as [Ht Hlt].
      apply NoDup_cons. split; [ | by apply IH ].
      intros Hin. rewrite Forall_forall in Hranks.
      destruct (Hranks u Hin) as [_ Hlt']. lia. }
  split; [ specialize (Hlen path s Hs Hpath); lia | ].
  split; [ by apply Hnodup | ].
  split.
  { eapply Forall_impl; [ exact (accepted_path_ranks _ _ Hs Hpath) | ].
    by intros t [Ht _]. }
  assert (Hlast : forall p u before after,
            u ∈ MaintenanceRequest.stage_values ->
            accepted_path (u :: p) = true ->
            u :: p = before ++ "Scrap" :: after -> after = []).
  { induction p as [ | t p IH ]; intros u before after Hu Hp Heq.
    - destruct before as [ | b before ]; simpl in Heq.
      + by injection Heq as _ <-.
      + injection Heq as _ Heq. by destruct before.
    - simpl in Hp. apply andb_true_iff in Hp as [Hstep Hrest].
      destruct (isValidTransition_rank u t Hu Hstep) as [Ht _].
      destruct before as [ | b before ]; simpl in Heq.
      + injection Heq as -> _. discriminate Hstep.
      + injection Heq as _ Heq. by apply (IH t before after Ht Hrest). }
  intros before after. by apply Hlast.
Qed.

Lemma accepted_path_moves_forward_witness :
  (List.length ["In Progress"; "Repaired"; "Scrap"] <= 3)%nat
  /\ NoDup ["New"; "In Progress"; "Repaired"; "Scrap"]
  /\ Forall (fun t => t ∈ MaintenanceRequest.stage_values)
            ["In Progress"; "Repaired"; "Scrap"]
  /\ (forall before after,
        ["New"; "In Progress"; "Repaired"; "Scrap"] = before ++ "Scrap" :: after ->
        after = []).
Proof.
  apply (accepted_path_moves_forward "New" ["In Progress"; "Repaired"; "Scrap"]);
    [ by_evaluation | reflexivity ].
Defined.

(** X13.  The columns of the board hold every shown request whose stage is a
    stage of the schema exactly once. *)
Theorem columns_partition (filteredRequests : list MaintenanceRequest.t)
    (Hstages : Forall (fun r => MaintenanceRequest.stage r ∈ stages) filteredRequests) :
  List.concat (getRequestsByStage filteredRequests <$> stages) ≡ₚ filteredRequests.
Proof.
  unfold stages in *. simpl. rewrite app_nil_r.
  induction Hstages as [ | r l Hr _ IH ]; [ reflexivity | ].
  unfold getRequestsByStage in *. simpl.
  rewrite !elem_of_cons, elem_of_nil in Hr.
  destruct Hr as [Hr | [Hr | [Hr | [Hr | []]]]]; rewrite Hr; simpl.
  - by rewrite IH.
  - rewrite <- Permutation_middle. by rewrite IH.
  - rewrite app_assoc, <- Permutation_middle, <- app_assoc. by rewrite IH.
  - rewrite !app_assoc, <- Permutation_middle, <- !app_assoc. by rewrite IH.
Qed.

Lemma columns_partition_witness :
  List.concat (getRequestsByStage [Sample.ticket; Agenda.inspection] <$> stages)
  ≡ₚ [Sample.ticket; Agenda.inspection].
Proof.
  apply (columns_partition [Sample.ticket; Agenda.inspection]).
  repeat constructor; by_evaluation.
Defined.

(** ** White space and the schema's setters *)

Lemma trimStart_blank (s : string) : blank s = true -> trimStart s = "".
Proof.
  induction s as [ | a s IH ]; [ done | ]. simpl.
  intros [Ha Hs]%andb_true_iff. rewrite Ha. by apply IH.
Qed.

Lemma trimEnd_blank (s : string) : trimEnd s = "" <-> blank s = true.
Proof.
  induction s as [ | a s IH ]; [ done | ]. simpl.
  destruct (trimEnd s) as [ | b t ] eqn:Hend.
  - destruct (is_space a); simpl; [ | split; discriminate ].
    split; intros _; [ by apply IH | done ].
  - split; [ discriminate | ].
    intros [_ Hs]%andb_true_iff. apply IH in Hs. discriminate Hs.
Qed.

Lemma blank_trimStart (s : string) : blank (trimStart s) = blank s.
Proof.
  induction s as [ | a s IH ]; [ done | ]. simpl.
  destruct (is_space a) eqn:Ha; simpl; [ done | by rewrite Ha ].
Qed.

(** [trim] gives the empty string exactly on white space. *)
Lemma trim_blank (s : string) : truthy (trim s) = false <-> blank s = true.
Proof.
  unfold trim. rewrite <- blank_trimStart, <- trimEnd_blank.
  destruct (trimEnd (trimStart s)); simpl; split; done.
Qed.

Lemma trimStart_clean (s : string) :
  match trimStart s with
  | EmptyString => True
  | String a _ => is_space a = false
  end.
Proof.
  induction s as [ | a s IH ]; [ done | ]. simpl.
  destruct (is_space a) eqn:Ha; [ exact IH | exact Ha ].
Qed.

Lemma trimEnd_idemp (s : string) : trimEnd (trimEnd s) = trimEnd s.
Proof.
  induction s as [ | a s IH ]; [ done | ]. simpl.
  destruct (trimEnd s) as [ | b t ] eqn:Hend.
  - destruct (is_space a) eqn:Ha; simpl; [ done | by rewrite Ha ].
  - change (trimEnd (String a (String b t))) with
      (match trimEnd (String b t) with
       | EmptyString => if is_space a then EmptyString else String a EmptyString
       | u => String a u
       end).
    by rewrite IH.
Qed.

Lemma trim_idemp (s : string) : trim (trim s) = trim s.
Proof.
  unfold trim. pose proof (trimStart_clean s) as Hclean.
  destruct (trimStart s) as [ | a t ] eqn:Hstart; [ done | ].
  assert (Hhead : exists u, trimEnd (String a t) = String a u).
  { simpl. destruct (trimEnd t); [ rewrite Hclean | ]; eauto. }
  destruct Hhead as [u Hu]. rewrite Hu.
  change (trimStart (String a u)) with
    (if is_space a then trimStart u else String a u).
  rewrite Hclean, <- Hu. apply trimEnd_idemp.
Qed.

(** ** Creating requests *)

Lemma validate_subject (r : MaintenanceRequest.t) :
  MaintenanceRequest.validate r = [] ->
  exists s, MaintenanceRequest.subject r = Some s /\ truthy s = true.
Proof.
  unfold MaintenanceRequest.validate. intros [Hsubject _]%app_eq_nil.
  unfold MaintenanceRequest.required_string in Hsubject.
  destruct (MaintenanceRequest.subject r) as [s | ]; [ | discriminate Hsubject ].
  exists s. split; [ done | ]. by destruct (truthy s).
Qed.

(** X14.  A request with no subject, or with a subject of white space only, is
    never stored: whatever the store holds and whichever call fails,
    [createRequest] leaves the store as it was and does not answer 201; on an
    active equipment the answer is 500 and carries the validation error of the
    path [subject]. *)
Theorem blank_subject_never_stored env st user body
    (Hblank : match Fields.subject body with
              | Some s => blank s = true
              | None => True
              end) :
  (createRequest user body env st).1 = st
  /\ status (createRequest user body env st).2 <> 201
  /\ (forall equipmentId equipment,
        fails env EquipmentFindById = false ->
        Fields.equipment body = Some equipmentId ->
        equipments st !! equipmentId = Some equipment ->
        Equipment.isActive equipment = true ->
        exists errs,
          (createRequest user body env st).2
          = mkResponse 500 false (Some "Error creating request.")
                       (Some (ValidationError errs)) NoData
          /\ ("subject", "Subject is required") ∈ errs).
Proof.
  assert (Hinvalid : forall id created equipmentId equipment,
    exists e errs,
      MaintenanceRequest.validate
        (new_document id created equipmentId (User._id user)
           (create_fields body equipmentId equipment user))
      = e :: errs
      /\ ("subject", "Subject is required") ∈ e :: errs).
  { intros id created equipmentId equipment.
    unfold MaintenanceRequest.validate, new_document, create_fields. simpl.
    destruct (Fields.subject body) as [s | ]; simpl.
    - apply trim_blank in Hblank. rewrite Hblank. simpl.
      eexists _, _. split; [ reflexivity | apply list_elem_of_here ].
    - eexists _, _. split; [ reflexivity | apply list_elem_of_here ]. }
  unfold createRequest, Equipment_findById, MaintenanceRequest_create, populate,
    validated.
  run.
  destruct (fails env EquipmentFindById) eqn:Hfind; simpl.
  { repeat split; [ done | ]. intros ? ? ?. discriminate. }
  destruct (Fields.equipment body) as [equipmentId | ]; simpl.
  2: { repeat split; [ done | ]. intros ? ? ? ?. discriminate. }
  destruct (equipments st !! equipmentId) as [equipment | ] eqn:He; simpl.
  2: { repeat split; [ done | ]. intros ? ? ? [= <-]. by rewrite He. }
  destruct (Equipment.isActive equipment) eqn:Hactive; simpl.
  2: { repeat split; [ done | ]. intros ? ? ? [= <-]. rewrite He.
       intros [= <-]. by rewrite Hactive. }
  destruct (Hinvalid (newObjectId env) (now env) equipmentId equipment)
    as (e & errs & Hvalidate & Hin).
  rewrite Hvalidate. simpl. repeat split; [ done | ].
  intros ? ? _ [= <-] _ _. by exists (e :: errs).
Qed.

Lemma blank_subject_never_stored_witness :
  (createRequest Sample.customer Agenda.no_subject Sample.env Sample.store).1
  = Sample.store
  /\ status (createRequest Sample.customer Agenda.no_subject Sample.env Sample.store).2
     <> 201.
Proof.
  destruct (blank_subject_never_stored Sample.env Sample.store Sample.customer
              Agenda.no_subject eq_refl) as (Hstore & Hstatus & _).
  exact (conj Hstore Hstatus).
Defined.



(** ** Stages outside the schema *)

Lemma validate_stage_outside (r : MaintenanceRequest.t) :
  MaintenanceRequest.stage r ∉ MaintenanceRequest.stage_values ->
  MaintenanceRequest.validate r <> [].
Proof. intros Hout Hvalid. by apply Hout, validate_stage. Qed.

(** X16.  A stage that is not one of the four of the schema is never stored by
    [updateRequestStage]: for every caller, request and store, and whichever
    call fails, the store is left as it was (no equipment is deactivated
    either) and the answer is not 200; for a caller who may update the request
    the answer is 500 with the validation error. *)
Theorem stage_outside_schema_rejected env st user (id : ObjectId) (s : string)
    (Hout : s ∉ MaintenanceRequest.stage_values) :
  (updateRequestStage user id (Some s) env st).1 = st
  /\ status (updateRequestStage user id (Some s) env st).2 <> 200
  /\ (forall r,
        fails env RequestFindById = false ->
        requests st !! id = Some r ->
        canUpdate user r = true ->
        truthy s = true ->
        exists errs,
          (updateRequestStage user id (Some s) env st).2
          = mkResponse 500 false (Some "Error updating request stage.")
                       (Some (ValidationError errs)) NoData).
Proof.
  assert (Hscrap : bool_decide (s = "Scrap") = false).
  { apply bool_decide_eq_false. intros ->. apply Hout. by_evaluation. }
  unfold updateRequestStage, MaintenanceRequest_findById, Equipment_findByIdAndUpdate,
    save, populate, validated.
  run.
  destruct s as [ | a s ]; [ repeat split; [ done | by intros ] | ].
  set (stage := String a s) in *.
  destruct (fails env RequestFindById); simpl;
    [ repeat split; [ done | by intros ] | ].
  destruct (requests st !! id) as [r | ] eqn:Hr;
    [ | repeat split; [ done | by intros ] ].
  destruct (canUpdate user r) eqn:Hcan; simpl.
  2: { repeat split; [ done | ]. intros ? _ [= <-]. by rewrite Hcan. }
  rewrite Hscrap. simpl.
  destruct (MaintenanceRequest.validate (set_stage r stage)) as [ | e errs ] eqn:Hv.
  { exfalso. by apply (validate_stage_outside (set_stage r stage)). }
  simpl. repeat split; [ done | ]. intros ? _ [= <-] _ _. by exists (e :: errs).
Qed.

Lemma stage_outside_schema_rejected_witness :
  (updateRequestStage Sample.admin 1000%N (Some "Done") Sample.env Sample.store).1
  = Sample.store
  /\ status (updateRequestStage Sample.admin 1000%N (Some "Done")
               Sample.env Sample.store).2 <> 200.
Proof.
  destruct (stage_outside_schema_rejected Sample.env Sample.store Sample.admin
              1000%N "Done") as (Hstore & Hstatus & _); [ by_evaluation | ].
  exact (conj Hstore Hstatus).
Defined.

(** ** Stored requests stay valid *)

Lemma validate_checked (r : MaintenanceRequest.t) :
  MaintenanceRequest.validate r = [] -> checked r.
Proof.
  intros Hvalid. split; [ by apply validate_subject | ].
  unfold MaintenanceRequest.validate in Hvalid.
  apply app_eq_nil in Hvalid as [_ Hvalid].
  apply app_eq_nil in Hvalid as [Htype Hvalid].
  repeat (apply app_eq_nil in Hvalid as [_ Hvalid]).
  split.
  - unfold MaintenanceRequest.validate_requestType,
      MaintenanceRequest.required_string, MaintenanceRequest.enum,
      includes in Htype.
    destruct (MaintenanceRequest.requestType r) as [t | ]; [ | discriminate Htype ].
    exists t. split; [ done | ].
    destruct (truthy t); [ | discriminate Htype ].
    case_bool_decide; [ done | discriminate Htype ].
  - unfold MaintenanceRequest.validate_durationHours in Hvalid.
    destruct (MaintenanceRequest.durationHours r <? 0)%Z eqn:Hneg;
      [ discriminate Hvalid | by apply Z.ltb_ge ].
Qed.

Lemma checked_store_insert (st st' : Store) (id : ObjectId) r :
  checked_store st ->
  MaintenanceRequest.validate r = [] ->
  requests st' = <[id := r]> (requests st) ->
  checked_store st'.
Proof.
  unfold checked_store. intros Hchecked Hr ->.
  apply map_Forall_insert_2; [ by apply validate_checked | done ].
Qed.

Lemma checked_set_assignedTechnician (t : ObjectId) (r : MaintenanceRequest.t) :
  checked r -> checked (set_assignedTechnician t r).
Proof. by destruct r. Qed.

Lemma createRequest_writes_valid env st user body :
  requests (createRequest user body env st).1 = requests st
  \/ exists r, MaintenanceRequest.validate r = []
       /\ requests (createRequest user body env st).1
          = <[newObjectId env := r]> (requests st).
Proof.
  unfold createRequest, Equipment_findById, MaintenanceRequest_create, populate,
    validated.
  run.
  destruct (fails env EquipmentFindById); simpl; [ by left | ].
  destruct (Fields.equipment body) as [equipmentId | ]; simpl; [ | by left ].
  destruct (equipments st !! equipmentId) as [equipment | ]; simpl; [ | by left ].
  destruct (Equipment.isActive equipment); simpl; [ | by left ].
  destruct (MaintenanceRequest.validate _) eqn:Hvalid; simpl; [ | by left ].
  destruct (fails env RequestCreate); simpl; [ by left | ].
  destruct (requests st !! newObjectId env); simpl; [ by left | ].
  destruct (fails env RequestPopulate); simpl; right; eauto.
Qed.

Lemma updateRequest_writes_valid env st user (id : ObjectId) body :
  wf_store st ->
  requests (updateRequest user id body env st).1 = requests st
  \/ exists r, MaintenanceRequest.validate r = []
       /\ requests (updateRequest user id body env st).1 = <[id := r]> (requests st).
Proof.
  intros Hwf.
  unfold updateRequest, MaintenanceRequest_findById, save, populate, validated.
  run.
  destruct (fails env RequestFindById); simpl; [ by left | ].
  destruct (requests st !! id) as [r | ] eqn:Hr; [ | by left ].
  pose proof (Hwf _ _ Hr) as Hid. simpl in Hid. subst id.
  destruct (canUpdate user r); simpl; [ | by left ].
  destruct (MaintenanceRequest.validate (assign r body)) eqn:Hvalid; simpl;
    [ | by left ].
  case_bool_decide; simpl.
  - destruct (fails env RequestSave); simpl; [ by left | ].
    destruct (fails env RequestPopulate); by left.
  - destruct (fails env RequestSave); simpl; [ by left | ].
    destruct (fails env RequestPopulate); right; eauto.
Qed.

Lemma updateRequestStage_writes_valid env st user (id : ObjectId) stage :
  wf_store st ->
  requests (updateRequestStage user id stage env st).1 = requests st
  \/ exists r, MaintenanceRequest.validate r = []
       /\ requests (updateRequestStage user id stage env st).1
          = <[id := r]> (requests st).
Proof.
  intros Hwf.
  unfold updateRequestStage, MaintenanceRequest_findById, Equipment_findByIdAndUpdate,
    save, populate, validated.
  run.
  destruct stage as [ [ | a s ] | ]; try by left.
  destruct (fails env RequestFindById); simpl; [ by left | ].
  destruct (requests st !! id) as [r | ] eqn:Hr; [ | by left ].
  pose proof (Hwf _ _ Hr) as Hid. simpl in Hid. subst id.
  destruct (canUpdate user r); simpl; [ | by left ].
  set (stage := String a s).
  destruct (bool_decide (stage = "Scrap"));
    [ destruct (fails env EquipmentFindByIdAndUpdate); simpl; [ by left | ] | simpl ].
  all: destruct (MaintenanceRequest.validate (set_stage r stage)) eqn:Hvalid; simpl;
    [ | by left ].
  all: case_bool_decide; simpl;
    [ destruct (fails env RequestSave); simpl; [ by left | ];
      destruct (fails env RequestPopulate); by left | ].
  all: destruct (fails env RequestSave); simpl; [ by left | ].
  all: destruct (fails env RequestPopulate); right; eauto.
Qed.

Lemma deleteRequest_requests failure env st (id : ObjectId) :
  requests (deleteRequest failure id env st).1 = requests st
  \/ requests (deleteRequest failure id env st).1 = delete id (requests st).
Proof.
  unfold deleteRequest, MaintenanceRequest_findByIdAndDelete, call_or. run.
  destruct failure; simpl; [ by left | ].
  destruct (requests st !! id); simpl; by right.
Qed.

(** X17.  The handlers that write requests keep what the schema requires
    of every request: from a store in which each request has a subject that
    is not empty, a request type that is Corrective or Preventive and a
    duration that is not negative, creating, updating, changing the stage,
    assigning a technician and deleting all lead to such a store again.
    (The stage and the priority are not part of this: the schema does not
    require them.) *)
Theorem handlers_keep_requests_checked env st user (id : ObjectId)
    (Hwf : wf_store st) (Hchecked : checked_store st) :
  forall st',
    (exists body, st' = (createRequest user body env st).1)
    \/ (exists body, st' = (updateRequest user id body env st).1)
    \/ (exists stage, st' = (updateRequestStage user id stage env st).1)
    \/ (exists technicianId, st' = (assignTechnician id technicianId env st).1)
    \/ (exists failure, st' = (deleteRequest failure id env st).1) ->
    forall i r, requests st' !! i = Some r ->
      (exists s, MaintenanceRequest.subject r = Some s /\ truthy s = true)
      /\ (exists t, MaintenanceRequest.requestType r = Some t
                    /\ (t = "Corrective" \/ t = "Preventive"))
      /\ (0 <= MaintenanceRequest.durationHours r)%Z.
Proof.
  intros st' Hst'.
  assert (Hst : checked_store st').
  2: { intros i r Hr. destruct (Hst _ _ Hr) as (Hsubject & (t & Ht & Hin) & Hhours).
       split; [ exact Hsubject | ]. split; [ | exact Hhours ].
       exists t. split; [ exact Ht | ].
       unfold MaintenanceRequest.requestType_values in Hin.
       rewrite !elem_of_cons, elem_of_nil in Hin. tauto. }
  destruct Hst' as [[body ->] | [[body ->] | [[stage ->] | [[t ->] | [f ->]]]]].
  - destruct (createRequest_writes_valid env st user body)
      as [Heq | (r & Hr & Heq)].
    + unfold checked_store. by rewrite Heq.
    + by eapply checked_store_insert.
  - destruct (updateRequest_writes_valid env st user id body Hwf)
      as [Heq | (r & Hr & Heq)].
    + unfold checked_store. by rewrite Heq.
    + by eapply checked_store_insert.
  - destruct (updateRequestStage_writes_valid env st user id stage Hwf)
      as [Heq | (r & Hr & Heq)].
    + unfold checked_store. by rewrite Heq.
    + by eapply checked_store_insert.
  - destruct (assignTechnician_cases env st id t _ _ (surjective_pairing _))
      as [Heq | (t' & Heq)].
    + unfold checked_store. by rewrite Heq.
    + unfold checked_store. rewrite Heq. intros i r.
      rewrite lookup_alter_Some. intros [(<- & r0 & Hr0 & ->) | (_ & Hr)].
      * apply checked_set_assignedTechnician. exact (Hchecked _ _ Hr0).
      * exact (Hchecked _ _ Hr).
  - destruct (deleteRequest_requests f env st id) as [Heq | Heq];
      unfold checked_store; rewrite Heq; [ done | by apply map_Forall_delete ].
Qed.

Lemma handlers_keep_requests_checked_witness :
  (exists s, MaintenanceRequest.subject (assign Sample.ticket Sample.resync) = Some s
             /\ truthy s = true)
  /\ (exists t, MaintenanceRequest.requestType (assign Sample.ticket Sample.resync)
                = Some t
                /\ (t = "Corrective" \/ t = "Preventive"))
  /\ (0 <= MaintenanceRequest.durationHours (assign Sample.ticket Sample.resync))%Z.
Proof.
  apply (handlers_keep_requests_checked Sample.env Sample.store Sample.admin 1000%N)
    with (st' := (updateRequest Sample.admin 1000%N Sample.resync
                    Sample.env Sample.store).1) (i := 1000%N).
  - intros i r Hr. simpl in Hr. apply lookup_singleton_Some in Hr as [<- <-].
    reflexivity.
  - intros i r Hr. simpl in Hr. apply lookup_singleton_Some in Hr as [<- <-].
    split; [ by exists "Leaking seal" | ].
    split; [ exists "Corrective"; split; [ done | by_evaluation ] | done ].
  - right. left. by exists Sample.resync.
  - vm_compute. reflexivity.
Defined.

(** ** Fetching one request *)

(** X18.  [getRequestById] restricts only the role User: a caller of any other
    role receives every stored request.  A Technician thus receives, by its
    id, a request that is neither assigned to them nor to their team, and that
    no answer of [getAllRequests] to them contains. *)
Theorem by_id_shows_what_the_list_hides env st user (id : ObjectId) r
    (Hrole : User.role user <> "User")
    (Hfind : fails env RequestFindById = false)
    (Hr : requests st !! id = Some r) :
  getRequestById user id env st
  = (st, mkResponse 200 true None None (DataRequest r))
  /\ (User.role user = "Technician" ->
      MaintenanceRequest.assignedTechnician r <> Some (User._id user) ->
      MaintenanceRequest.maintenanceTeam r <> User.team user ->
      forall query l,
        data (getAllRequests user query env st).2 = DataRequests l -> r ∉ l).
Proof.
  split.
  - unfold getRequestById, MaintenanceRequest_findById_populate. run.
    rewrite Hfind, Hr. simpl. by rewrite (bool_decide_false _ Hrole).
  - intros Htechnician Hother Hteam query l.
    unfold getAllRequests, MaintenanceRequest_find. run.
    destruct (fails env RequestFind); simpl; [ discriminate | ].
    intros [= <-]. rewrite MaintenanceRequest_find_spec, matches_all_app.
    unfold role_filter. rewrite Htechnician. simpl.
    rewrite (bool_decide_false _ Hother), (bool_decide_false _ Hteam). simpl.
    by intros [_ ?].
Qed.

Lemma by_id_shows_what_the_list_hides_witness :
  getRequestById Agenda.outsider 1000%N Sample.env Sample.store
  = (Sample.store, mkResponse 200 true None None (DataRequest Sample.ticket))
  /\ forall query l,
       data (getAllRequests Agenda.outsider query Sample.env Sample.store).2
       = DataRequests l -> Sample.ticket ∉ l.
Proof.
  destruct (by_id_shows_what_the_list_hides Sample.env Sample.store Agenda.outsider
              1000%N Sample.ticket) as [Hget Hlist];
    [ by_evaluation | reflexivity | vm_compute; reflexivity | ].
  split; [ exact Hget | ].
  apply Hlist; [ reflexivity | by_evaluation | by_evaluation ].
Defined.

(** X19.  When the account that created a request is gone, a caller of role
    User who asks for it by id gets 500, not 403: the handler reads [_id] of
    the populated creator, which is null. *)
Theorem creator_gone_is_an_error env st user (id : ObjectId) r
    (Hrole : User.role user = "User")
    (Hfind : fails env RequestFindById = false)
    (Hr : requests st !! id = Some r)
    (Hgone : users st !! MaintenanceRequest.createdBy r = None) :
  exists e,
    getRequestById user id env st
    = (st, mkResponse 500 false (Some "Error fetching request.")
             (Some (TypeError e)) NoData).
Proof.
  unfold getRequestById, MaintenanceRequest_findById_populate. run.
  rewrite Hfind, Hr. simpl. rewrite Hgone, Hrole. simpl. eauto.
Qed.

Lemma creator_gone_is_an_error_witness :
  exists e,
    getRequestById Sample.visitor 1000%N Sample.env
      (mkStore (equipments Sample.store) (requests Sample.store) ∅ [])
    = (mkStore (equipments Sample.store) (requests Sample.store) ∅ [],
       mkResponse 500 false (Some "Error fetching request.")
         (Some (TypeError e)) NoData).
Proof.
  apply (creator_gone_is_an_error Sample.env
           (mkStore (equipments Sample.store) (requests Sample.store) ∅ [])
           Sample.visitor 1000%N Sample.ticket);
    [ reflexivity | reflexivity | vm_compute; reflexivity | vm_compute; reflexivity ].
Defined.

(** ** A stage change is two writes *)

(** X20.  The deactivation of the equipment is not undone when the write of
    the request fails after it: a change to Scrap whose [save] throws answers
    500 and leaves the request as it was, while the equipment is inactive and
    its update is in the journal. *)
Theorem scrap_survives_failed_save env st user (id : ObjectId) r
    (Hfind : fails env RequestFindById = false)
    (Hupdate : fails env EquipmentFindByIdAndUpdate = false)
    (Hsave : fails env RequestSave = true)
    (Hr : requests st !! id = Some r)
    (Hcan : canUpdate user r = true)
    (Hvalid : MaintenanceRequest.validate r = []) :
  let st' := (updateRequestStage user id (Some "Scrap") env st).1 in
  (updateRequestStage user id (Some "Scrap") env st).2
  = mkResponse 500 false (Some "Error updating request stage.")
               (Some (StoreError RequestSave)) NoData
  /\ requests st' = requests st
  /\ equipments st'
     = alter Equipment.set_inactive (MaintenanceRequest.equipment r) (equipments st)
  /\ journal st' = journal st ++ [UpdateEquipment (MaintenanceRequest.equipment r)]
  /\ forall e, equipments st !! MaintenanceRequest.equipment r = Some e ->
       Equipment.isActive <$> equipments st' !! MaintenanceRequest.equipment r
       = Some false.
Proof.
  assert (Hscrap : MaintenanceRequest.validate (set_stage r "Scrap") = []).
  { apply validate_set_stage; [ done | by_evaluation ]. }
  unfold updateRequestStage, MaintenanceRequest_findById, Equipment_findByIdAndUpdate,
    save, populate, validated.
  run. rewrite Hfind, Hr, Hcan. simpl. rewrite Hupdate. simpl.
  rewrite Hscrap. simpl.
  case_bool_decide; simpl; rewrite Hsave; simpl.
  all: repeat split; try done.
  all: intros e He; by rewrite lookup_alter_eq, He.
Qed.

Lemma scrap_survives_failed_save_witness :
  let st' := (updateRequestStage Sample.admin 1000%N (Some "Scrap")
                Agenda.save_fails Sample.store).1 in
  (updateRequestStage Sample.admin 1000%N (Some "Scrap")
     Agenda.save_fails Sample.store).2
  = mkResponse 500 false (Some "Error updating request stage.")
               (Some (StoreError RequestSave)) NoData
  /\ requests st' = requests Sample.store
  /\ equipments st'
     = alter Equipment.set_inactive (MaintenanceRequest.equipment Sample.ticket)
             (equipments Sample.store)
  /\ journal st'
     = journal Sample.store
       ++ [UpdateEquipment (MaintenanceRequest.equipment Sample.ticket)]
  /\ forall e,
       equipments Sample.store !! MaintenanceRequest.equipment Sample.ticket = Some e ->
       Equipment.isActive
         <$> equipments st' !! MaintenanceRequest.equipment Sample.ticket
       = Some false.
Proof.
  apply (scrap_survives_failed_save Agenda.save_fails Sample.store Sample.admin
           1000%N Sample.ticket);
    [ reflexivity | reflexivity | reflexivity | vm_compute; reflexivity
    | reflexivity | reflexivity ].
Defined.

(** ** The resolution dialog *)

(** X21.  [updateResolution] changes the duration and the resolution notes of
    a request and nothing else of it, for a caller who may update it; the
    notes are stored trimmed.  A negative duration is refused: the store is
    left as it was and the answer is not 200.  (Durations are whole hours in
    this model.) *)
Theorem updateResolution_touches_two_fields env st user (id : ObjectId)
    (hours : option Z) (notes : option string)
    (Hwf : wf_store st) :
  let st' := (updateResolution user id hours notes env st).1 in
  let resp := (updateResolution user id hours notes env st).2 in
  (status resp = 200 ->
   exists r,
     requests st !! id = Some r
     /\ canUpdate user r = true
     /\ (0 <= default (MaintenanceRequest.durationHours r) hours)%Z
     /\ data resp
        = DataRequest
            (MaintenanceRequest.mk (MaintenanceRequest._id r)
               (MaintenanceRequest.subject r) (MaintenanceRequest.equipment r)
               (MaintenanceRequest.equipmentCategory r)
               (MaintenanceRequest.maintenanceTeam r)
               (MaintenanceRequest.requestType r) (MaintenanceRequest.stage r)
               (MaintenanceRequest.priority r) (MaintenanceRequest.scheduledDate r)
               (MaintenanceRequest.assignedTechnician r)
               (default (MaintenanceRequest.durationHours r) hours)
               (MaintenanceRequest.description r)
               (match notes with
                | Some s => trim s
                | None => MaintenanceRequest.resolutionNotes r
                end)
               (MaintenanceRequest.createdBy r) (MaintenanceRequest.createdAt r))
     /\ (forall d, data resp = DataRequest d -> requests st' !! id = Some d)
     /\ (forall i, i <> id -> requests st' !! i = requests st !! i))
  /\ (forall h, hours = Some h -> (h < 0)%Z -> st' = st /\ status resp <> 200)
  /\ equipments st' = equipments st.
Proof.
  unfold updateResolution, updateRequest, MaintenanceRequest_findById, save,
    populate, validated.
  run.
  destruct (fails env RequestFindById); simpl.
  { repeat split; try done. all: by intros. }
  destruct (requests st !! id) as [r | ] eqn:Hr; [ | repeat split; by intros ].
  pose proof (Hwf _ _ Hr) as Hid. simpl in Hid. subst id.
  destruct (canUpdate user r) eqn:Hcan; simpl; [ | repeat split; by intros ].
  match goal with
  | |- context [MaintenanceRequest.validate ?d] => set (r' := d)
  end.
  assert (Hneg : forall h, hours = Some h -> (h < 0)%Z ->
            MaintenanceRequest.validate r' <> []).
  { intros h -> Hh Hv. unfold MaintenanceRequest.validate in Hv.
    repeat (apply app_eq_nil in Hv as [_ Hv]).
    unfold MaintenanceRequest.validate_durationHours in Hv. simpl in Hv.
    apply Z.ltb_lt in Hh. by rewrite Hh in Hv. }
  assert (Hpos : MaintenanceRequest.validate r' = [] ->
            (0 <= default (MaintenanceRequest.durationHours r) hours)%Z).
  { intros Hv. unfold MaintenanceRequest.validate in Hv.
    repeat (apply app_eq_nil in Hv as [_ Hv]).
    unfold MaintenanceRequest.validate_durationHours in Hv. simpl in Hv.
    destruct (default (MaintenanceRequest.durationHours r) hours <? 0)%Z eqn:Hlt;
      [ discriminate Hv | by apply Z.ltb_ge ]. }
  destruct (MaintenanceRequest.validate r') eqn:Hvalid; simpl.
  2: { repeat split; try done. all: by intros. }
  assert (Hdone : forall m : gmap ObjectId MaintenanceRequest.t,
    m !! MaintenanceRequest._id r = Some r' ->
    (forall i, i <> MaintenanceRequest._id r -> m !! i = requests st !! i) ->
    exists r0, Some r = Some r0 /\ canUpdate user r0 = true
      /\ (0 <= default (MaintenanceRequest.durationHours r0) hours)%Z
      /\ DataRequest r'
         = DataRequest
            (MaintenanceRequest.mk (MaintenanceRequest._id r0)
               (MaintenanceRequest.subject r0) (MaintenanceRequest.equipment r0)
               (MaintenanceRequest.equipmentCategory r0)
               (MaintenanceRequest.maintenanceTeam r0)
               (MaintenanceRequest.requestType r0) (MaintenanceRequest.stage r0)
               (MaintenanceRequest.priority r0) (MaintenanceRequest.scheduledDate r0)
               (MaintenanceRequest.assignedTechnician r0)
               (default (MaintenanceRequest.durationHours r0) hours)
               (MaintenanceRequest.description r0)
               (match notes with
                | Some s => trim s
                | None => MaintenanceRequest.resolutionNotes r0
                end)
               (MaintenanceRequest.createdBy r0) (MaintenanceRequest.createdAt r0))
      /\ (forall d, DataRequest r' = DataRequest d ->
            m !! MaintenanceRequest._id r = Some d)
      /\ (forall i, i <> MaintenanceRequest._id r ->
            m !! i = requests st !! i)).
  { intros m Hm Hframe. exists r.
    split; [ done | ]. split; [ exact Hcan | ]. split; [ by apply Hpos | ].
    split; [ reflexivity | ]. split; [ by intros d [= <-] | done ]. }
  case_bool_decide as Hsame; simpl.
  - destruct (fails env RequestSave); simpl.
    { split; [ discriminate | ].
      split; [ intros h Hh Hlt; exfalso; by apply (Hneg h Hh Hlt) | reflexivity ]. }
    destruct (fails env RequestPopulate); simpl.
    { split; [ discriminate | ].
      split; [ intros h Hh Hlt; exfalso; by apply (Hneg h Hh Hlt) | reflexivity ]. }
    split; [ intros _; by apply Hdone | ].
    split; [ | reflexivity ]. intros h Hh Hlt. exfalso; by apply (Hneg h Hh Hlt).
  - destruct (fails env RequestSave); simpl.
    { split; [ discriminate | ].
      split; [ intros h Hh Hlt; exfalso; by apply (Hneg h Hh Hlt) | reflexivity ]. }
    destruct (fails env RequestPopulate); simpl.
    { split; [ discriminate | ].
      split; [ intros h Hh Hlt; exfalso; by apply (Hneg h Hh Hlt) | reflexivity ]. }
    split.
    { intros _. apply Hdone; simpl.
      - apply lookup_insert_eq.
      - intros i Hi. by apply lookup_insert_ne. }
    split; [ | reflexivity ]. intros h Hh Hlt. exfalso; by apply (Hneg h Hh Hlt).
Qed.

Lemma updateResolution_touches_two_fields_witness :
  (updateResolution Sample.technician 1000%N (Some (-1)%Z) (Some " Seal replaced ")
     Sample.env Sample.store).1 = Sample.store
  /\ status (updateResolution Sample.technician 1000%N (Some (-1)%Z)
               (Some " Seal replaced ") Sample.env Sample.store).2 <> 200.
Proof.
  refine (proj1 (proj2 (updateResolution_touches_two_fields Sample.env Sample.store
             Sample.technician 1000%N (Some (-1)%Z) (Some " Seal replaced ") _))
            (-1)%Z eq_refl _).
  - intros i r Hr. simpl in Hr. apply lookup_singleton_Some in Hr as [<- <-].
    reflexivity.
  - reflexivity.
Defined.

(** ** From the form to the store *)

Lemma validateForm_accepts (formData : FormData) :
  validateForm formData = [] ->
  truthy (trim (form_subject formData)) = true
  /\ is_Some (form_equipment formData)
  /\ truthy (form_requestType formData) = true
  /\ truthy (form_priority formData) = true
  /\ (form_requestType formData = "Preventive" ->
      is_Some (form_scheduledDate formData))
  /\ truthy (trim (form_description formData)) = true.
Proof.
  unfold validateForm. intros H.
  apply app_eq_nil in H as [Hsubject H].
  apply app_eq_nil in H as [Hequipment H].
  apply app_eq_nil in H as [Htype H].
  apply app_eq_nil in H as [Hpriority H].
  apply app_eq_nil in H as [Hdate Hdescription].
  split; [ by destruct (truthy (trim (form_subject formData))) | ].
  split; [ by destruct (form_equipment formData) | ].
  split; [ by destruct (truthy (form_requestType formData)) | ].
  split; [ by destruct (truthy (form_priority formData)) | ].
  split; [ | by destruct (truthy (trim (form_description formData))) ].
  intros Hpreventive. rewrite bool_decide_true in Hdate by done.
  by destruct (form_scheduledDate formData).
Qed.

Lemma createRequest_run env st user body (equipmentId : ObjectId) equipment :
  (forall c, fails env c = false) ->
  Fields.equipment body = Some equipmentId ->
  equipments st !! equipmentId = Some equipment ->
  Equipment.isActive equipment = true ->
  requests st !! newObjectId env = None ->
  let r := new_document (newObjectId env) (now env) equipmentId (User._id user)
             (create_fields body equipmentId equipment user) in
  MaintenanceRequest.validate r = [] ->
  createRequest user body env st
  = (log (InsertRequest (newObjectId env)) (put_request r st),
     mkResponse 201 true (Some "Maintenance request created successfully.")
                None (DataRequest r)).
Proof.
  intros Hnofail Hid He Hactive Hfresh r Hvalid.
  unfold createRequest, Equipment_findById, MaintenanceRequest_create, populate,
    validated.
  run. rewrite (Hnofail EquipmentFindById). simpl.
  rewrite Hid. simpl. rewrite He, Hactive. simpl.
  fold r. rewrite Hvalid. simpl.
  rewrite (Hnofail RequestCreate). simpl. rewrite Hfresh. simpl.
  by rewrite (Hnofail RequestPopulate).
Qed.

(** X22.  A form the page accepts, whose selects hold values of the schema,
    passes the validators of the server: on an active equipment, with a fresh
    id and no failing call, [handleSubmit] ends in 201 and the stored request
    has the trimmed subject and description of the form, its type, priority
    and date, and the stage New.  A preventive request that comes from the
    form therefore has a scheduled date. *)
Theorem accepted_form_is_created env st user (formData : FormData) equipment
    (Haccepted : validateForm formData = [])
    (Htype : form_requestType formData ∈ MaintenanceRequest.requestType_values)
    (Hpriority : form_priority formData ∈ MaintenanceRequest.priority_values)
    (Hequipment : form_equipment formData ≫= (fun id => equipments st !! id)
                  = Some equipment)
    (Hactive : Equipment.isActive equipment = true)
    (Hfresh : requests st !! newObjectId env = None)
    (Hnofail : forall c, fails env c = false) :
  exists st' r,
    handleSubmit user formData env st
    = (st', inr (mkResponse 201 true (Some "Maintenance request created successfully.")
                   None (DataRequest r)))
    /\ requests st' = <[newObjectId env := r]> (requests st)
    /\ MaintenanceRequest.validate r = []
    /\ MaintenanceRequest.subject r = Some (trim (form_subject formData))
    /\ MaintenanceRequest.description r = trim (form_description formData)
    /\ MaintenanceRequest.requestType r = Some (form_requestType formData)
    /\ MaintenanceRequest.priority r = form_priority formData
    /\ MaintenanceRequest.scheduledDate r = form_scheduledDate formData
    /\ MaintenanceRequest.stage r = "New"
    /\ MaintenanceRequest.createdBy r = User._id user
    /\ (MaintenanceRequest.requestType r = Some "Preventive" ->
        is_Some (MaintenanceRequest.scheduledDate r)).
Proof.
  destruct (validateForm_accepts formData Haccepted)
    as (Hsubject & _ & Htruthy & _ & Hdate & _).
  destruct (form_equipment formData) as [equipmentId | ] eqn:Hid;
    [ | discriminate Hequipment ].
  simpl in Hequipment.
  set (r := new_document (newObjectId env) (now env) equipmentId (User._id user)
              (create_fields (submitData formData) equipmentId equipment user)).
  assert (Hvalid : MaintenanceRequest.validate r = []).
  { unfold MaintenanceRequest.validate, r, new_document, create_fields, submitData.
    simpl. rewrite trim_idemp.
    unfold MaintenanceRequest.required_string. rewrite Hsubject. simpl.
    unfold MaintenanceRequest.validate_requestType,
      MaintenanceRequest.required_string.
    rewrite Htruthy.
    unfold MaintenanceRequest.enum, includes.
    by rewrite !bool_decide_true. }
  exists (log (InsertRequest (newObjectId env)) (put_request r st)), r.
  split.
  { unfold handleSubmit. rewrite Haccepted.
    by rewrite (createRequest_run env st user (submitData formData)
                  equipmentId equipment). }
  split; [ reflexivity | ].
  split; [ exact Hvalid | ].
  unfold r, new_document, create_fields, submitData. simpl.
  rewrite !trim_idemp.
  repeat (split; [ try reflexivity; by destruct (form_scheduledDate formData) | ]).
  intros [= Hpreventive]. apply Hdate in Hpreventive.
  by destruct (form_scheduledDate formData).
Qed.

Lemma accepted_form_is_created_witness :
  exists st' r,
    handleSubmit Sample.customer Agenda.form Sample.env Sample.store
    = (st', inr (mkResponse 201 true (Some "Maintenance request created successfully.")
                   None (DataRequest r)))
    /\ requests st' = <[newObjectId Sample.env := r]> (requests Sample.store)
    /\ MaintenanceRequest.validate r = []
    /\ MaintenanceRequest.subject r = Some (trim (form_subject Agenda.form))
    /\ MaintenanceRequest.description r = trim (form_description Agenda.form)
    /\ MaintenanceRequest.requestType r = Some (form_requestType Agenda.form)
    /\ MaintenanceRequest.priority r = form_priority Agenda.form
    /\ MaintenanceRequest.scheduledDate r = form_scheduledDate Agenda.form
    /\ MaintenanceRequest.stage r = "New"
    /\ MaintenanceRequest.createdBy r = User._id Sample.customer
    /\ (MaintenanceRequest.requestType r = Some "Preventive" ->
        is_Some (MaintenanceRequest.scheduledDate r)).
Proof.
  apply (accepted_form_is_created Sample.env Sample.store Sample.customer
           Agenda.form Sample.pump);
    [ reflexivity | by_evaluation | by_evaluation | reflexivity | reflexivity
    | reflexivity | reflexivity ].
Defined.

(** ** Who can change the store through a guarded route *)

Lemma roleAuth_refuses (roles : list string) user next env st :
  (forall u, user = Some u -> hasPermission (User.role u) roles = false) ->
  (roleAuth roles user next env st).1 = st
  /\ status (roleAuth roles user next env st).2 ∈ [401; 403].
Proof.
  unfold roleAuth, hasPermission. intros Hrefused.
  destruct user as [u | ]; simpl.
  - rewrite (Hrefused u eq_refl). simpl. split; [ done | by_evaluation ].
  - split; [ done | by_evaluation ].
Qed.

Lemma roleAuth_changes (roles : list string) user next env st :
  (roleAuth roles user next env st).1 <> st ->
  exists u, user = Some u /\ hasPermission (User.role u) roles = true
    /\ roleAuth roles user next env st = next u env st.
Proof.
  intros Hchanged.
  destruct user as [u | ]; [ | by destruct Hchanged ].
  destruct (hasPermission (User.role u) roles) eqn:Hpermission.
  - exists u. repeat split; [ done | ].
    unfold roleAuth. unfold hasPermission in Hpermission. by rewrite Hpermission.
  - destruct Hchanged. apply roleAuth_refuses. by intros ? [= <-].
Qed.

(** X23.  A route behind [roleAuth] changes the store only for a caller
    whose role the gate lists: a technician is assigned and a request deleted
    only by an Admin or a Manager, an equipment is deleted only by an
    Admin, and the overdue route changes nothing for anyone.  A caller the
    gate refuses gets 401 or 403.  The interface's [hasPermission], given
    the role list of the gate, tells who passes;
    [permissions.allAuthenticated] lets each of the four roles through. *)
Theorem guarded_routes_write_for_listed_roles (user : option User.t) env st :
  (forall id technicianId,
     (PATCH_assign user id technicianId env st).1 <> st ->
     exists u, user = Some u /\ User.role u ∈ ["Admin"; "Manager"])
  /\ (forall failure id,
        (DELETE_request failure user id env st).1 <> st ->
        exists u, user = Some u /\ User.role u ∈ ["Admin"; "Manager"])
  /\ (forall failure id,
        (DELETE_equipment failure user id env st).1 <> st ->
        exists u, user = Some u /\ isAdmin (User.role u) = true
          /\ equipments (DELETE_equipment failure user id env st).1
             = delete id (equipments st))
  /\ (forall startOfDay, (GET_overdue startOfDay user env st).1 = st)
  /\ (forall roles next,
        (forall u, user = Some u -> hasPermission (User.role u) roles = false) ->
        (roleAuth roles user next env st).1 = st
        /\ status (roleAuth roles user next env st).2 ∈ [401; 403])
  /\ (forall u next,
        user = Some u ->
        User.role u ∈ ["Admin"; "Manager"; "Technician"; "User"] ->
        permissions.allAuthenticated user next env st = next u env st).
Proof.
  split; [ | split; [ | split; [ | split; [ | split ] ] ] ].
  - intros id technicianId Hchanged.
    apply roleAuth_changes in Hchanged as (u & Hu & Hpermission & _).
    exists u. split; [ done | ].
    unfold hasPermission, includes in Hpermission.
    by apply bool_decide_eq_true in Hpermission.
  - intros failure id Hchanged.
    apply roleAuth_changes in Hchanged as (u & Hu & Hpermission & _).
    exists u. split; [ done | ].
    unfold hasPermission, includes in Hpermission.
    by apply bool_decide_eq_true in Hpermission.
  - intros failure id Hchanged.
    pose proof Hchanged as Hrun.
    apply roleAuth_changes in Hrun as (u & Hu & Hpermission & Hrun).
    exists u. split; [ done | ].
    split.
    { unfold hasPermission, includes in Hpermission.
      apply bool_decide_eq_true in Hpermission.
      apply list_elem_of_singleton in Hpermission.
      unfold isAdmin. by apply bool_decide_eq_true. }
    unfold DELETE_equipment, permissions.adminOnly in *. rewrite Hrun in *.
    revert Hchanged.
    unfold deleteEquipment, Equipment_findByIdAndDelete, call_or. run.
    destruct failure; simpl; [ done | ].
    destruct (equipments st !! id) eqn:He; simpl; [ done | ].
    intros Hchanged. destruct Hchanged. destruct st; simpl in *.
    f_equal. by apply delete_id.
  - intros startOfDay.
    unfold GET_overdue, permissions.adminManagerTechnician, roleAuth.
    destruct user as [u | ]; [ | done ].
    destruct (negb _); [ done | ].
    unfold getOverdueRequests, MaintenanceRequest_find_sorted. run.
    by destruct (fails env RequestFind).
  - intros roles next. apply roleAuth_refuses.
  - intros u next -> Hrole.
    unfold permissions.allAuthenticated, roleAuth, includes.
    by rewrite bool_decide_true.
Qed.

Lemma guarded_routes_write_for_listed_roles_witness :
  exists u, Some Agenda.manager = Some u /\ User.role u ∈ ["Admin"; "Manager"].
Proof.
  apply (proj1 (guarded_routes_write_for_listed_roles (Some Agenda.manager)
                  Sample.env Sample.store) 1000%N (Some 100%N)).
  intros Hsame. apply (f_equal journal) in Hsame. vm_compute in Hsame.
  discriminate Hsame.
Defined.

(** ** The board's copy of the requests *)

Lemma set_stage_set_stage (r : MaintenanceRequest.t) (s t : string) :
  set_stage (set_stage r s) t = set_stage r t.
Proof. by destruct r. Qed.

Lemma with_stage_ids (requestId : ObjectId) (stage : string)
    (board : list MaintenanceRequest.t) :
  MaintenanceRequest._id <$> with_stage requestId stage board
  = MaintenanceRequest._id <$> board.
Proof.
  unfold with_stage. rewrite <- list_fmap_compose. apply list_fmap_ext.
  intros i card _. simpl. by case_bool_decide.
Qed.

Lemma with_stage_back (requestId : ObjectId) (oldStage newStage : string)
    (board : list MaintenanceRequest.t) :
  (forall card, card ∈ board -> MaintenanceRequest._id card = requestId ->
     MaintenanceRequest.stage card = oldStage) ->
  with_stage requestId oldStage (with_stage requestId newStage board) = board.
Proof.
  intros Hold. unfold with_stage. rewrite <- list_fmap_compose.
  rewrite <- (list_fmap_id board) at 2. apply list_fmap_ext.
  intros i card Hcard. simpl.
  apply list_elem_of_lookup_2 in Hcard.
  destruct (decide (MaintenanceRequest._id card = requestId)) as [Hid | Hid].
  - rewrite (bool_decide_true (MaintenanceRequest._id card = requestId)) by done.
    rewrite (bool_decide_true (MaintenanceRequest._id (set_stage card newStage)
                               = requestId)) by by destruct card.
    rewrite set_stage_set_stage. apply set_stage_same. by apply Hold.
  - rewrite (bool_decide_false (MaintenanceRequest._id card = requestId)) by done.
    by rewrite (bool_decide_false (MaintenanceRequest._id card = requestId)).
Qed.

(** What a stage change that is answered 200 has stored. *)
Lemma updateRequestStage_ok env st user (id : ObjectId) (s : string) st' resp :
  wf_store st ->
  updateRequestStage user id (Some s) env st = (st', resp) ->
  status resp = 200 ->
  exists r, requests st !! id = Some r
    /\ requests st' !! id = Some (set_stage r s)
    /\ forall i, i <> id -> requests st' !! i = requests st !! i.
Proof.
  intros Hwf.
  unfold updateRequestStage, MaintenanceRequest_findById, Equipment_findByIdAndUpdate,
    save, populate, validated.
  run.
  destruct s as [ | a s ]; [ by intros [= <- <-] | ].
  destruct (fails env RequestFindById); simpl; [ by intros [= <- <-] | ].
  destruct (requests st !! id) as [r | ] eqn:Hr; [ | by intros [= <- <-] ].
  pose proof (Hwf _ _ Hr) as Hid. simpl in Hid. subst id.
  destruct (canUpdate user r); simpl; [ | by intros [= <- <-] ].
  set (stage := String a s).
  destruct (bool_decide (stage = "Scrap"));
    [ destruct (fails env EquipmentFindByIdAndUpdate); simpl;
      [ by intros [= <- <-] | ] | simpl ].
  all: destruct (MaintenanceRequest.validate (set_stage r stage)); simpl;
    [ | by intros [= <- <-] ].
  all: case_bool_decide as Hsame; simpl.
  all: destruct (fails env RequestSave); simpl; [ by intros [= <- <-] | ].
  all: destruct (fails env RequestPopulate); simpl; [ by intros [= <- <-] | ].
  all: intros [= <- <-] _; exists r; simpl.
  all: split; [ done | ].
  all: try (split; [ exact Hsame | done ]).
  all: split; [ apply lookup_insert_eq | intros i Hi; by apply lookup_insert_ne ].
Qed.

Lemma updateRequestStage_status env st user (id : ObjectId) stage :
  status (updateRequestStage user id stage env st).2 ∈ [200; 400; 403; 404; 500].
Proof.
  unfold updateRequestStage, MaintenanceRequest_findById, Equipment_findByIdAndUpdate,
    save, populate, validated.
  run.
  destruct stage as [ [ | a s ] | ]; try by_evaluation.
  destruct (fails env RequestFindById); simpl; [ by_evaluation | ].
  destruct (requests st !! id) as [r | ]; [ | by_evaluation ].
  destruct (canUpdate user r); simpl; [ | by_evaluation ].
  set (stage := String a s).
  destruct (bool_decide (stage = "Scrap"));
    [ destruct (fails env EquipmentFindByIdAndUpdate); simpl; [ by_evaluation | ]
    | simpl ].
  all: destruct (MaintenanceRequest.validate (set_stage r stage)); simpl;
    [ | by_evaluation ].
  all: case_bool_decide; simpl.
  all: destruct (fails env RequestSave); simpl; [ by_evaluation | ].
  all: destruct (fails env RequestPopulate); simpl; by_evaluation.
Qed.

(** X24.  The board's copy of the requests after its own
    [updateRequestStage]: the cards keep their ids and their order; when
    the call is rejected the rollback gives back the board as it was,
    provided [oldStage] is the stage the card showed; and when the call is
    resolved, a board that showed the stored requests still shows the
    stored requests. *)
Theorem board_rolls_back_or_stays_in_step env st user (requestId : ObjectId)
    (oldStage newStage : string) (board : list MaintenanceRequest.t) :
  let st' := (Kanban_updateRequestStage user requestId oldStage newStage board env st).1.1 in
  let response :=
    (Kanban_updateRequestStage user requestId oldStage newStage board env st).1.2 in
  let board' := (Kanban_updateRequestStage user requestId oldStage newStage board env st).2 in
  (st', response) = updateRequestStage user requestId (Some newStage) env st
  /\ MaintenanceRequest._id <$> board' = MaintenanceRequest._id <$> board
  /\ (resolved response = false ->
      (forall card, card ∈ board -> MaintenanceRequest._id card = requestId ->
         MaintenanceRequest.stage card = oldStage) ->
      board' = board)
  /\ (resolved response = true ->
      wf_store st ->
      (forall card, card ∈ board ->
         requests st !! MaintenanceRequest._id card = Some card) ->
      forall card, card ∈ board' ->
        requests st' !! MaintenanceRequest._id card = Some card).
Proof.
  unfold Kanban_updateRequestStage.
  destruct (updateRequestStage user requestId (Some newStage) env st)
    as [st' response] eqn:Hrun.
  destruct (resolved response) eqn:Hresolved; simpl; rewrite Hresolved.
  - split; [ done | ]. split; [ apply with_stage_ids | ].
    split; [ done | ].
    intros _ Hwf Hsync card Hcard.
    assert (Hstatus : status response = 200).
    { pose proof (updateRequestStage_status env st user requestId (Some newStage))
        as Hcases.
      rewrite Hrun in Hcases. simpl in Hcases. unfold resolved in Hresolved.
      rewrite !elem_of_cons, elem_of_nil in Hcases.
      destruct Hcases as [H | [H | [H | [H | [H | []]]]]];
        rewrite H in Hresolved; first [ exact H | discriminate Hresolved ]. }
    destruct (updateRequestStage_ok _ _ _ _ _ _ _ Hwf Hrun Hstatus)
      as (r & Hr & Hnew & Hframe).
    unfold with_stage in Hcard. apply list_elem_of_fmap in Hcard as (c & -> & Hc).
    specialize (Hsync c Hc).
    case_bool_decide as Hid.
    + subst requestId. rewrite Hsync in Hr. injection Hr as <-.
      by destruct c.
    + rewrite Hframe by done. exact Hsync.
  - split; [ done | ].
    split; [ by rewrite !with_stage_ids | ].
    split; [ | done ]. intros _. apply with_stage_back.
Qed.

Lemma board_rolls_back_or_stays_in_step_witness :
  (Kanban_updateRequestStage Sample.admin 1000%N "New" "Done" [Sample.ticket]
     Sample.env Sample.store).2 = [Sample.ticket].
Proof.
  refine (proj1 (proj2 (proj2 (board_rolls_back_or_stays_in_step Sample.env
            Sample.store Sample.admin 1000%N "New" "Done" [Sample.ticket]))) _ _).
  - reflexivity.
  - intros card Hcard _. apply list_elem_of_singleton in Hcard as ->. reflexivity.
Defined.

(** X25.  When attaching the referenced documents fails after the request
    has been saved, the server answers 500 although the new stage is
    stored, and the board, whose call is rejected, rolls its card back: it
    shows the old stage while the store holds the new one. *)
Theorem failed_populate_leaves_board_behind env st user (id : ObjectId) r
    (newStage : string) (board : list MaintenanceRequest.t)
    (Hpopulate : fails env RequestPopulate = true)
    (Hothers : forall c, c <> RequestPopulate -> fails env c = false)
    (Hr : requests st !! id = Some r)
    (Hid : MaintenanceRequest._id r = id)
    (Hcan : canUpdate user r = true)
    (Hvalid : MaintenanceRequest.validate r = [])
    (Hstage : newStage ∈ MaintenanceRequest.stage_values)
    (Hmove : MaintenanceRequest.stage r <> newStage)
    (Hboard : forall card, card ∈ board -> MaintenanceRequest._id card = id ->
                card = r) :
  let run := Kanban_updateRequestStage user id (MaintenanceRequest.stage r)
               newStage board env st in
  status run.1.2 = 500
  /\ requests run.1.1 !! id = Some (set_stage r newStage)
  /\ set_stage r newStage <> r
  /\ run.2 = board.
Proof.
  assert (Hnew : MaintenanceRequest.validate (set_stage r newStage) = [])
    by by apply validate_set_stage.
  assert (Htruthy : exists a s, newStage = String a s).
  { destruct newStage; [ | eauto ]. exfalso. revert Hstage. by_evaluation. }
  destruct Htruthy as (a & s & Hs).
  assert (Hrun : exists st',
    updateRequestStage user id (Some newStage) env st
    = (st', mkResponse 500 false (Some "Error updating request stage.")
              (Some (StoreError RequestPopulate)) NoData)
    /\ requests st' !! id = Some (set_stage r newStage)).
  { unfold updateRequestStage, MaintenanceRequest_findById,
      Equipment_findByIdAndUpdate, save, populate, validated.
    run. rewrite Hs. rewrite <- Hs.
    rewrite (Hothers RequestFindById) by done. simpl. rewrite Hr, Hcan. simpl.
    assert (Hsaved : forall st1 : Store, requests st1 = requests st ->
      bool_decide (requests st1 !! MaintenanceRequest._id (set_stage r newStage)
                   = Some (set_stage r newStage)) = false).
    { intros st1 ->. apply bool_decide_eq_false.
      replace (MaintenanceRequest._id (set_stage r newStage)) with id
        by by destruct r.
      rewrite Hr. intros [= Hsame]. symmetry in Hsame.
      by apply set_stage_same in Hsame. }
    destruct (bool_decide (newStage = "Scrap")); simpl.
    - rewrite (Hothers EquipmentFindByIdAndUpdate) by done. simpl.
      rewrite Hnew. simpl. rewrite Hsaved by done. simpl.
      rewrite (Hothers RequestSave) by done. simpl. rewrite Hpopulate. simpl.
      eexists. split; [ reflexivity | ]. simpl.
      replace (MaintenanceRequest._id r) with id. apply lookup_insert_eq.
    - rewrite Hnew. simpl. rewrite Hsaved by done. simpl.
      rewrite (Hothers RequestSave) by done. simpl. rewrite Hpopulate. simpl.
      eexists. split; [ reflexivity | ]. simpl.
      replace (MaintenanceRequest._id r) with id. apply lookup_insert_eq. }
  destruct Hrun as (st' & Hrun & Hstored).
  unfold Kanban_updateRequestStage. rewrite Hrun. simpl.
  split; [ done | ]. split; [ exact Hstored | ].
  split; [ by rewrite set_stage_same | ].
  apply with_stage_back. intros card Hcard Hcid. by rewrite (Hboard card Hcard Hcid).
Qed.

Lemma failed_populate_leaves_board_behind_witness :
  let run := Kanban_updateRequestStage Sample.admin 1000%N
               (MaintenanceRequest.stage Sample.ticket) "In Progress"
               [Sample.ticket] Agenda.populate_fails Sample.store in
  status run.1.2 = 500
  /\ requests run.1.1 !! 1000%N = Some (set_stage Sample.ticket "In Progress")
  /\ set_stage Sample.ticket "In Progress" <> Sample.ticket
  /\ run.2 = [Sample.ticket].
Proof.
  apply (failed_populate_leaves_board_behind Agenda.populate_fails Sample.store
           Sample.admin 1000%N Sample.ticket "In Progress" [Sample.ticket]);
    [ reflexivity | by intros [] | vm_compute; reflexivity | reflexivity
    | reflexivity | reflexivity | by_evaluation | by_evaluation | ].
  intros card Hcard _. by apply list_elem_of_singleton in Hcard.
Defined.

(** ** Notifications *)

(** X26.  [addNotification] keeps a notification only for the signed-in
    user, and only when the notification names a role list that holds the
    user's role or names the user as [recipientId]; a notification that
    carries neither is dropped.  So the stage notification of the board,
    which carries [recipientIds], is never kept; of the board's
    notifications only the one about a scrapped equipment can be kept;
    the notification about a created request is dropped when the creator
    is neither an Admin nor a Manager; and the notification about an
    assignment, which is added only when the technician is someone else
    than the signed-in user, is never kept. *)
Theorem notifications_stay_with_their_sender (user : option User.t)
    (notifications : list Notification.Stored) :
  (forall n s,
     s ∈ addNotification user n notifications ->
     s ∈ notifications
     \/ exists u, user = Some u
          /\ s = Notification.mkStored n false (User._id u)
          /\ s ∈ getUserNotifications user (addNotification user n notifications)
          /\ (match Notification.recipientRoles n with
              | Some roles => User.role u ∈ roles
              | None => False
              end
              \/ Notification.recipientId n = Some (User._id u)))
  /\ (forall n,
        Notification.recipientRoles n = None ->
        Notification.recipientId n = None ->
        addNotification user n notifications = notifications)
  /\ (forall newStage recipientIds,
        Kanban_notify user newStage recipientIds notifications
        = if bool_decide (newStage = "Scrap")
          then addNotification user
                 (Notification.mk "equipment_scrapped" (Some ["Admin"; "Manager"])
                    None None)
                 notifications
          else notifications)
  /\ (forall u,
        user = Some u ->
        User.role u ∉ ["Admin"; "Manager"] ->
        form_notify user notifications = notifications)
  /\ (forall u assignedTech,
        assigned_notify u assignedTech notifications = notifications).
Proof.
  assert (Hdropped : forall l n,
    Notification.recipientRoles n = None ->
    Notification.recipientId n = None ->
    addNotification user n l = l).
  { intros l n Hroles Hid. unfold addNotification.
    destruct user; [ | done ]. by rewrite Hroles, Hid. }
  split; [ | split; [ | split; [ | split ] ] ].
  - intros n s. unfold addNotification at 1.
    destruct user as [u | ]; [ | by left ].
    destruct (negb _) eqn:Hreceive; [ by left | ].
    apply negb_false_iff in Hreceive.
    intros [-> | Hold]%elem_of_cons; [ right | by left ].
    exists u. split; [ done | ]. split; [ done | ].
    split.
    { unfold getUserNotifications, addNotification. rewrite Hreceive. simpl.
      rewrite bool_decide_true by done. apply list_elem_of_here. }
    apply orb_true_iff in Hreceive as [Hroles | Hid].
    + left. destruct (Notification.recipientRoles n); [ | discriminate Hroles ].
      unfold includes in Hroles. by apply bool_decide_eq_true in Hroles.
    + right. destruct (Notification.recipientId n); [ | discriminate Hid ].
      by apply bool_decide_eq_true in Hid as ->.
  - apply Hdropped.
  - intros newStage recipientIds. unfold Kanban_notify.
    destruct (0 <? List.length recipientIds)%nat; [ | done ].
    by apply Hdropped.
  - intros u -> Hrole. unfold form_notify, addNotification, includes. simpl.
    by rewrite bool_decide_false.
  - intros u [technician | ]; [ | done ]. unfold assigned_notify.
    case_bool_decide as Hself; simpl; [ done | ].
    unfold addNotification. simpl. by rewrite bool_decide_false.
Qed.

Lemma notifications_stay_with_their_sender_witness :
  form_notify (Some Sample.customer) [] = [].
Proof.
  refine (proj1 (proj2 (proj2 (proj2 (notifications_stay_with_their_sender
            (Some Sample.customer) [])))) Sample.customer eq_refl _).
  by_evaluation.
Defined.

(** ** Changing the stage from the detail page *)

(** X27.  The detail page checks no transition: for a caller who may update
    the request, every stage of its select is sent and stored, whatever
    the stage of the request is (Scrap after the confirmation only), also
    when the board would refuse the move, as for a request in Scrap.
    Declining the confirmation sends nothing. *)
Theorem detail_page_makes_any_transition env st user (id : ObjectId) r
    (t : string) (confirm : bool)
    (Hwf : wf_store st)
    (Hr : requests st !! id = Some r)
    (Hcan : canUpdate user r = true)
    (Hvalid : MaintenanceRequest.validate r = [])
    (Ht : t ∈ stages)
    (Hnofail : forall c, fails env c = false) :
  (t = "Scrap" -> confirm = false ->
   handleStageChange user id t confirm env st = (st, None))
  /\ ((t = "Scrap" -> confirm = true) ->
      exists st' resp,
        handleStageChange user id t confirm env st = (st', Some resp)
        /\ status resp = 200
        /\ requests st' !! id = Some (set_stage r t))
  /\ (isValidTransition (MaintenanceRequest.stage r) t = false ->
      drag_and_drop user [r] id (Some t) confirm env st = (st, None)).
Proof.
  split; [ | split ].
  - intros -> ->. reflexivity.
  - intros Hconfirm. unfold handleStageChange.
    assert (Hsend : bool_decide (t = "Scrap") && negb confirm = false).
    { case_bool_decide as Hscrap; [ | done ]. by rewrite (Hconfirm Hscrap). }
    rewrite Hsend.
    destruct (updateRequestStage_commits_any_stage env st user id r t
                Hwf Hr Hcan Hvalid Ht Hnofail) as [Hstatus Hstored].
    destruct (updateRequestStage user id (Some t) env st) as [st' resp].
    by exists st', resp.
  - intros Hinvalid. unfold drag_and_drop, Kanban_drop, handleDragEnd. simpl.
    pose proof (Hwf _ _ Hr) as Hid. simpl in Hid.
    rewrite (bool_decide_true _ Hid).
    destruct (isDraggable user (MaintenanceRequest.stage r)); [ | done ].
    case_bool_decide; [ done | ]. by rewrite Hinvalid.
Qed.

Lemma detail_page_makes_any_transition_witness :
  exists st' resp,
    handleStageChange Sample.admin 1000%N "New" false Sample.env Sample.scrapped
    = (st', Some resp)
    /\ status resp = 200
    /\ requests st' !! 1000%N = Some (set_stage (set_stage Sample.ticket "Scrap") "New").
Proof.
  refine (proj1 (proj2 (detail_page_makes_any_transition Sample.env Sample.scrapped
            Sample.admin 1000%N (set_stage Sample.ticket "Scrap") "New" false
            _ _ _ _ _ _)) _).
  - intros i r Hr. simpl in Hr. apply lookup_singleton_Some in Hr as [<- <-].
    reflexivity.
  - vm_compute. reflexivity.
  - reflexivity.
  - reflexivity.
  - by_evaluation.
  - reflexivity.
  - discriminate.
Defined.
